(** * Automated timetable generation by a genetic algorithm (code.py.py)

    A shallow embedding of the scheduling engine of [code.py.py]:
    [Subject], [TimetableConfig], [TimetableChromosome] with its grid and
    occupancy dictionaries, [calculate_fitness] and [generate_timetable].
    Python exceptions are modelled by [result]; the [random] module is a
    random source that every library call draws from once. *)

From Stdlib Require Import ZArith Lia List String Bool Sorting.Sorted.
From stdpp Require Import base gmap strings list.
Import ListNotations.
Open Scope Z_scope.

(** ** Data model *)

(** [@dataclass class Subject]. *)
Record Subject := mkSubject {
  name : string;
  code : string;
  faculty : string;
  hours_per_week : Z;
  is_lab : bool;
  room : string
}.

(** The dataclass [__eq__] compares the fields, as Rocq equality does. *)
Global Instance Subject_eq_dec : EqDecision Subject.
Proof. intros [] []. unfold Decision. repeat decide equality. Defined.

(** [class TimetableConfig]: [__init__] only stores its arguments. *)
Record TimetableConfig := mkConfig {
  days_per_week : Z;
  hours_per_day : Z;
  lunch_break_start : Z;
  lunch_break_duration : Z;
  branch : string;
  semester : Z;
  year : Z
}.

(** [TimetableConfig(...)] and [Subject(...)]: the constructors as called. *)
Definition TimetableConfig_init (days_per_week hours_per_day lunch_break_start
    lunch_break_duration : Z) (branch : string) (semester year : Z)
    : TimetableConfig :=
  mkConfig days_per_week hours_per_day lunch_break_start lunch_break_duration
    branch semester year.

Definition Subject_init (name code faculty : string) (hours_per_week : Z)
    (is_lab : bool) (room : string) : Subject :=
  mkSubject name code faculty hours_per_week is_lab room.

(** [slots[day][hour].subject]: a [TimeSlot] only varies in its subject. *)
Abbreviation grid := (list (list (option Subject))).

(** [faculty_schedule] / [room_schedule]: [dict] of [set] of [(day, hour)]. *)
Abbreviation occupancy := (gmap string (gset (Z * Z))).

Record TimetableChromosome := mkChromosome {
  config : TimetableConfig;
  subjects : list Subject;
  slots : grid;
  fitness : Z;
  faculty_schedule : occupancy;
  room_schedule : occupancy
}.

(** ** Python exceptions and the random source *)

Inductive exn := IndexError | ValueError | KeyError.

Inductive result (A : Type) := Ok (a : A) | Raise (e : exn).
Arguments Ok {A} a.
Arguments Raise {A} e.

Definition bind_r {A B} (m : result A) (k : A -> result B) : result B :=
  match m with Ok a => k a | Raise e => Raise e end.

Notation "'let?' x ':=' m 'in' k" := (bind_r m (fun x => k))
  (at level 200, x pattern, m at level 100, k at level 200).

(** The random source: a sequence of raw draws and a read position. *)
Record rng := mkRng { draws : Z -> Z; pos : Z }.

Definition M (A : Type) : Type := rng -> result (A * rng).

Definition ret {A} (a : A) : M A := fun r => Ok (a, r).

Definition bind {A B} (m : M A) (k : A -> M B) : M B :=
  fun r => match m r with Ok (a, r') => k a r' | Raise e => Raise e end.

Definition lift {A} (m : result A) : M A :=
  fun r => match m with Ok a => Ok (a, r) | Raise e => Raise e end.

Notation "'let!' x ':=' m 'in' k" := (bind m (fun x => k))
  (at level 200, x pattern, m at level 100, k at level 200).

Definition draw : M Z := fun r => Ok (draws r (pos r), mkRng (draws r) (pos r + 1)).

(** [_randbelow(n)]: a value in [[0, n)]. *)
Definition randbelow (n : Z) : M Z := let! x := draw in ret (x mod n).

(** ** Python lists *)

(** [range(lo, hi)] and [range(n)]. *)
Definition range2 (lo hi : Z) : list Z :=
  map (fun k => lo + Z.of_nat k) (seq 0 (Z.to_nat (hi - lo))).

Definition range (n : Z) : list Z := range2 0 n.

(** [l[i]]: negative indices count from the end, others raise [IndexError]. *)
Definition py_index {A} (l : list A) (i : Z) : result A :=
  let n := Z.of_nat (length l) in
  let j := if i <? 0 then i + n else i in
  if (0 <=? j) && (j <? n) then
    match l !! Z.to_nat j with Some x => Ok x | None => Raise IndexError end
  else Raise IndexError.

(** [l[i] = x]. *)
Definition py_store {A} (l : list A) (i : Z) (x : A) : result (list A) :=
  let n := Z.of_nat (length l) in
  let j := if i <? 0 then i + n else i in
  if (0 <=? j) && (j <? n) then Ok (<[Z.to_nat j := x]> l)
  else Raise IndexError.

(** [random.choice(seq)]. *)
Definition choice {A} (l : list A) : M A :=
  match l with
  | [] => lift (Raise IndexError)
  | _ => let! i := randbelow (Z.of_nat (length l)) in lift (py_index l i)
  end.

(** [random.randint(a, b)]: [ValueError] on an empty range. *)
Definition randint (a b : Z) : M Z :=
  if b + 1 - a <=? 0 then lift (Raise ValueError)
  else let! i := randbelow (b + 1 - a) in ret (a + i).

(** [random.sample(population, 2)]: two distinct positions, as an ordered
    pair; every such pair is a possible outcome of one draw. *)
Definition sample2 {A} (l : list A) : M (A * A) :=
  let n := Z.of_nat (length l) in
  if n <? 2 then lift (Raise ValueError)
  else
    let! x := draw in
    let j1 := x mod n in
    let j2' := (x / n) mod (n - 1) in
    let j2 := if j1 <=? j2' then j2' + 1 else j2' in
    lift (let? a := py_index l j1 in let? b := py_index l j2 in Ok (a, b)).

(** [random.random()]: the draw [k] stands for the double [k * 2^-53]. *)
Definition random_float : M Z := let! x := draw in ret (x mod 2 ^ 53).

(** [random.random() < mutation_rate] with [mutation_rate = 0.1]: the double
    [0.1] is [3602879701896397 * 2^-55]. *)
Definition below_mutation_rate (k : Z) : bool := 4 * k <? 3602879701896397.

(** ** The chromosome *)

(** [slots[day][hour].subject] and [slots[day][hour].subject = s]. *)
Definition get_subject (g : grid) (day hour : Z) : result (option Subject) :=
  let? row := py_index g day in py_index row hour.

Definition set_subject (g : grid) (day hour : Z) (s : option Subject)
    : result grid :=
  let? row := py_index g day in
  let? row' := py_store row hour s in
  py_store g day row'.

Definition with_slots (ch : TimetableChromosome) (g : grid) :=
  mkChromosome (config ch) (subjects ch) g (fitness ch)
    (faculty_schedule ch) (room_schedule ch).

Definition with_fitness (ch : TimetableChromosome) (v : Z) :=
  mkChromosome (config ch) (subjects ch) (slots ch) v
    (faculty_schedule ch) (room_schedule ch).

Definition with_schedules (ch : TimetableChromosome) (fs rs : occupancy) :=
  mkChromosome (config ch) (subjects ch) (slots ch) (fitness ch) fs rs.

(** [_initialize_slots]. *)
Definition initialize_slots (cfg : TimetableConfig) : grid :=
  map (fun _ => map (fun _ => None) (range (hours_per_day cfg)))
    (range (days_per_week cfg)).

(** [k in m and x in m[k]]. *)
Definition in_schedule (m : occupancy) (k : string) (x : Z * Z) : bool :=
  match m !! k with Some st => bool_decide (x ∈ st) | None => false end.

(** [_is_slot_available]. *)
Definition is_slot_available (ch : TimetableChromosome) (day hour : Z)
    (subject : Subject) : bool :=
  let cfg := config ch in
  if in_schedule (faculty_schedule ch) (faculty subject) (day, hour) then false
  else if in_schedule (room_schedule ch) (room subject) (day, hour) then false
  else if (lunch_break_start cfg <=? hour) &&
          (hour <? lunch_break_start cfg + lunch_break_duration cfg) then false
  else true.

(** [if k not in m: m[k] = set()] followed by [m[k].add(x)]. *)
Definition add_slot (m : occupancy) (k : string) (x : Z * Z) : occupancy :=
  <[k := {[x]} ∪ default ∅ (m !! k)]> m.

(** [_add_to_schedule]. *)
Definition add_to_schedule (ch : TimetableChromosome) (day hour : Z)
    (subject : Subject) : TimetableChromosome :=
  with_schedules ch
    (add_slot (faculty_schedule ch) (faculty subject) (day, hour))
    (add_slot (room_schedule ch) (room subject) (day, hour)).

(** [for x in xs:] over a body that may raise. *)
Fixpoint for_r {A S} (xs : list A) (body : A -> S -> result S) (st : S)
    : result S :=
  match xs with
  | [] => Ok st
  | x :: xs' => let? st' := body x st in for_r xs' body st'
  end.

(** [for day in range(days_per_week): for hour in range(hours_per_day):]. *)
Definition cells (cfg : TimetableConfig) : list (Z * Z) :=
  list_prod (range (days_per_week cfg)) (range (hours_per_day cfg)).

(** ** [_generate_random_schedule] *)

Definition all_slots (cfg : TimetableConfig) : list (Z * Z) :=
  List.filter (fun '(day, hour) =>
      negb ((hour >=? lunch_break_start cfg) &&
            (hour <? lunch_break_start cfg + lunch_break_duration cfg)))
    (cells cfg).

(** [self.slots[day][hour].subject = subject] then [_add_to_schedule]. *)
Definition assign (ch : TimetableChromosome) (day hour : Z) (subject : Subject)
    : result TimetableChromosome :=
  let? g := set_subject (slots ch) day hour (Some subject) in
  Ok (add_to_schedule (with_slots ch g) day hour subject).

(** [for h in range(3): ...] of a 3-hour lab. *)
Definition assign_block (ch : TimetableChromosome) (day hour : Z)
    (subject : Subject) : result TimetableChromosome :=
  for_r (range 3) (fun h c => assign c day (hour + h) subject) ch.

Definition max_attempts : nat := 1000.

(** The [while hours_left > 0 and attempts < max_attempts] loop of one
    subject; [fuel] is [max_attempts - attempts]. *)
Fixpoint place_subject (fuel : nat) (avail : list (Z * Z)) (subject : Subject)
    (hours_left : Z) (ch : TimetableChromosome) : M TimetableChromosome :=
  match fuel with
  | O => ret ch
  | S fuel' =>
    if hours_left >? 0 then
      if is_lab subject && (hours_left >=? 3) then
        let! (day, hour) := choice avail in
        if (hour + 2 <? hours_per_day (config ch)) &&
           is_slot_available ch day hour subject &&
           is_slot_available ch day (hour + 1) subject &&
           is_slot_available ch day (hour + 2) subject
        then
          let! ch' := lift (assign_block ch day hour subject) in
          place_subject fuel' avail subject (hours_left - 3) ch'
        else place_subject fuel' avail subject hours_left ch
      else
        let! (day, hour) := choice avail in
        if is_slot_available ch day hour subject then
          let! ch' := lift (assign ch day hour subject) in
          place_subject fuel' avail subject (hours_left - 1) ch'
        else place_subject fuel' avail subject hours_left ch
    else ret ch
  end.

(** [for subject in self.subjects:]. *)
Fixpoint place_all (avail : list (Z * Z)) (subs : list Subject)
    (ch : TimetableChromosome) : M TimetableChromosome :=
  match subs with
  | [] => ret ch
  | s :: rest =>
    let! ch' := place_subject max_attempts avail s (hours_per_week s) ch in
    place_all avail rest ch'
  end.

Definition generate_random_schedule (ch : TimetableChromosome)
    : M TimetableChromosome :=
  place_all (all_slots (config ch)) (subjects ch) ch.

(** [TimetableChromosome(config, subjects)]. *)
Definition new_chromosome (cfg : TimetableConfig) (subs : list Subject)
    : M TimetableChromosome :=
  generate_random_schedule (mkChromosome cfg subs (initialize_slots cfg) 0 ∅ ∅).

(** ** [calculate_fitness] *)

(** The faculty and the room conflict checks: the same loop over a key. *)
Definition conflict_scan (key : Subject -> string) (cfg : TimetableConfig)
    (g : grid) (fit : Z) : result Z :=
  let? (fit', _) :=
    for_r (cells cfg) (fun '(day, hour) '(fit, seen) =>
      let? s := get_subject g day hour in
      match s with
      | Some subj =>
        let k := key subj in
        let st := default ∅ (seen !! k) in
        let fit' := if bool_decide ((day, hour) ∈ st) then fit - 30 else fit in
        Ok (fit', <[k := {[(day, hour)]} ∪ st]> (seen : occupancy))
      | None => Ok (fit, seen)
      end) (fit, ∅) in
  Ok fit'.

(** The lunch break check. *)
Definition lunch_scan (cfg : TimetableConfig) (g : grid) (fit : Z) : result Z :=
  for_r (list_prod (range (days_per_week cfg))
           (range2 (lunch_break_start cfg)
              (lunch_break_start cfg + lunch_break_duration cfg)))
    (fun '(day, hour) fit =>
       let? s := get_subject g day hour in
       match s with Some _ => Ok (fit - 20) | None => Ok fit end) fit.

(** The lab continuity check. *)
Definition lab_scan (cfg : TimetableConfig) (g : grid) (fit : Z) : result Z :=
  for_r (list_prod (range (days_per_week cfg)) (range (hours_per_day cfg - 2)))
    (fun '(day, hour) fit =>
       let? s := get_subject g day hour in
       match s with
       | Some subj =>
         if is_lab subj then
           let? s1 := get_subject g day (hour + 1) in
           match s1 with
           | None => Ok (fit - 30)
           | Some t1 =>
             let? s2 := get_subject g day (hour + 2) in
             match s2 with
             | None => Ok (fit - 30)
             | Some t2 =>
               if bool_decide (t1 <> subj) || bool_decide (t2 <> subj)
               then Ok (fit - 30) else Ok fit
             end
           end
         else Ok fit
       | None => Ok fit
       end) fit.

(** [calculate_fitness]: stores and returns [max(0, fitness)]. *)
Definition calculate_fitness (ch : TimetableChromosome)
    : result (Z * TimetableChromosome) :=
  let cfg := config ch in
  let g := slots ch in
  let? f1 := conflict_scan faculty cfg g 100 in
  let? f2 := conflict_scan room cfg g f1 in
  let? f3 := lunch_scan cfg g f2 in
  let? f4 := lab_scan cfg g f3 in
  let v := Z.max 0 f4 in
  Ok (v, with_fitness ch v).

(** ** [generate_timetable] *)

Definition population_size : Z := 50.
Definition generations : nat := 100.

(** [[TimetableChromosome(config, subjects) for _ in range(n)]]. *)
Fixpoint new_population (n : nat) (cfg : TimetableConfig) (subs : list Subject)
    : M (list TimetableChromosome) :=
  match n with
  | O => ret []
  | S n' =>
    let! c := new_chromosome cfg subs in
    let! cs := new_population n' cfg subs in
    ret (c :: cs)
  end.

(** [for chromosome in population: chromosome.calculate_fitness()]. *)
Fixpoint evaluate_all (pop : list TimetableChromosome)
    : result (list TimetableChromosome) :=
  match pop with
  | [] => Ok []
  | c :: cs =>
    let? (_, c') := calculate_fitness c in
    let? cs' := evaluate_all cs in
    Ok (c' :: cs')
  end.

(** [population.sort(key=lambda x: x.fitness, reverse=True)]: a stable sort,
    equal keys keep their order. *)
Fixpoint insert_desc (c : TimetableChromosome) (l : list TimetableChromosome)
    : list TimetableChromosome :=
  match l with
  | [] => [c]
  | x :: l' => if fitness x <? fitness c then c :: x :: l' else x :: insert_desc c l'
  end.

Definition sort_desc (l : list TimetableChromosome) : list TimetableChromosome :=
  fold_left (fun acc c => insert_desc c acc) l [].

(** The crossover loop: days before [crossover_point] from [parent1]. *)
Definition crossover (cfg : TimetableConfig) (crossover_point : Z)
    (parent1 parent2 child : TimetableChromosome) : result TimetableChromosome :=
  let? g := for_r (cells cfg) (fun '(day, hour) g =>
      let? s := get_subject (slots (if day <? crossover_point then parent1
                                    else parent2)) day hour in
      set_subject g day hour s) (slots child) in
  Ok (with_slots child g).

(** [child.faculty_schedule = {}; child.room_schedule = {}] and the loop of
    [_add_to_schedule] over the occupied cells. *)
Definition rebuild_schedules (cfg : TimetableConfig) (g : grid)
    : result (occupancy * occupancy) :=
  for_r (cells cfg) (fun '(day, hour) '(fs, rs) =>
      let? s := get_subject g day hour in
      match s with
      | Some subj =>
        Ok (add_slot fs (faculty subj) (day, hour), add_slot rs (room subj) (day, hour))
      | None => Ok (fs, rs)
      end) (∅, ∅).

Definition rebuild_occupancy (cfg : TimetableConfig) (child : TimetableChromosome)
    : result TimetableChromosome :=
  let? (fs, rs) := rebuild_schedules cfg (slots child) in
  Ok (with_schedules child fs rs).

(** [m[k].remove(x)] and [m[k].add(x)]: [KeyError] on a missing key or
    (for [remove]) a missing element. *)
Definition occ_remove (m : occupancy) (k : string) (x : Z * Z) : result occupancy :=
  match m !! k with
  | Some st => if bool_decide (x ∈ st) then Ok (<[k := st ∖ {[x]}]> m)
               else Raise KeyError
  | None => Raise KeyError
  end.

Definition occ_add (m : occupancy) (k : string) (x : Z * Z) : result occupancy :=
  match m !! k with
  | Some st => Ok (<[k := {[x]} ∪ st]> m)
  | None => Raise KeyError
  end.

(** The swap of two occupied slots, once the four positions are drawn. *)
Definition swap_slots (child : TimetableChromosome) (day1 hour1 day2 hour2 : Z)
    : result TimetableChromosome :=
  let? slot1 := get_subject (slots child) day1 hour1 in
  let? slot2 := get_subject (slots child) day2 hour2 in
  match slot1, slot2 with
  | Some s1, Some s2 =>
    let fs := faculty_schedule child in
    let rs := room_schedule child in
    let can_swap :=
      negb (in_schedule fs (faculty s1) (day2, hour2)) &&
      negb (in_schedule rs (room s1) (day2, hour2)) &&
      negb (in_schedule fs (faculty s2) (day1, hour1)) &&
      negb (in_schedule rs (room s2) (day1, hour1)) in
    if can_swap then
      let? g := set_subject (slots child) day1 hour1 (Some s2) in
      let? g := set_subject g day2 hour2 (Some s1) in
      let? fs := occ_remove fs (faculty s1) (day1, hour1) in
      let? rs := occ_remove rs (room s1) (day1, hour1) in
      let? fs := occ_add fs (faculty s1) (day2, hour2) in
      let? rs := occ_add rs (room s1) (day2, hour2) in
      let? fs := occ_remove fs (faculty s2) (day2, hour2) in
      let? rs := occ_remove rs (room s2) (day2, hour2) in
      let? fs := occ_add fs (faculty s2) (day1, hour1) in
      let? rs := occ_add rs (room s2) (day1, hour1) in
      Ok (mkChromosome (config child) (subjects child) g (fitness child) fs rs)
    else Ok child
  | _, _ => Ok child
  end.

(** The mutation: four [randint] draws, then the swap. *)
Definition mutate (cfg : TimetableConfig) (child : TimetableChromosome)
    : M TimetableChromosome :=
  let! day1 := randint 0 (days_per_week cfg - 1) in
  let! hour1 := randint 0 (hours_per_day cfg - 1) in
  let! day2 := randint 0 (days_per_week cfg - 1) in
  let! hour2 := randint 0 (hours_per_day cfg - 1) in
  lift (swap_slots child day1 hour1 day2 hour2).

(** One iteration of [while len(offspring) < population_size - len(parents)]. *)
Definition make_child (cfg : TimetableConfig) (subs : list Subject)
    (parents : list TimetableChromosome) : M TimetableChromosome :=
  let! (parent1, parent2) := sample2 parents in
  let! child := new_chromosome cfg subs in
  let! crossover_point := randint 1 (days_per_week cfg - 1) in
  let! child := lift (crossover cfg crossover_point parent1 parent2 child) in
  let! child := lift (rebuild_occupancy cfg child) in
  let! r := random_float in
  if below_mutation_rate r then mutate cfg child else ret child.

(** Each iteration appends one child, so the loop runs [n] times. *)
Fixpoint make_offspring (n : nat) (cfg : TimetableConfig) (subs : list Subject)
    (parents offspring : list TimetableChromosome) : M (list TimetableChromosome) :=
  match n with
  | O => ret offspring
  | S n' =>
    let! child := make_child cfg subs parents in
    make_offspring n' cfg subs parents (offspring ++ [child])
  end.

(** A generation either stops early ([break]) or continues. *)
Inductive outcome := Stop (pop : list TimetableChromosome)
                   | Continue (pop : list TimetableChromosome).

Definition generation_step (cfg : TimetableConfig) (subs : list Subject)
    (population : list TimetableChromosome) : M outcome :=
  let! evaluated := lift (evaluate_all population) in
  let sorted := sort_desc evaluated in
  let! top := lift (py_index sorted 0) in
  if fitness top =? 100 then ret (Stop sorted)
  else
    let parents := take (Z.to_nat (population_size / 2)) sorted in
    let! offspring := make_offspring
        (Z.to_nat (population_size - Z.of_nat (length parents)))
        cfg subs parents [] in
    ret (Continue (parents ++ offspring)).

(** [for generation in range(generations):]. *)
Fixpoint run_generations (n : nat) (cfg : TimetableConfig) (subs : list Subject)
    (population : list TimetableChromosome) : M (list TimetableChromosome) :=
  match n with
  | O => ret population
  | S n' =>
    let! o := generation_step cfg subs population in
    match o with
    | Stop pop => ret pop
    | Continue pop => run_generations n' cfg subs pop
    end
  end.

(** [max(population, key=lambda x: x.fitness)]: the first maximum. *)
Definition max_by_fitness (pop : list TimetableChromosome)
    : result TimetableChromosome :=
  match pop with
  | [] => Raise ValueError
  | c :: cs =>
    Ok (fold_left (fun best x => if fitness best <? fitness x then x else best) cs c)
  end.

Definition final_population (cfg : TimetableConfig) (subs : list Subject)
    : M (list TimetableChromosome) :=
  let! population := new_population (Z.to_nat population_size) cfg subs in
  run_generations generations cfg subs population.

Definition generate_timetable (cfg : TimetableConfig) (subs : list Subject)
    : M TimetableChromosome :=
  let! population := final_population cfg subs in
  lift (max_by_fitness population).

(** ** [main]: the Generate Timetable button *)

(** The bounds of the [number_input] widgets of [main] for the configuration. *)
Definition main_config_inputs (days hours lunch_start lunch_duration : Z) : Prop :=
  1 <= days <= 6 /\ 1 <= hours <= 10 /\ 0 <= lunch_start <= hours - 1 /\
  1 <= lunch_duration <= 2.

(** The bounds of the [Hours per week] widget of the subject form. *)
Definition main_subject_input (s : Subject) : Prop := 1 <= hours_per_week s <= 10.

(** [if st.button("Generate Timetable") and st.session_state.subjects:] with
    the button pressed: the configuration is built from the widgets and
    [generate_timetable] is called; [None] when no subject was added. *)
Definition main_generate (days hours lunch_start lunch_duration : Z) (branch : string)
    (semester year : Z) (subs : list Subject) : M (option TimetableChromosome) :=
  match subs with
  | [] => ret None
  | _ =>
    let config := TimetableConfig_init days hours lunch_start lunch_duration
                    branch semester year in
    let! timetable := generate_timetable config subs in
    ret (Some timetable)
  end.

(** ** Derived notions used by the statements *)

(** The score [calculate_fitness] returns. *)
Definition score (ch : TimetableChromosome) : result Z :=
  let? (v, _) := calculate_fitness ch in Ok v.

(** [m[k]], with a missing key read as the empty set. *)
Definition occ_of (m : occupancy) (k : string) : gset (Z * Z) := default ∅ (m !! k).

Definition in_lunch (cfg : TimetableConfig) (hour : Z) : Prop :=
  lunch_break_start cfg <= hour < lunch_break_start cfg + lunch_break_duration cfg.

(** Every grid cell whose hour lies in the lunch window is empty. *)
Definition lunch_free (cfg : TimetableConfig) (g : grid) : Prop :=
  forall (d h : nat) row x, g !! d = Some row -> row !! h = Some x ->
    in_lunch cfg (Z.of_nat h) -> x = None.

Definition outcome_population (o : outcome) : list TimetableChromosome :=
  match o with Stop p => p | Continue p => p end.

(** The populations [generate_timetable] goes through. *)
Inductive reachable (cfg : TimetableConfig) (subs : list Subject)
    : list TimetableChromosome -> Prop :=
| reachable_init r pop r' :
    new_population (Z.to_nat population_size) cfg subs r = Ok (pop, r') ->
    reachable cfg subs pop
| reachable_step pop r o r' :
    reachable cfg subs pop ->
    generation_step cfg subs pop r = Ok (o, r') ->
    reachable cfg subs (outcome_population o).

(** No day has three consecutive hours outside the lunch window. *)
Definition no_lab_block (cfg : TimetableConfig) : Prop :=
  forall h, 0 <= h -> h + 2 < hours_per_day cfg ->
    in_lunch cfg h \/ in_lunch cfg (h + 1) \/ in_lunch cfg (h + 2).

Definition initial_chromosome (cfg : TimetableConfig) (subs : list Subject)
    : TimetableChromosome :=
  mkChromosome cfg subs (initialize_slots cfg) 0 ∅ ∅.

(** The invariant of a chromosome under construction. *)
Definition placed_ok (cfg : TimetableConfig) (ch : TimetableChromosome) : Prop :=
  config ch = cfg /\ lunch_free cfg (slots ch).

(** The valid configurations of the spec: positive numbers of days and hours,
    a lunch window inside the day. *)
Definition valid_config (cfg : TimetableConfig) : Prop :=
  0 < days_per_week cfg /\ 0 < hours_per_day cfg /\ 0 <= lunch_break_start cfg /\
  lunch_break_start cfg + lunch_break_duration cfg <= hours_per_day cfg.

(** The random source after one draw. *)
Definition next (r : rng) : rng := mkRng (draws r) (pos r + 1).

(** ** Invariants of the engine and helpers of the statements *)

(** The grid has [days_per_week] rows of [hours_per_day] cells each. *)
Definition shaped (cfg : TimetableConfig) (g : grid) : Prop :=
  length g = Z.to_nat (days_per_week cfg) /\
  Forall (fun row => length row = Z.to_nat (hours_per_day cfg)) g.

(** Every occupied cell is recorded under its subject's faculty and room. *)
Definition indexed (cfg : TimetableConfig) (ch : TimetableChromosome) : Prop :=
  forall d h S, In (d, h) (cells cfg) -> get_subject (slots ch) d h = Ok (Some S) ->
    (d, h) ∈ occ_of (faculty_schedule ch) (faculty S) /\
    (d, h) ∈ occ_of (room_schedule ch) (room S).

(** What every chromosome of the engine satisfies. *)
Definition well_formed (cfg : TimetableConfig) (ch : TimetableChromosome) : Prop :=
  config ch = cfg /\ shaped cfg (slots ch) /\ indexed cfg ch /\ 0 <= fitness ch <= 100.

(** One step of [max(population, key=lambda x: x.fitness)]: the later
    chromosome replaces the best so far only when its fitness is larger. *)
Definition keep_max (best x : TimetableChromosome) : TimetableChromosome :=
  if fitness best <? fitness x then x else best.

(** The order of [sort(key=fitness, reverse=True)]. *)
Definition fitness_ge (a b : TimetableChromosome) : Prop := fitness b <= fitness a.

(** The exceptions the run can raise. *)
Definition py_error (e : exn) : Prop := e = IndexError \/ e = ValueError.

(** The cached fitness of a chromosome is its score, or still the
    constructor's 0. *)
Definition fitness_cached (c : TimetableChromosome) : Prop :=
  fitness c = 0 \/ score c = Ok (fitness c).

(** ** Concrete inputs *)

Definition lab3 : Subject :=
  Subject_init "Networks Lab" "CS391" "Rao" 3 true "L1".
Definition lab1 : Subject :=
  Subject_init "Python Lab" "CS392" "Iyer" 1 true "L2".
Definition theory_a : Subject :=
  Subject_init "Compilers" "CS301" "Menon" 3 false "R101".
Definition theory_b : Subject :=
  Subject_init "Automata" "CS302" "Menon" 3 false "R101".

(** One day of three hours, lunch at hour 2: two hours outside lunch. *)
Definition cfg_short_day : TimetableConfig :=
  TimetableConfig_init 1 3 2 1 "CSE" 3 2.
(** One day of five hours, lunch at hour 4. *)
Definition cfg_five_hours : TimetableConfig :=
  TimetableConfig_init 1 5 4 1 "CSE" 3 2.
(** One day of three hours, lunch at hours 1 and 2. *)
Definition cfg_one_day : TimetableConfig :=
  TimetableConfig_init 1 3 1 2 "CSE" 3 2.
(** One day of one hour, all of it lunch. *)
Definition cfg_all_lunch : TimetableConfig :=
  TimetableConfig_init 1 1 0 1 "CSE" 3 2.
(** Two days of four hours, lunch at hour 3. *)
Definition cfg_two_days : TimetableConfig :=
  TimetableConfig_init 2 4 3 1 "CSE" 3 2.
(** No days, no hours, a lunch window starting at -1. *)
Definition cfg_empty_week : TimetableConfig :=
  TimetableConfig_init 0 0 (-1) 0 "CSE" 3 2.
Definition no_hours_subject : Subject :=
  Subject_init "Seminar" "CS399" "Menon" 0 false "R101".

Definition zero_source : rng := mkRng (fun _ => 0) 0.

(** A random source for [cfg_two_days] and [[lab3]]: the initial population
    alternates the lab on day 0 and on day 1; every later child is drawn from
    two parents with the lab on the same day, except the first child of the
    last generation, from a day-1 parent and a day-0 parent; no mutation. *)
Definition crossover_source : rng :=
  mkRng (fun n =>
    if n <? 50 then (if Z.even n then 0 else 3)
    else
      let m := n - 50 in
      let gen := m / 100 in
      let child := (m mod 100) / 4 in
      let k := m mod 4 in
      if k =? 0 then
        (if (gen =? 99) && (child =? 0) then 1 + 25 * 0
         else if Z.even child then 0 + 25 * 1 else 1 + 25 * 2)
      else if k =? 3 then 2 ^ 52
      else 0) 0.

Definition lab_block_chromosome : TimetableChromosome :=
  mkChromosome cfg_five_hours [lab3]
    [[Some lab3; Some lab3; Some lab3; None; None]] 0 ∅ ∅.

Definition theory_chromosome : TimetableChromosome :=
  mkChromosome cfg_two_days [theory_a; theory_b]
    [[Some theory_a; None; None; None]; [None; None; None; None]] 0 ∅ ∅.

(** A contiguous lab block on day 0 of [cfg_two_days]. *)
Definition lab_day_chromosome : TimetableChromosome :=
  mkChromosome cfg_two_days [lab3]
    [[Some lab3; Some lab3; Some lab3; None]; [None; None; None; None]] 0 ∅ ∅.

(** [one_day_chromosome] is what the initializer builds for [cfg_one_day]
    and [[lab1]]: the only non-lunch slot (0, 0) holds the lab. *)
Definition one_day_chromosome : TimetableChromosome :=
  mkChromosome cfg_one_day [lab1] [[Some lab1; None; None]] 0
    {[ "Iyer" := {[ (0, 0) ]} ]}%string {[ "L2" := {[ (0, 0) ]} ]}%string.

(** Two days of four hours with a two-hour lunch from hour 3. *)
Definition cfg_late_lunch : TimetableConfig :=
  TimetableConfig_init 2 4 3 2 "CSE" 3 2.

(** ** Lemmas: monads, loops and Python lists *)

Lemma bind_r_ok_inv {A B} (m : result A) (k : A -> result B) b :
  bind_r m k = Ok b -> exists a, m = Ok a /\ k a = Ok b.
Proof. destruct m; simpl; [eauto | discriminate]. Qed.

Lemma bind_ok {A B} (m : M A) (k : A -> M B) r a r' :
  m r = Ok (a, r') -> bind m k r = k a r'.
Proof. unfold bind. intros ->. reflexivity. Qed.

Lemma bind_raise {A B} (m : M A) (k : A -> M B) r e :
  m r = Raise e -> bind m k r = Raise e.
Proof. unfold bind. intros ->. reflexivity. Qed.

Lemma bind_ok_inv {A B} (m : M A) (k : A -> M B) r b r'' :
  bind m k r = Ok (b, r'') -> exists a r', m r = Ok (a, r') /\ k a r' = Ok (b, r'').
Proof. unfold bind. destruct (m r) as [[a r']|e]; [eauto | discriminate]. Qed.

Lemma lift_ok_inv {A} (m : result A) r a r' :
  lift m r = Ok (a, r') -> m = Ok a /\ r' = r.
Proof. unfold lift. destruct m; [intros [= -> ->]; auto | discriminate]. Qed.

(** Loop invariant of [for_r], indexed by the processed prefix. *)
Lemma for_r_inv {A S} (P : list A -> S -> Prop) (xs : list A)
    (body : A -> S -> result S) (st st' : S) :
  P [] st ->
  (forall pre x post s s', xs = pre ++ x :: post -> P pre s ->
     body x s = Ok s' -> P (pre ++ [x]) s') ->
  for_r xs body st = Ok st' -> P xs st'.
Proof.
  intros H0 Hstep.
  assert (Haux : forall suf pre s, xs = pre ++ suf -> P pre s ->
            for_r suf body s = Ok st' -> P xs st').
  { induction suf as [|x suf IH]; intros pre s Hxs Hp Hrun; simpl in Hrun.
    - injection Hrun as <-. rewrite Hxs, app_nil_r. exact Hp.
    - apply bind_r_ok_inv in Hrun as [s1 [Hb Hrest]].
      apply (IH (pre ++ [x]) s1); [rewrite <- app_assoc; exact Hxs
                                  | eapply Hstep; eauto | exact Hrest]. }
  intros Hrun. exact (Haux xs [] st eq_refl H0 Hrun).
Qed.

(** A loop whose every step succeeds succeeds. *)
Lemma for_r_total {A S} (P : S -> Prop) (xs : list A)
    (body : A -> S -> result S) (st : S) :
  P st ->
  (forall x s, In x xs -> P s -> exists s', body x s = Ok s' /\ P s') ->
  exists st', for_r xs body st = Ok st' /\ P st'.
Proof.
  revert st. induction xs as [|x xs IH]; intros st Hp Hstep; simpl.
  - eauto.
  - destruct (Hstep x st (or_introl eq_refl) Hp) as [s1 [-> Hs1]]. simpl.
    apply IH; auto. intros y s Hy. apply Hstep. right. exact Hy.
Qed.

Lemma in_range2 (lo hi x : Z) : In x (range2 lo hi) <-> lo <= x < hi.
Proof.
  unfold range2. rewrite in_map_iff. split.
  - intros [k [<- Hk]]. apply in_seq in Hk. lia.
  - intros Hx. exists (Z.to_nat (x - lo)). split; [lia|]. apply in_seq. lia.
Qed.

Lemma in_range (n x : Z) : In x (range n) <-> 0 <= x < n.
Proof. unfold range. rewrite in_range2. lia. Qed.

Lemma range2_NoDup (lo hi : Z) : List.NoDup (range2 lo hi).
Proof.
  unfold range2. apply Finite.Injective_map_NoDup; [|apply seq_NoDup].
  intros a b H. lia.
Qed.

Lemma list_prod_NoDup {A B} (l1 : list A) (l2 : list B) :
  List.NoDup l1 -> List.NoDup l2 -> List.NoDup (list_prod l1 l2).
Proof.
  intros H1 H2. induction H1 as [|a l1 Ha H1 IH]; simpl; [constructor|].
  apply List.NoDup_app; [| exact IH |].
  - apply Finite.Injective_map_NoDup; [intros x y [=]; auto | exact H2].
  - intros [x y] Hx Hy.
    apply in_map_iff in Hx as [z [[= <- <-] _]].
    apply in_prod_iff in Hy as [Hy _]. contradiction.
Qed.

Lemma in_cells (cfg : TimetableConfig) (d h : Z) :
  In (d, h) (cells cfg) <-> 0 <= d < days_per_week cfg /\ 0 <= h < hours_per_day cfg.
Proof. unfold cells. rewrite in_prod_iff, !in_range. tauto. Qed.

Lemma cells_NoDup (cfg : TimetableConfig) : List.NoDup (cells cfg).
Proof. apply list_prod_NoDup; apply range2_NoDup. Qed.

Lemma py_resolve_nonneg (n : nat) (i : Z) :
  0 <= i -> Z.to_nat (if i <? 0 then i + Z.of_nat n else i) = Z.to_nat i.
Proof. intros Hi. replace (i <? 0) with false by (symmetry; apply Z.ltb_ge; lia). reflexivity. Qed.

Lemma py_index_inv {A} (l : list A) (i : Z) x :
  py_index l i = Ok x ->
  l !! Z.to_nat (if i <? 0 then i + Z.of_nat (length l) else i) = Some x.
Proof.
  unfold py_index. cbv zeta. intros H.
  destruct (_ && _) eqn:Hb; [|discriminate].
  destruct (l !! _) eqn:Hl; [injection H as <- | discriminate]. reflexivity.
Qed.

Lemma py_index_elem {A} (l : list A) (i : Z) x : py_index l i = Ok x -> In x l.
Proof.
  intros H. apply py_index_inv in H.
  apply list_elem_of_In, list_elem_of_lookup. eauto.
Qed.

Lemma py_index_lookup {A} (l : list A) (i : Z) x :
  0 <= i -> l !! Z.to_nat i = Some x -> py_index l i = Ok x.
Proof.
  intros Hi Hl. pose proof (lookup_lt_Some _ _ _ Hl) as Hlt.
  unfold py_index. cbv zeta.
  replace (i <? 0) with false by (symmetry; apply Z.ltb_ge; lia).
  replace ((0 <=? i) && (i <? Z.of_nat (length l))) with true
    by (symmetry; apply andb_true_iff; split; [apply Z.leb_le | apply Z.ltb_lt]; lia).
  rewrite Hl. reflexivity.
Qed.

Lemma py_store_inv {A} (l : list A) (i : Z) x l' :
  py_store l i x = Ok l' ->
  let j := Z.to_nat (if i <? 0 then i + Z.of_nat (length l) else i) in
  (j < length l)%nat /\ l' = <[j := x]> l.
Proof.
  unfold py_store. cbv zeta. intros H.
  destruct (_ && _) eqn:Hb; [injection H as <- | discriminate].
  apply andb_true_iff in Hb as [H1 H2].
  rewrite Z.leb_le in H1. rewrite Z.ltb_lt in H2.
  split; [lia | reflexivity].
Qed.

Lemma get_subject_lookup (g : grid) d h v :
  0 <= d -> 0 <= h -> get_subject g d h = Ok v ->
  exists row, g !! Z.to_nat d = Some row /\ row !! Z.to_nat h = Some v.
Proof.
  unfold get_subject. intros Hd Hh H.
  apply bind_r_ok_inv in H as [row [Hrow Hv]].
  apply py_index_inv in Hrow. apply py_index_inv in Hv.
  rewrite py_resolve_nonneg in Hrow, Hv by assumption. eauto.
Qed.

Lemma get_subject_of_lookup (g : grid) d h row v :
  0 <= d -> 0 <= h -> g !! Z.to_nat d = Some row -> row !! Z.to_nat h = Some v ->
  get_subject g d h = Ok v.
Proof.
  intros Hd Hh Hrow Hv. unfold get_subject.
  rewrite (py_index_lookup g d row Hd Hrow). simpl.
  exact (py_index_lookup row h v Hh Hv).
Qed.

Lemma set_subject_inv (g : grid) d h v g' :
  set_subject g d h v = Ok g' ->
  exists jd jh row, g !! jd = Some row /\ (jh < length row)%nat /\
    g' = <[jd := <[jh := v]> row]> g /\ (0 <= h -> jh = Z.to_nat h).
Proof.
  unfold set_subject. intros H.
  apply bind_r_ok_inv in H as [row [Hrow H]].
  apply bind_r_ok_inv in H as [row' [Hrow' H]].
  apply py_index_inv in Hrow.
  apply py_store_inv in Hrow' as [Hjh ->].
  apply py_store_inv in H as [Hjd ->].
  do 3 eexists. split; [exact Hrow|]. split; [exact Hjh|].
  split; [reflexivity|]. apply py_resolve_nonneg.
Qed.

(** ** Lemmas: random choices, initialization, fitness and the engine *)

Lemma choice_single {A} (a : A) (r : rng) : choice [a] r = Ok (a, next r).
Proof.
  unfold choice, randbelow, bind, draw, ret, lift. cbn -[Z.modulo].
  rewrite Z.mod_1_r. reflexivity.
Qed.

Lemma py_index_replicate {A} (c : A) (n : nat) (j : Z) :
  0 <= j < Z.of_nat n -> py_index (replicate n c) j = Ok c.
Proof.
  intros Hj. apply py_index_lookup; [lia|]. apply lookup_replicate_2. lia.
Qed.

Lemma sample2_replicate {A} (c : A) (n : nat) (r : rng) :
  (2 <= n)%nat -> sample2 (replicate n c) r = Ok ((c, c), next r).
Proof.
  intros Hn. unfold sample2. rewrite length_replicate.
  replace (Z.of_nat n <? 2) with false by (symmetry; apply Z.ltb_ge; lia).
  unfold bind, draw, lift. cbn -[Z.modulo Z.div py_index].
  set (x := draws r (pos r)).
  pose proof (Z.mod_pos_bound x (Z.of_nat n) ltac:(lia)) as H1.
  pose proof (Z.mod_pos_bound (x / Z.of_nat n) (Z.of_nat n - 1) ltac:(lia)) as H2.
  rewrite (py_index_replicate c n) by lia.
  destruct (_ <=? _); rewrite (py_index_replicate c n) by lia; reflexivity.
Qed.

Lemma new_chromosome_one_day (r : rng) :
  new_chromosome cfg_one_day [lab1] r = Ok (one_day_chromosome, next r).
Proof.
  unfold new_chromosome, generate_random_schedule.
  change (all_slots _) with [(0, 0)].
  unfold place_all. cbn [subjects].
  change max_attempts with (S (pred max_attempts)).
  generalize (pred max_attempts) as f. intros f.
  cbn [place_subject].
  change (hours_per_week lab1 >? 0) with true.
  change (is_lab lab1 && (hours_per_week lab1 >=? 3)) with false. cbv iota.
  unfold bind at 1 2. cbv beta. rewrite choice_single.
  destruct f; vm_compute; reflexivity.
Qed.

Lemma new_population_one_day (n : nat) (r : rng) :
  new_population n cfg_one_day [lab1] r =
    Ok (replicate n one_day_chromosome, mkRng (draws r) (pos r + Z.of_nat n)).
Proof.
  revert r. induction n as [|n IH]; intros r; simpl new_population.
  - unfold ret. destruct r. simpl. rewrite Z.add_0_r. reflexivity.
  - rewrite (bind_ok _ _ r _ _ (new_chromosome_one_day r)).
    rewrite (bind_ok _ _ _ _ _ (IH (next r))). unfold ret, next. simpl.
    do 3 f_equal. lia.
Qed.

Lemma make_child_one_day (r : rng) :
  make_child cfg_one_day [lab1] (replicate 25 (with_fitness one_day_chromosome 70)) r
  = Raise ValueError.
Proof.
  unfold make_child.
  rewrite (bind_ok _ _ r _ _ (sample2_replicate _ 25 r ltac:(lia))). cbv beta iota.
  rewrite (bind_ok _ _ _ _ _ (new_chromosome_one_day (next r))). cbv beta.
  apply bind_raise. vm_compute. reflexivity.
Qed.

Lemma generation_step_one_day (r : rng) :
  generation_step cfg_one_day [lab1] (replicate 50 one_day_chromosome) r
  = Raise ValueError.
Proof.
  unfold generation_step.
  rewrite (bind_ok _ _ r (replicate 50 (with_fitness one_day_chromosome 70)) r)
    by (vm_compute; reflexivity).
  cbv beta zeta.
  rewrite (bind_ok _ _ r (with_fitness one_day_chromosome 70) r)
    by (vm_compute; reflexivity).
  cbv beta.
  change (fitness (with_fitness one_day_chromosome 70) =? 100) with false. cbv iota.
  replace (take (Z.to_nat (population_size / 2))
             (sort_desc (replicate 50 (with_fitness one_day_chromosome 70))))
    with (replicate 25 (with_fitness one_day_chromosome 70)) by (vm_compute; reflexivity).
  change (Z.to_nat (population_size - Z.of_nat (length
            (replicate 25 (with_fitness one_day_chromosome 70))))) with 25%nat.
  apply bind_raise. cbn [make_offspring].
  apply bind_raise. apply make_child_one_day.
Qed.

Lemma generate_timetable_one_day (r : rng) :
  generate_timetable cfg_one_day [lab1] r = Raise ValueError.
Proof.
  unfold generate_timetable. apply bind_raise.
  unfold final_population.
  rewrite (bind_ok _ _ r _ _ (new_population_one_day _ r)).
  change (Z.to_nat population_size) with 50%nat.
  change generations with (S (pred generations)).
  generalize (pred generations) as n. intros n.
  cbn [run_generations]. apply bind_raise. apply generation_step_one_day.
Qed.

Lemma choice_unfold {A} (l : list A) (r : rng) :
  choice l r = match l with
               | [] => Raise IndexError
               | _ => match py_index l (draws r (pos r) mod Z.of_nat (length l)) with
                      | Ok x => Ok (x, next r) | Raise e => Raise e end
               end.
Proof. destruct l; reflexivity. Qed.

Lemma choice_in {A} (l : list A) (r : rng) :
  l <> [] -> exists x, In x l /\ choice l r = Ok (x, next r).
Proof.
  intros Hl. rewrite choice_unfold.
  set (i := draws r (pos r) mod Z.of_nat (length l)).
  assert (Hi : 0 <= i < Z.of_nat (length l)).
  { apply Z.mod_pos_bound. destruct l; [congruence|]. simpl. lia. }
  destruct (lookup_lt_is_Some_2 l (Z.to_nat i)) as [x Hx]; [lia|].
  exists x. split; [apply list_elem_of_In, list_elem_of_lookup; eauto|].
  rewrite (py_index_lookup l i x) by (lia || exact Hx).
  destruct l; [congruence | reflexivity].
Qed.

Lemma is_slot_available_lunch (ch : TimetableChromosome) day hour s :
  in_lunch (config ch) hour -> is_slot_available ch day hour s = false.
Proof.
  unfold in_lunch, is_slot_available. intros [H1 H2].
  destruct (in_schedule _ _ _); [reflexivity|].
  destruct (in_schedule _ _ _); [reflexivity|].
  replace ((_ <=? hour) && (hour <? _)) with true; [reflexivity|].
  symmetry. apply andb_true_iff. rewrite Z.leb_le, Z.ltb_lt. lia.
Qed.

Lemma place_subject_no_block fuel (avail : list (Z * Z)) s hl ch r :
  avail <> [] -> (forall d h, In (d, h) avail -> 0 <= h) ->
  no_lab_block (config ch) -> is_lab s = true -> 3 <= hl ->
  exists r', place_subject fuel avail s hl ch r = Ok (ch, r').
Proof.
  intros Hav Hh Hnb Hlab Hhl. revert r.
  induction fuel as [|fuel IH]; intros r; cbn [place_subject].
  - exists r. reflexivity.
  - replace (hl >? 0) with true by (symmetry; apply Z.gtb_lt; lia).
    replace (hl >=? 3) with true by (symmetry; apply Z.geb_le; lia).
    rewrite Hlab. cbn [andb].
    destruct (choice_in avail r Hav) as [[d h] [Hin Hc]].
    unfold bind at 1. rewrite Hc. cbv beta iota.
    replace ((h + 2 <? hours_per_day (config ch)) && is_slot_available ch d h s &&
             is_slot_available ch d (h + 1) s && is_slot_available ch d (h + 2) s)
      with false; [apply IH|].
    destruct (h + 2 <? hours_per_day (config ch)) eqn:E; [|reflexivity].
    apply Z.ltb_lt in E. pose proof (Hh d h Hin) as H0.
    destruct (Hnb h H0 E) as [L|[L|L]]; apply (is_slot_available_lunch ch d _ s) in L;
      rewrite L; cbn [andb]; rewrite ?andb_false_r; reflexivity.
Qed.

Lemma place_all_no_block (avail : list (Z * Z)) subs ch r :
  avail <> [] -> (forall d h, In (d, h) avail -> 0 <= h) ->
  no_lab_block (config ch) ->
  Forall (fun s => is_lab s = true /\ 3 <= hours_per_week s) subs ->
  exists r', place_all avail subs ch r = Ok (ch, r').
Proof.
  intros Hav Hh Hnb Hsubs. revert r.
  induction Hsubs as [|s subs [Hlab Hhl] _ IH]; intros r; cbn [place_all].
  - exists r. reflexivity.
  - destruct (place_subject_no_block max_attempts avail s (hours_per_week s) ch r
                Hav Hh Hnb Hlab Hhl) as [r1 H1].
    rewrite (bind_ok _ _ _ _ _ H1). apply IH.
Qed.

Lemma all_slots_hour (cfg : TimetableConfig) d h :
  In (d, h) (all_slots cfg) -> 0 <= h.
Proof.
  unfold all_slots. intros H. apply filter_In in H as [H _].
  apply in_cells in H. lia.
Qed.

Lemma new_chromosome_no_block (cfg : TimetableConfig) subs r :
  all_slots cfg <> [] -> no_lab_block cfg ->
  Forall (fun s => is_lab s = true /\ 3 <= hours_per_week s) subs ->
  exists r', new_chromosome cfg subs r = Ok (initial_chromosome cfg subs, r').
Proof.
  intros Hav Hnb Hsubs. unfold new_chromosome, generate_random_schedule.
  cbn [config subjects].
  apply place_all_no_block; auto. apply all_slots_hour.
Qed.

Lemma new_population_no_block (n : nat) (cfg : TimetableConfig) subs r :
  all_slots cfg <> [] -> no_lab_block cfg ->
  Forall (fun s => is_lab s = true /\ 3 <= hours_per_week s) subs ->
  exists r', new_population n cfg subs r =
             Ok (replicate n (initial_chromosome cfg subs), r').
Proof.
  intros Hav Hnb Hsubs. revert r.
  induction n as [|n IH]; intros r; cbn [new_population].
  - exists r. reflexivity.
  - destruct (new_chromosome_no_block cfg subs r Hav Hnb Hsubs) as [r1 H1].
    rewrite (bind_ok _ _ _ _ _ H1).
    destruct (IH r1) as [r2 H2]. rewrite (bind_ok _ _ _ _ _ H2).
    exists r2. reflexivity.
Qed.

Lemma length_range2 (lo hi : Z) : length (range2 lo hi) = Z.to_nat (hi - lo).
Proof. unfold range2. rewrite length_map, length_seq. reflexivity. Qed.

Lemma get_subject_initial (cfg : TimetableConfig) d h :
  0 <= d < days_per_week cfg -> 0 <= h < hours_per_day cfg ->
  get_subject (initialize_slots cfg) d h = Ok None.
Proof.
  intros Hd Hh. unfold get_subject, initialize_slots.
  destruct (lookup_lt_is_Some_2 (range (days_per_week cfg)) (Z.to_nat d)) as [y Hy].
  { unfold range. rewrite length_range2. lia. }
  destruct (lookup_lt_is_Some_2 (range (hours_per_day cfg)) (Z.to_nat h)) as [z Hz].
  { unfold range. rewrite length_range2. lia. }
  rewrite (py_index_lookup _ d (map (fun _ => None) (range (hours_per_day cfg))));
    [| lia | change (map ?f ?l) with (f <$> l); rewrite list_lookup_fmap, Hy; reflexivity].
  cbn [bind_r].
  apply py_index_lookup; [lia|].
  change (map ?f ?l) with (f <$> l). rewrite list_lookup_fmap, Hz. reflexivity.
Qed.

Section EmptyGrid.

Variable cfg : TimetableConfig.
Variable g : grid.
Hypothesis g_empty : forall d h, 0 <= d < days_per_week cfg ->
  0 <= h < hours_per_day cfg -> get_subject g d h = Ok None.

Lemma conflict_scan_empty key fit : conflict_scan key cfg g fit = Ok fit.
Proof.
  unfold conflict_scan.
  lazymatch goal with |- context [for_r ?xs ?body ?st0] =>
    destruct (for_r_total (fun st : Z * occupancy => st.1 = fit) xs body st0)
      as [[f seen] [Hrun Hf]]; [reflexivity| |] end.
  - intros [d h] [f0 seen0] Hin Hf0. apply in_cells in Hin.
    cbn. rewrite g_empty by lia. cbn. eauto.
  - rewrite Hrun. cbn in Hf |- *. subst. reflexivity.
Qed.

Lemma lunch_scan_empty fit :
  0 <= lunch_break_start cfg ->
  lunch_break_start cfg + lunch_break_duration cfg <= hours_per_day cfg ->
  lunch_scan cfg g fit = Ok fit.
Proof.
  intros H1 H2. unfold lunch_scan.
  lazymatch goal with |- context [for_r ?xs ?body ?st0] =>
    destruct (for_r_total (fun f : Z => f = fit) xs body st0)
      as [f [Hrun Hf]]; [reflexivity| |] end.
  - intros [d h] f0 Hin Hf0. apply in_prod_iff in Hin as [Hd Hh].
    apply in_range in Hd. apply in_range2 in Hh.
    cbn. rewrite g_empty by lia. cbn. eauto.
  - rewrite Hrun, Hf. reflexivity.
Qed.

Lemma lab_scan_empty fit : lab_scan cfg g fit = Ok fit.
Proof.
  unfold lab_scan.
  lazymatch goal with |- context [for_r ?xs ?body ?st0] =>
    destruct (for_r_total (fun f : Z => f = fit) xs body st0)
      as [f [Hrun Hf]]; [reflexivity| |] end.
  - intros [d h] f0 Hin Hf0. apply in_prod_iff in Hin as [Hd Hh].
    apply in_range in Hd. apply in_range in Hh.
    cbn. rewrite g_empty by lia. cbn. eauto.
  - rewrite Hrun, Hf. reflexivity.
Qed.

End EmptyGrid.

Lemma calculate_fitness_initial (cfg : TimetableConfig) subs fit fs rs :
  0 <= lunch_break_start cfg ->
  lunch_break_start cfg + lunch_break_duration cfg <= hours_per_day cfg ->
  calculate_fitness (mkChromosome cfg subs (initialize_slots cfg) fit fs rs) =
    Ok (100, mkChromosome cfg subs (initialize_slots cfg) 100 fs rs).
Proof.
  intros H1 H2. pose proof (get_subject_initial cfg) as He.
  unfold calculate_fitness. cbn [config slots].
  rewrite (conflict_scan_empty cfg _ He). cbn [bind_r].
  rewrite (conflict_scan_empty cfg _ He). cbn [bind_r].
  rewrite (lunch_scan_empty cfg _ He) by assumption. cbn [bind_r].
  rewrite (lab_scan_empty cfg _ He). reflexivity.
Qed.

Lemma evaluate_all_replicate (n : nat) c c' v :
  calculate_fitness c = Ok (v, c') ->
  evaluate_all (replicate n c) = Ok (replicate n c').
Proof.
  intros Hc. induction n as [|n IH]; cbn [replicate evaluate_all]; [reflexivity|].
  rewrite Hc. cbn [bind_r]. rewrite IH. reflexivity.
Qed.

Lemma insert_desc_replicate (k : nat) c :
  insert_desc c (replicate k c) = replicate (S k) c.
Proof.
  induction k as [|k IH]; cbn [replicate insert_desc]; [reflexivity|].
  rewrite Z.ltb_irrefl. rewrite IH. reflexivity.
Qed.

Lemma sort_desc_replicate (n : nat) c : sort_desc (replicate n c) = replicate n c.
Proof.
  unfold sort_desc.
  assert (H : forall m k, fold_left (fun acc x => insert_desc x acc) (replicate m c)
                            (replicate k c) = replicate (m + k) c).
  { induction m as [|m IH]; intros k; cbn [replicate fold_left]; [reflexivity|].
    rewrite insert_desc_replicate, IH. f_equal. lia. }
  pose proof (H n 0%nat) as Hn. rewrite Nat.add_0_r in Hn. exact Hn.
Qed.

Lemma max_by_fitness_replicate (n : nat) c :
  max_by_fitness (replicate (S n) c) = Ok c.
Proof.
  cbn [replicate max_by_fitness]. f_equal.
  induction n as [|n IH]; cbn [replicate fold_left]; [reflexivity|].
  rewrite Z.ltb_irrefl. exact IH.
Qed.

Lemma final_population_no_block (cfg : TimetableConfig) subs r :
  0 <= lunch_break_start cfg ->
  lunch_break_start cfg + lunch_break_duration cfg <= hours_per_day cfg ->
  all_slots cfg <> [] -> no_lab_block cfg ->
  Forall (fun s => is_lab s = true /\ 3 <= hours_per_week s) subs ->
  exists r', final_population cfg subs r =
    Ok (replicate 50 (mkChromosome cfg subs (initialize_slots cfg) 100 ∅ ∅), r').
Proof.
  intros H1 H2 Hav Hnb Hsubs.
  destruct (new_population_no_block (Z.to_nat population_size) cfg subs r Hav Hnb Hsubs)
    as [r1 Hpop].
  exists r1. unfold final_population. rewrite (bind_ok _ _ _ _ _ Hpop).
  change (Z.to_nat population_size) with 50%nat.
  change generations with (S (pred generations)).
  generalize (pred generations) as n. intros n. cbn [run_generations].
  rewrite (bind_ok _ _ r1
             (Stop (replicate 50 (mkChromosome cfg subs (initialize_slots cfg) 100 ∅ ∅))) r1);
    [reflexivity|].
  unfold generation_step.
  rewrite (bind_ok _ _ r1
             (replicate 50 (mkChromosome cfg subs (initialize_slots cfg) 100 ∅ ∅)) r1).
  2:{ unfold lift. rewrite (evaluate_all_replicate 50 (initial_chromosome cfg subs) (mkChromosome cfg subs (initialize_slots cfg) 100 ∅ ∅) 100); [reflexivity|].
      apply calculate_fitness_initial; assumption. }
  cbv beta zeta. rewrite sort_desc_replicate.
  rewrite (bind_ok _ _ r1 (mkChromosome cfg subs (initialize_slots cfg) 100 ∅ ∅) r1).
  2:{ unfold lift. rewrite py_index_replicate by lia. reflexivity. }
  reflexivity.
Qed.

(** Every cell is scanned once, so a key's seen set never holds the current
    cell and the conflict penalty is never subtracted. *)
Lemma conflict_scan_unchanged (key : Subject -> string) (cfg : TimetableConfig)
    (g : grid) (fit v : Z) :
  conflict_scan key cfg g fit = Ok v -> v = fit.
Proof.
  unfold conflict_scan. intros H.
  apply bind_r_ok_inv in H as [[f seen] [Hrun Hv]]. injection Hv as <-.
  pose proof (cells_NoDup cfg) as Hnd.
  pose (P := fun pre (st : Z * occupancy) => st.1 = fit /\
            forall k x, x ∈ default ∅ (st.2 !! k) -> In x pre).
  assert (Hinv : P (cells cfg) (f, seen)).
  { refine (for_r_inv P (cells cfg) _ (fit, ∅) (f, seen) _ _ Hrun); unfold P.
    - simpl. split; [reflexivity|]. intros k x Hx.
      rewrite lookup_empty in Hx. simpl in Hx. set_solver.
    - intros pre [d h] post [f0 seen0] [f1 seen1] Hxs [Hf0 Hseen] Hbody.
      simpl in Hf0, Hseen |- *.
      apply bind_r_ok_inv in Hbody as [s [_ Hbody]].
      destruct s as [subj|].
      + injection Hbody as <- <-.
        assert (Hnot : (d, h) ∉ default ∅ (seen0 !! key subj)).
        { intros Hin. apply Hseen in Hin. rewrite Hxs in Hnd.
          apply List.NoDup_remove_2 in Hnd. apply Hnd. apply in_or_app. left. exact Hin. }
        rewrite bool_decide_false by exact Hnot. split; [exact Hf0|].
        intros k x Hx. rewrite lookup_insert in Hx. apply in_or_app.
        case_decide as Hk.
        * simpl in Hx. apply elem_of_union in Hx as [Hx|Hx].
          -- apply elem_of_singleton in Hx. subst x. right. left. reflexivity.
          -- subst k. left. eauto.
        * left. eauto.
      + injection Hbody as <- <-. split; [exact Hf0|].
        intros k x Hx. apply in_or_app. left. eauto. }
  exact (proj1 Hinv).
Qed.

Lemma occ_of_add_slot (m : occupancy) k0 x0 k x :
  x ∈ occ_of (add_slot m k0 x0) k <-> (k = k0 /\ x = x0) \/ x ∈ occ_of m k.
Proof.
  unfold occ_of, add_slot. rewrite lookup_insert. case_decide as Hk; simpl.
  - subst k0. rewrite elem_of_union, elem_of_singleton. tauto.
  - split; [tauto|]. intros [[-> _]|H]; [congruence | exact H].
Qed.

(** After the rebuild, a key's set holds exactly the cells whose subject has
    that key. *)
Lemma rebuild_schedules_spec (cfg : TimetableConfig) (g : grid) fs rs :
  rebuild_schedules cfg g = Ok (fs, rs) ->
  forall k x,
    (x ∈ occ_of fs k <-> In x (cells cfg) /\
       exists T, get_subject g x.1 x.2 = Ok (Some T) /\ faculty T = k) /\
    (x ∈ occ_of rs k <-> In x (cells cfg) /\
       exists T, get_subject g x.1 x.2 = Ok (Some T) /\ room T = k).
Proof.
  intros Hrun.
  pose (P := fun pre (st : occupancy * occupancy) => forall k x,
    (x ∈ occ_of st.1 k <-> In x pre /\
       exists T, get_subject g x.1 x.2 = Ok (Some T) /\ faculty T = k) /\
    (x ∈ occ_of st.2 k <-> In x pre /\
       exists T, get_subject g x.1 x.2 = Ok (Some T) /\ room T = k)).
  refine (for_r_inv P (cells cfg) _ (∅, ∅) (fs, rs) _ _ Hrun); unfold P.
  - intros k x. simpl. unfold occ_of. rewrite !lookup_empty. simpl.
    split; split; intros Hx; [set_solver | destruct Hx as [[] _] | set_solver | destruct Hx as [[] _]].
  - intros pre [d h] post [fs0 rs0] [fs1 rs1] _ Hinv Hbody k x. simpl in Hinv |- *.
    apply bind_r_ok_inv in Hbody as [s [Hs Hbody]].
    destruct (Hinv k x) as [IHf IHr].
    destruct s as [subj|].
    + injection Hbody as <- <-.
      rewrite !occ_of_add_slot, IHf, IHr, !in_app_iff. simpl.
      split; split.
      * intros [[-> ->]|[Hx HT]]; [split; [right; left; reflexivity | exists subj; auto]
                                 | split; [left; exact Hx | exact HT]].
      * intros [[Hx|[<-|[]]] HT]; [right; split; assumption|].
        left. destruct HT as [T [HT <-]]. simpl in HT. rewrite Hs in HT.
        injection HT as ->. split; reflexivity.
      * intros [[-> ->]|[Hx HT]]; [split; [right; left; reflexivity | exists subj; auto]
                                 | split; [left; exact Hx | exact HT]].
      * intros [[Hx|[<-|[]]] HT]; [right; split; assumption|].
        left. destruct HT as [T [HT <-]]. simpl in HT. rewrite Hs in HT.
        injection HT as ->. split; reflexivity.
    + injection Hbody as <- <-.
      rewrite IHf, IHr, !in_app_iff. simpl.
      split; split.
      * intros [Hx HT]. split; [left; exact Hx | exact HT].
      * intros [[Hx|[<-|[]]] HT]; [split; assumption|].
        destruct HT as [T [HT _]]. simpl in HT. rewrite Hs in HT. discriminate.
      * intros [Hx HT]. split; [left; exact Hx | exact HT].
      * intros [[Hx|[<-|[]]] HT]; [split; assumption|].
        destruct HT as [T [HT _]]. simpl in HT. rewrite Hs in HT. discriminate.
Qed.

Lemma lunch_free_set (cfg : TimetableConfig) (g : grid) d h v g' :
  lunch_free cfg g -> 0 <= h -> (in_lunch cfg h -> v = None) ->
  set_subject g d h v = Ok g' -> lunch_free cfg g'.
Proof.
  intros Hg Hh Hv Hset.
  apply set_subject_inv in Hset as (jd & jh & row & Hrow & Hjh & -> & Hjh').
  specialize (Hjh' Hh).
  pose proof (lookup_lt_Some _ _ _ Hrow) as Hjd.
  intros d' h' row' x Hd' Hh' Hl.
  destruct (decide (d' = jd)) as [->|Hne].
  - rewrite list_lookup_insert_eq in Hd' by exact Hjd. injection Hd' as <-.
    destruct (decide (h' = jh)) as [->|Hne'].
    + rewrite list_lookup_insert_eq in Hh' by exact Hjh. injection Hh' as <-.
      apply Hv. subst jh. rewrite Z2Nat.id in Hl by exact Hh. exact Hl.
    + rewrite list_lookup_insert_ne in Hh' by congruence. exact (Hg _ _ _ _ Hrow Hh' Hl).
  - rewrite list_lookup_insert_ne in Hd' by congruence. exact (Hg _ _ _ _ Hd' Hh' Hl).
Qed.

Lemma lunch_free_get (cfg : TimetableConfig) (g : grid) d h v :
  lunch_free cfg g -> 0 <= d -> 0 <= h -> get_subject g d h = Ok v ->
  in_lunch cfg h -> v = None.
Proof.
  intros Hg Hd Hh Hget Hl.
  destruct (get_subject_lookup g d h v Hd Hh Hget) as [row [Hrow Hv]].
  apply (Hg _ _ _ _ Hrow Hv). rewrite Z2Nat.id by exact Hh. exact Hl.
Qed.

Lemma lunch_free_initial (cfg cfg' : TimetableConfig) :
  lunch_free cfg' (initialize_slots cfg).
Proof.
  intros d h row x Hrow Hx _. unfold initialize_slots in Hrow.
  change (map ?f ?l) with (f <$> l) in Hrow. rewrite list_lookup_fmap in Hrow.
  destruct (range (days_per_week cfg) !! d); [|discriminate].
  injection Hrow as <-.
  change (map ?f ?l) with (f <$> l) in Hx. rewrite list_lookup_fmap in Hx.
  destruct (range (hours_per_day cfg) !! h); [|discriminate].
  injection Hx as <-. reflexivity.
Qed.

Lemma assign_lunch_free cfg ch d h s ch' :
  placed_ok cfg ch -> 0 <= h -> ~ in_lunch cfg h ->
  assign ch d h s = Ok ch' -> placed_ok cfg ch'.
Proof.
  intros [Hc Hg] Hh Hl H. unfold assign in H.
  apply bind_r_ok_inv in H as [g [Hset H]]. injection H as <-.
  split; [exact Hc|]. cbn.
  apply (lunch_free_set cfg (slots ch) d h (Some s) g Hg Hh); [|exact Hset].
  intros Hin. contradiction.
Qed.

Lemma slot_available_not_lunch ch d h s :
  is_slot_available ch d h s = true -> ~ in_lunch (config ch) h.
Proof.
  intros Ha Hl. rewrite (is_slot_available_lunch ch d h s Hl) in Ha. discriminate.
Qed.

Lemma assign_block_lunch_free cfg ch d hour s ch' :
  placed_ok cfg ch -> 0 <= hour ->
  (forall k, 0 <= k < 3 -> ~ in_lunch cfg (hour + k)) ->
  assign_block ch d hour s = Ok ch' -> placed_ok cfg ch'.
Proof.
  intros Hok Hh Hl H. unfold assign_block in H.
  refine (for_r_inv (fun _ c => placed_ok cfg c) (range 3) _ ch ch' Hok _ H).
  intros pre k post c c' Hxs Hc Hassign.
  assert (Hk : In k (range 3)) by (rewrite Hxs; apply in_or_app; right; left; reflexivity).
  apply in_range in Hk.
  apply (assign_lunch_free cfg c d (hour + k) s c' Hc); [lia | apply Hl; exact Hk | exact Hassign].
Qed.

Lemma choice_elem {A} (l : list A) (r : rng) x r' :
  choice l r = Ok (x, r') -> In x l.
Proof.
  rewrite choice_unfold. destruct l as [|a l']; [discriminate|].
  destruct (py_index _ _) as [y|e] eqn:E; [|discriminate].
  intros [= <- _]. exact (py_index_elem _ _ _ E).
Qed.

Lemma place_subject_lunch_free cfg fuel (avail : list (Z * Z)) s :
  (forall d h, In (d, h) avail -> 0 <= h) ->
  forall hl ch r ch' r', placed_ok cfg ch ->
  place_subject fuel avail s hl ch r = Ok (ch', r') -> placed_ok cfg ch'.
Proof.
  intros Hav. induction fuel as [|fuel IH]; intros hl ch r ch' r' Hok H; cbn [place_subject] in H.
  - injection H as <- _. exact Hok.
  - destruct (hl >? 0); [|injection H as <- _; exact Hok].
    destruct (is_lab s && (hl >=? 3)).
    + apply bind_ok_inv in H as [[d h] [r1 [Hc H]]].
      pose proof (Hav d h (choice_elem _ _ _ _ Hc)) as Hh. cbv beta iota in H.
      destruct ((h + 2 <? hours_per_day (config ch)) && is_slot_available ch d h s &&
                is_slot_available ch d (h + 1) s && is_slot_available ch d (h + 2) s) eqn:E.
      * apply andb_true_iff in E as [E E3]. apply andb_true_iff in E as [E E2].
        apply andb_true_iff in E as [_ E1].
        apply bind_ok_inv in H as [c1 [r2 [Hb H]]]. apply lift_ok_inv in Hb as [Hb _].
        refine (IH _ c1 r2 ch' r' _ H).
        apply (assign_block_lunch_free cfg ch d h s c1 Hok Hh); [|exact Hb].
        destruct Hok as [Hcfg _]. rewrite <- Hcfg.
        intros k Hk. assert (Hk3 : k = 0 \/ k = 1 \/ k = 2) by lia.
        destruct Hk3 as [Hk3|[Hk3|Hk3]]; subst k.
        -- rewrite Z.add_0_r. exact (slot_available_not_lunch _ _ _ _ E1).
        -- exact (slot_available_not_lunch _ _ _ _ E2).
        -- exact (slot_available_not_lunch _ _ _ _ E3).
      * exact (IH _ ch r1 ch' r' Hok H).
    + apply bind_ok_inv in H as [[d h] [r1 [Hc H]]].
      pose proof (Hav d h (choice_elem _ _ _ _ Hc)) as Hh. cbv beta iota in H.
      destruct (is_slot_available ch d h s) eqn:E.
      * apply bind_ok_inv in H as [c1 [r2 [Hb H]]]. apply lift_ok_inv in Hb as [Hb _].
        refine (IH _ c1 r2 ch' r' _ H).
        apply (assign_lunch_free cfg ch d h s c1 Hok Hh); [|exact Hb].
        destruct Hok as [Hcfg _]. rewrite <- Hcfg. exact (slot_available_not_lunch _ _ _ _ E).
      * exact (IH _ ch r1 ch' r' Hok H).
Qed.

Lemma place_all_cons (avail : list (Z * Z)) s subs ch :
  place_all avail (s :: subs) ch =
  bind (place_subject max_attempts avail s (hours_per_week s) ch)
       (fun ch' => place_all avail subs ch').
Proof. reflexivity. Qed.

Lemma place_all_lunch_free cfg (avail : list (Z * Z)) :
  (forall d h, In (d, h) avail -> 0 <= h) ->
  forall subs ch r ch' r', placed_ok cfg ch ->
  place_all avail subs ch r = Ok (ch', r') -> placed_ok cfg ch'.
Proof.
  intros Hav subs. induction subs as [|s subs IH]; intros ch r ch' r' Hok H.
  - injection H as <- _. exact Hok.
  - rewrite place_all_cons in H. apply bind_ok_inv in H as [c1 [r1 [H1 H]]].
    apply (IH c1 r1 ch' r'); [|exact H].
    exact (place_subject_lunch_free cfg max_attempts avail s Hav (hours_per_week s) ch r c1 r1 Hok H1).
Qed.

Lemma new_chromosome_lunch_free cfg subs r c r' :
  new_chromosome cfg subs r = Ok (c, r') -> lunch_free cfg (slots c).
Proof.
  unfold new_chromosome, generate_random_schedule. cbn [config subjects]. intros H.
  refine (proj2 (place_all_lunch_free cfg (all_slots cfg) (all_slots_hour cfg) subs _ r c r' _ H)).
  split; [reflexivity | apply lunch_free_initial].
Qed.

Lemma calculate_fitness_slots (ch : TimetableChromosome) v ch' :
  calculate_fitness ch = Ok (v, ch') -> slots ch' = slots ch.
Proof.
  unfold calculate_fitness. intros H.
  apply bind_r_ok_inv in H as [f1 [_ H]]. apply bind_r_ok_inv in H as [f2 [_ H]].
  apply bind_r_ok_inv in H as [f3 [_ H]]. apply bind_r_ok_inv in H as [f4 [_ H]].
  injection H as _ <-. reflexivity.
Qed.

Section PopulationInvariant.

Variable P : grid -> Prop.

Lemma evaluate_all_Forall (pop pop' : list TimetableChromosome) :
  Forall (fun c => P (slots c)) pop -> evaluate_all pop = Ok pop' ->
  Forall (fun c => P (slots c)) pop'.
Proof.
  revert pop'. induction pop as [|c pop IH]; intros pop' Hp H; cbn [evaluate_all] in H.
  - injection H as <-. constructor.
  - inversion Hp as [|? ? Hc Hrest]; subst.
    apply bind_r_ok_inv in H as [[v c'] [Hc' H]].
    apply bind_r_ok_inv in H as [cs' [Hcs H]]. injection H as <-.
    constructor; [rewrite (calculate_fitness_slots _ _ _ Hc'); exact Hc | exact (IH _ Hrest Hcs)].
Qed.

End PopulationInvariant.

Lemma insert_desc_Forall (Q : TimetableChromosome -> Prop) c l :
  Q c -> Forall Q l -> Forall Q (insert_desc c l).
Proof.
  intros Hc Hl. induction Hl as [|x l Hx Hl IH]; cbn [insert_desc].
  - constructor; [exact Hc | constructor].
  - destruct (fitness x <? fitness c); constructor; auto.
Qed.

Lemma sort_desc_Forall (Q : TimetableChromosome -> Prop) l :
  Forall Q l -> Forall Q (sort_desc l).
Proof.
  unfold sort_desc. intros Hl.
  assert (H : forall acc, Forall Q acc ->
            Forall Q (fold_left (fun acc c => insert_desc c acc) l acc)).
  { induction Hl as [|x l Hx Hl IH]; intros acc Hacc; cbn [fold_left]; [exact Hacc|].
    apply IH. apply insert_desc_Forall; assumption. }
  apply H. constructor.
Qed.

Lemma sample2_elem {A} (l : list A) (r : rng) a b r' :
  sample2 l r = Ok ((a, b), r') -> In a l /\ In b l.
Proof.
  intros H. unfold sample2 in H. cbv zeta in H.
  destruct (Z.of_nat (length l) <? 2); [discriminate H|].
  unfold bind, draw, lift in H. cbn -[py_index Z.modulo Z.div Z.leb Z.add Z.sub] in H.
  destruct (py_index l _) as [x|e] eqn:E1 in H; [|discriminate H].
  cbn -[py_index Z.modulo Z.div Z.leb Z.add Z.sub] in H.
  destruct (py_index l _) as [y|e] eqn:E2 in H; [|discriminate H].
  revert H.
  intros [= <- <- _]. split; eapply py_index_elem; eassumption.
Qed.

Lemma crossover_lunch_free cfg cp p1 p2 child c' :
  lunch_free cfg (slots p1) -> lunch_free cfg (slots p2) ->
  lunch_free cfg (slots child) ->
  crossover cfg cp p1 p2 child = Ok c' -> lunch_free cfg (slots c').
Proof.
  intros H1 H2 Hc H. unfold crossover in H.
  apply bind_r_ok_inv in H as [g [Hrun H]]. injection H as <-. cbn [slots with_slots].
  refine (for_r_inv (fun _ g => lunch_free cfg g) (cells cfg) _ _ _ Hc _ Hrun).
  intros pre [d h] post g0 g1 Hxs Hg0 Hstep.
  assert (Hin : In (d, h) (cells cfg))
    by (rewrite Hxs; apply in_or_app; right; left; reflexivity).
  apply in_cells in Hin. cbv beta iota in Hstep.
  apply bind_r_ok_inv in Hstep as [v [Hget Hset]].
  apply (lunch_free_set cfg g0 d h v g1 Hg0); [lia | | exact Hset].
  intros Hl. destruct (d <? cp).
  - exact (lunch_free_get cfg (slots p1) d h v H1 ltac:(lia) ltac:(lia) Hget Hl).
  - exact (lunch_free_get cfg (slots p2) d h v H2 ltac:(lia) ltac:(lia) Hget Hl).
Qed.

Lemma rebuild_occupancy_slots cfg child c' :
  rebuild_occupancy cfg child = Ok c' -> slots c' = slots child.
Proof.
  unfold rebuild_occupancy. intros H.
  apply bind_r_ok_inv in H as [[fs rs] [_ H]]. injection H as <-. reflexivity.
Qed.

Lemma randint_lower (a b : Z) (r : rng) x r' : randint a b r = Ok (x, r') -> a <= x.
Proof.
  unfold randint. destruct (b + 1 - a <=? 0) eqn:E; [intros H; discriminate H|].
  intros H. apply bind_ok_inv in H as [i [r1 [Hi H]]]. unfold ret in H. injection H as <- _.
  unfold randbelow in Hi. apply bind_ok_inv in Hi as [x0 [r2 [_ Hi]]].
  unfold ret in Hi. injection Hi as <- _.
  apply Z.leb_gt in E. pose proof (Z.mod_pos_bound x0 (b + 1 - a) ltac:(lia)). lia.
Qed.

Lemma swap_slots_lunch_free cfg child d1 h1 d2 h2 c' :
  0 <= d1 -> 0 <= h1 -> 0 <= d2 -> 0 <= h2 -> lunch_free cfg (slots child) ->
  swap_slots child d1 h1 d2 h2 = Ok c' -> lunch_free cfg (slots c').
Proof.
  intros Hd1 Hh1 Hd2 Hh2 Hg H. unfold swap_slots in H.
  apply bind_r_ok_inv in H as [v1 [Hv1 H]].
  apply bind_r_ok_inv in H as [v2 [Hv2 H]].
  destruct v1 as [s1|]; [|injection H as <-; exact Hg].
  destruct v2 as [s2|]; [|injection H as <-; exact Hg].
  cbv iota zeta in H.
  match type of H with context [if ?b then _ else _] => destruct b end;
    [|injection H as <-; exact Hg].
  apply bind_r_ok_inv in H as [g1 [Hg1 H]].
  apply bind_r_ok_inv in H as [g2 [Hg2 H]].
  repeat (apply bind_r_ok_inv in H as [? [_ H]]).
  injection H as <-. cbn [slots].
  assert (L1 : ~ in_lunch cfg h1).
  { intros L. pose proof (lunch_free_get cfg _ d1 h1 _ Hg Hd1 Hh1 Hv1 L). discriminate. }
  assert (L2 : ~ in_lunch cfg h2).
  { intros L. pose proof (lunch_free_get cfg _ d2 h2 _ Hg Hd2 Hh2 Hv2 L). discriminate. }
  apply (lunch_free_set cfg g1 d2 h2 (Some s1) g2); [ | exact Hh2 | intros L; contradiction | exact Hg2].
  apply (lunch_free_set cfg (slots child) d1 h1 (Some s2) g1 Hg Hh1);
    [intros L; contradiction | exact Hg1].
Qed.

Lemma mutate_lunch_free cfg child r c' r' :
  lunch_free cfg (slots child) -> mutate cfg child r = Ok (c', r') ->
  lunch_free cfg (slots c').
Proof.
  intros Hg H. unfold mutate in H.
  apply bind_ok_inv in H as [d1 [r1 [Hd1 H]]]. apply randint_lower in Hd1.
  apply bind_ok_inv in H as [h1 [r2 [Hh1 H]]]. apply randint_lower in Hh1.
  apply bind_ok_inv in H as [d2 [r3 [Hd2 H]]]. apply randint_lower in Hd2.
  apply bind_ok_inv in H as [h2 [r4 [Hh2 H]]]. apply randint_lower in Hh2.
  apply lift_ok_inv in H as [H _].
  exact (swap_slots_lunch_free cfg child d1 h1 d2 h2 c' Hd1 Hh1 Hd2 Hh2 Hg H).
Qed.

Lemma make_child_lunch_free cfg subs parents r c r' :
  Forall (fun p => lunch_free cfg (slots p)) parents ->
  make_child cfg subs parents r = Ok (c, r') -> lunch_free cfg (slots c).
Proof.
  intros Hp H. rewrite List.Forall_forall in Hp. unfold make_child in H.
  apply bind_ok_inv in H as [[p1 p2] [r1 [Hs H]]].
  apply sample2_elem in Hs as [Hp1 Hp2]. cbv beta iota in H.
  apply bind_ok_inv in H as [ch [r2 [Hnew H]]]. apply new_chromosome_lunch_free in Hnew.
  apply bind_ok_inv in H as [cp [r3 [_ H]]].
  apply bind_ok_inv in H as [c1 [r4 [Hx H]]]. apply lift_ok_inv in Hx as [Hx _].
  apply (crossover_lunch_free cfg cp p1 p2 ch c1 (Hp _ Hp1) (Hp _ Hp2) Hnew) in Hx.
  apply bind_ok_inv in H as [c2 [r5 [Hr H]]]. apply lift_ok_inv in Hr as [Hr _].
  apply rebuild_occupancy_slots in Hr.
  apply bind_ok_inv in H as [k [r6 [_ H]]].
  destruct (below_mutation_rate k).
  - refine (mutate_lunch_free cfg c2 r6 c r' _ H). rewrite Hr. exact Hx.
  - unfold ret in H. injection H as <- _. rewrite Hr. exact Hx.
Qed.

Lemma make_offspring_S (n : nat) cfg subs parents offspring :
  make_offspring (S n) cfg subs parents offspring =
  bind (make_child cfg subs parents)
       (fun child => make_offspring n cfg subs parents (offspring ++ [child])).
Proof. reflexivity. Qed.

Lemma make_offspring_lunch_free cfg subs parents :
  Forall (fun p => lunch_free cfg (slots p)) parents ->
  forall n offspring r res r',
  Forall (fun p => lunch_free cfg (slots p)) offspring ->
  make_offspring n cfg subs parents offspring r = Ok (res, r') ->
  Forall (fun p => lunch_free cfg (slots p)) res.
Proof.
  intros Hp n. induction n as [|n IH]; intros off r res r' Hoff H.
  - injection H as <- _. exact Hoff.
  - rewrite make_offspring_S in H.
    apply bind_ok_inv in H as [child [r1 [Hc H]]].
    refine (IH _ r1 res r' _ H).
    apply Forall_app. split; [exact Hoff|].
    constructor; [exact (make_child_lunch_free cfg subs parents r child r1 Hp Hc) | constructor].
Qed.

Lemma generation_step_lunch_free cfg subs pop r o r' :
  Forall (fun c => lunch_free cfg (slots c)) pop ->
  generation_step cfg subs pop r = Ok (o, r') ->
  Forall (fun c => lunch_free cfg (slots c)) (outcome_population o).
Proof.
  intros Hp H. unfold generation_step in H.
  apply bind_ok_inv in H as [ev [r1 [He H]]]. apply lift_ok_inv in He as [He _].
  pose proof (evaluate_all_Forall (lunch_free cfg) pop ev Hp He) as Hev.
  pose proof (sort_desc_Forall _ ev Hev) as Hs.
  cbv beta zeta in H.
  apply bind_ok_inv in H as [top [r2 [_ H]]].
  destruct (fitness top =? 100).
  - unfold ret in H. injection H as <- _. exact Hs.
  - apply bind_ok_inv in H as [off [r3 [Hoff H]]]. unfold ret in H. injection H as <- _.
    cbn [outcome_population]. apply Forall_app. split.
    + apply Forall_take. exact Hs.
    + exact (make_offspring_lunch_free cfg subs _ (Forall_take _ _ _ Hs) _ [] _ _ _
               (List.Forall_nil _) Hoff).
Qed.

Lemma new_population_S (n : nat) cfg subs :
  new_population (S n) cfg subs =
  bind (new_chromosome cfg subs)
       (fun c => bind (new_population n cfg subs) (fun cs => ret (c :: cs))).
Proof. reflexivity. Qed.

Lemma new_population_lunch_free (n : nat) cfg subs r pop r' :
  new_population n cfg subs r = Ok (pop, r') ->
  Forall (fun c => lunch_free cfg (slots c)) pop.
Proof.
  revert r pop r'. induction n as [|n IH]; intros r pop r' H.
  - injection H as <- _. constructor.
  - rewrite new_population_S in H.
    apply bind_ok_inv in H as [c [r1 [Hc H]]].
    apply bind_ok_inv in H as [cs [r2 [Hcs H]]]. unfold ret in H. injection H as <- _.
    constructor; [exact (new_chromosome_lunch_free _ _ _ _ _ Hc) | exact (IH _ _ _ Hcs)].
Qed.

Lemma lunch_scan_unchanged (cfg : TimetableConfig) (g : grid) f f' :
  0 <= lunch_break_start cfg -> lunch_free cfg g -> lunch_scan cfg g f = Ok f' -> f' = f.
Proof.
  intros Hl Hg H. unfold lunch_scan in H.
  refine (for_r_inv (fun _ x => x = f) _ _ f f' eq_refl _ H).
  intros pre [d h] post f0 f1 Hxs -> Hstep.
  match type of Hxs with ?xs = _ =>
    assert (Hin : In (d, h) xs) by (rewrite Hxs; apply in_or_app; right; left; reflexivity) end.
  apply in_prod_iff in Hin as [Hd Hh]. apply in_range in Hd. apply in_range2 in Hh.
  cbv beta iota in Hstep. apply bind_r_ok_inv in Hstep as [v [Hget Hv]].
  rewrite (lunch_free_get cfg g d h v Hg ltac:(lia) ltac:(lia) Hget
             ltac:(unfold in_lunch; lia)) in Hv.
  injection Hv as <-. reflexivity.
Qed.

(** ** Lemmas: grid shape, occupancy indices, errors and the search *)

Lemma py_index_nonneg {A} (l : list A) (i : Z) :
  0 <= i -> py_index l i = match l !! Z.to_nat i with Some x => Ok x | None => Raise IndexError end.
Proof.
  intros Hi. unfold py_index. cbv zeta.
  replace (i <? 0) with false by (symmetry; apply Z.ltb_ge; lia).
  destruct (decide (i < Z.of_nat (length l))) as [Hlt|Hge].
  - replace ((0 <=? i) && (i <? Z.of_nat (length l))) with true
      by (symmetry; apply andb_true_iff; split; [apply Z.leb_le | apply Z.ltb_lt]; lia).
    reflexivity.
  - replace ((0 <=? i) && (i <? Z.of_nat (length l))) with false
      by (symmetry; apply andb_false_iff; right; apply Z.ltb_ge; lia).
    rewrite lookup_ge_None_2 by lia. reflexivity.
Qed.

Lemma py_store_nonneg {A} (l : list A) (i : Z) x :
  0 <= i -> py_store l i x =
    if decide (Z.to_nat i < length l)%nat then Ok (<[Z.to_nat i := x]> l) else Raise IndexError.
Proof.
  intros Hi. unfold py_store. cbv zeta.
  replace (i <? 0) with false by (symmetry; apply Z.ltb_ge; lia).
  destruct (decide (Z.to_nat i < length l)%nat).
  - replace ((0 <=? i) && (i <? Z.of_nat (length l))) with true
      by (symmetry; apply andb_true_iff; split; [apply Z.leb_le | apply Z.ltb_lt]; lia).
    reflexivity.
  - replace ((0 <=? i) && (i <? Z.of_nat (length l))) with false
      by (symmetry; apply andb_false_iff; right; apply Z.ltb_ge; lia).
    reflexivity.
Qed.

(** [l[i] = x] succeeds exactly when [l[i]] does. *)
Lemma py_store_ok_iff {A} (l : list A) (i : Z) x :
  (exists l', py_store l i x = Ok l') <-> (exists y, py_index l i = Ok y).
Proof.
  unfold py_store, py_index. cbv zeta.
  destruct (_ && _) eqn:Hb.
  - apply andb_true_iff in Hb as [H1 H2]. apply Z.leb_le in H1. apply Z.ltb_lt in H2.
    destruct (lookup_lt_is_Some_2 l (Z.to_nat (if i <? 0 then i + Z.of_nat (length l) else i)))
      as [y Hy]; [lia|].
    rewrite Hy. split; intros _; eauto.
  - split; intros [? H]; discriminate H.
Qed.

Lemma py_index_raise {A} (l : list A) (i : Z) e : py_index l i = Raise e -> e = IndexError.
Proof.
  unfold py_index. cbv zeta. destruct (_ && _); [destruct (l !! _)|]; congruence.
Qed.

Lemma py_store_raise {A} (l : list A) (i : Z) x e : py_store l i x = Raise e -> e = IndexError.
Proof. unfold py_store. cbv zeta. destruct (_ && _); congruence. Qed.

Lemma get_subject_nonneg (g : grid) d h :
  0 <= d -> 0 <= h ->
  get_subject g d h =
    match g !! Z.to_nat d with
    | Some row => match row !! Z.to_nat h with Some x => Ok x | None => Raise IndexError end
    | None => Raise IndexError
    end.
Proof.
  intros Hd Hh. unfold get_subject. rewrite py_index_nonneg by exact Hd.
  destruct (g !! Z.to_nat d); [|reflexivity]. cbn [bind_r].
  apply py_index_nonneg. exact Hh.
Qed.

Lemma get_subject_raise (g : grid) d h e : get_subject g d h = Raise e -> e = IndexError.
Proof.
  unfold get_subject. destruct (py_index g d) eqn:E; cbn [bind_r].
  - apply py_index_raise.
  - intros [= <-]. exact (py_index_raise _ _ _ E).
Qed.

Lemma set_subject_raise (g : grid) d h v e : set_subject g d h v = Raise e -> e = IndexError.
Proof.
  unfold set_subject. destruct (py_index g d) eqn:E; cbn [bind_r].
  - destruct (py_store a h v) eqn:E2; cbn [bind_r].
    + apply py_store_raise.
    + intros [= <-]. exact (py_store_raise _ _ _ _ E2).
  - intros [= <-]. exact (py_index_raise _ _ _ E).
Qed.

(** Writing a cell succeeds exactly when reading it does. *)
Lemma set_subject_ok_iff (g : grid) d h v :
  (exists g', set_subject g d h v = Ok g') <-> (exists x, get_subject g d h = Ok x).
Proof.
  unfold set_subject, get_subject.
  destruct (py_index g d) as [row|e] eqn:Erow; cbn [bind_r];
    [|split; intros [? H]; discriminate H].
  rewrite <- (py_store_ok_iff row h v).
  destruct (py_store row h v) as [row'|e] eqn:E; cbn [bind_r];
    [|split; intros [? H]; discriminate H].
  split; [eauto|intros _].
  apply py_store_ok_iff. eauto.
Qed.

Lemma get_set_subject (g g' : grid) d h v d' h' :
  0 <= d -> 0 <= h -> 0 <= d' -> 0 <= h' ->
  set_subject g d h v = Ok g' ->
  get_subject g' d' h' =
    if decide ((d', h') = (d, h)) then Ok v else get_subject g d' h'.
Proof.
  intros Hd Hh Hd' Hh' Hset.
  unfold set_subject in Hset. rewrite py_index_nonneg in Hset by exact Hd.
  destruct (g !! Z.to_nat d) as [row|] eqn:Erow; [|discriminate Hset]. cbn [bind_r] in Hset.
  rewrite py_store_nonneg in Hset by exact Hh.
  destruct (decide (Z.to_nat h < length row)%nat) as [Hlt|]; [|discriminate Hset].
  cbn [bind_r] in Hset. rewrite py_store_nonneg in Hset by exact Hd.
  pose proof (lookup_lt_Some _ _ _ Erow) as Hdlt.
  destruct (decide (Z.to_nat d < length g)%nat); [|lia].
  injection Hset as <-.
  rewrite !get_subject_nonneg by assumption.
  destruct (decide ((d', h') = (d, h))) as [[= -> ->]|Hne].
  - rewrite list_lookup_insert_eq by exact Hdlt.
    rewrite list_lookup_insert_eq by exact Hlt. reflexivity.
  - destruct (decide (d' = d)) as [->|Hd''].
    + rewrite list_lookup_insert_eq by exact Hdlt. rewrite Erow.
      rewrite list_lookup_insert_ne by (intros E; apply Hne; f_equal; lia). reflexivity.
    + rewrite list_lookup_insert_ne by lia. reflexivity.
Qed.

Lemma shaped_get (cfg : TimetableConfig) (g : grid) d h :
  shaped cfg g -> In (d, h) (cells cfg) -> exists x, get_subject g d h = Ok x.
Proof.
  intros [Hlen Hrows] Hin. apply in_cells in Hin as [Hd Hh].
  rewrite get_subject_nonneg by lia.
  destruct (lookup_lt_is_Some_2 g (Z.to_nat d)) as [row Hrow]; [lia|]. rewrite Hrow.
  rewrite List.Forall_forall in Hrows.
  assert (Hr : length row = Z.to_nat (hours_per_day cfg)).
  { apply Hrows. apply list_elem_of_In, list_elem_of_lookup. eauto. }
  destruct (lookup_lt_is_Some_2 row (Z.to_nat h)) as [x Hx]; [lia|]. rewrite Hx. eauto.
Qed.

Lemma shaped_set (cfg : TimetableConfig) (g g' : grid) d h v :
  shaped cfg g -> set_subject g d h v = Ok g' -> shaped cfg g'.
Proof.
  intros [Hlen Hrows] Hset.
  apply set_subject_inv in Hset as (jd & jh & row & Hrow & Hjh & -> & _).
  split; [rewrite length_insert; exact Hlen|].
  rewrite List.Forall_forall in Hrows |- *.
  assert (Hr : length row = Z.to_nat (hours_per_day cfg)).
  { apply Hrows. apply list_elem_of_In, list_elem_of_lookup. eauto. }
  intros row' Hin. apply list_elem_of_In, list_elem_of_lookup in Hin as [i Hi].
  destruct (decide (i = jd)) as [->|Hne].
  - rewrite list_lookup_insert_eq in Hi by exact (lookup_lt_Some _ _ _ Hrow).
    injection Hi as <-. rewrite length_insert. exact Hr.
  - rewrite list_lookup_insert_ne in Hi by congruence.
    apply Hrows. apply list_elem_of_In, list_elem_of_lookup. eauto.
Qed.

Lemma shaped_set_ok (cfg : TimetableConfig) (g : grid) d h v :
  shaped cfg g -> In (d, h) (cells cfg) -> exists g', set_subject g d h v = Ok g'.
Proof. intros Hs Hin. apply set_subject_ok_iff. exact (shaped_get cfg g d h Hs Hin). Qed.

(** A cell outside the grid cannot be read. *)
Lemma shaped_get_out (cfg : TimetableConfig) (g : grid) d h :
  shaped cfg g -> 0 <= d < days_per_week cfg -> hours_per_day cfg <= h ->
  get_subject g d h = Raise IndexError.
Proof.
  intros [Hlen Hrows] Hd Hh.
  unfold get_subject. rewrite py_index_nonneg by lia.
  destruct (lookup_lt_is_Some_2 g (Z.to_nat d)) as [row Hrow]; [lia|]. rewrite Hrow.
  cbn [bind_r]. rewrite List.Forall_forall in Hrows.
  assert (Hr : length row = Z.to_nat (hours_per_day cfg)).
  { apply Hrows. apply list_elem_of_In, list_elem_of_lookup. eauto. }
  unfold py_index. cbv zeta.
  destruct (h <? 0) eqn:E.
  - apply Z.ltb_lt in E.
    replace ((0 <=? h + Z.of_nat (length row)) && (h + Z.of_nat (length row) <? Z.of_nat (length row)))
      with false by (symmetry; apply andb_false_iff; left; apply Z.leb_gt; lia). reflexivity.
  - apply Z.ltb_ge in E.
    replace ((0 <=? h) && (h <? Z.of_nat (length row)))
      with false by (symmetry; apply andb_false_iff; right; apply Z.ltb_ge; lia). reflexivity.
Qed.

Lemma shaped_initial (cfg : TimetableConfig) : shaped cfg (initialize_slots cfg).
Proof.
  unfold shaped, initialize_slots. rewrite length_map. unfold range. rewrite length_range2.
  split; [f_equal; lia|]. apply List.Forall_forall. intros row Hin.
  apply in_map_iff in Hin as [_ [<- _]]. rewrite length_map, length_range2. f_equal; lia.
Qed.

Lemma for_r_raise_only {A S} (xs : list A) (body : A -> S -> result S) (st : S) e e' :
  (forall x s e'', body x s = Raise e'' -> e'' = e) ->
  for_r xs body st = Raise e' -> e' = e.
Proof.
  intros Hb. revert st. induction xs as [|x xs IH]; intros st H; simpl in H; [discriminate H|].
  destruct (body x st) as [s'|e''] eqn:E; cbn [bind_r] in H.
  - exact (IH _ H).
  - injection H as <-. exact (Hb _ _ _ E).
Qed.

Lemma bind_raise_inv {A B} (m : M A) (k : A -> M B) r e :
  bind m k r = Raise e ->
  m r = Raise e \/ exists a r', m r = Ok (a, r') /\ k a r' = Raise e.
Proof. unfold bind. destruct (m r) as [[a r']|e']; [eauto | intros [= ->]; auto]. Qed.

Lemma in_schedule_occ (m : occupancy) k x : in_schedule m k x = bool_decide (x ∈ occ_of m k).
Proof.
  unfold in_schedule, occ_of. destruct (m !! k); [reflexivity|].
  simpl. rewrite bool_decide_false by set_solver. reflexivity.
Qed.

Lemma in_schedule_add (m : occupancy) k0 x0 k x :
  in_schedule (add_slot m k0 x0) k x =
  in_schedule m k x || (bool_decide (k = k0) && bool_decide (x = x0)).
Proof.
  rewrite !in_schedule_occ.
  destruct (bool_decide (x ∈ occ_of (add_slot m k0 x0) k)) eqn:E1;
  destruct (bool_decide (x ∈ occ_of m k)) eqn:E2;
  destruct (bool_decide (k = k0)) eqn:E3; destruct (bool_decide (x = x0)) eqn:E4;
  repeat match goal with
  | H : bool_decide _ = true |- _ => apply bool_decide_eq_true in H
  | H : bool_decide _ = false |- _ => apply bool_decide_eq_false in H
  end; simpl; try reflexivity;
  rewrite occ_of_add_slot in E1; tauto.
Qed.

Lemma is_slot_available_bool ch day hour s :
  is_slot_available ch day hour s =
  negb (in_schedule (faculty_schedule ch) (faculty s) (day, hour)) &&
  negb (in_schedule (room_schedule ch) (room s) (day, hour)) &&
  negb ((lunch_break_start (config ch) <=? hour) &&
        (hour <? lunch_break_start (config ch) + lunch_break_duration (config ch))).
Proof.
  unfold is_slot_available. cbv zeta.
  destruct (in_schedule _ _ _); [reflexivity|]. destruct (in_schedule _ _ _); [reflexivity|].
  destruct (_ && _); reflexivity.
Qed.

Lemma choice_raise {A} (l : list A) (r : rng) e : choice l r = Raise e -> e = IndexError.
Proof.
  rewrite choice_unfold. destruct l; [intros [= <-]; reflexivity|].
  destruct (py_index _ _) eqn:E; [discriminate|]. intros [= <-].
  exact (py_index_raise _ _ _ E).
Qed.

Lemma initial_well_formed (cfg : TimetableConfig) subs :
  well_formed cfg (initial_chromosome cfg subs).
Proof.
  split; [reflexivity|]. split; [apply shaped_initial|]. split; [|cbn; lia].
  intros d h S Hin Hget. apply in_cells in Hin.
  cbn in Hget. rewrite get_subject_initial in Hget by lia. discriminate.
Qed.

Lemma all_slots_cells (cfg : TimetableConfig) x : In x (all_slots cfg) -> In x (cells cfg).
Proof. unfold all_slots. intros H. apply filter_In in H. tauto. Qed.

(** ** Placement keeps a chromosome well formed *)

Lemma assign_wf cfg ch d h s ch' :
  well_formed cfg ch -> 0 <= d -> 0 <= h -> assign ch d h s = Ok ch' ->
  well_formed cfg ch' /\ config ch' = config ch.
Proof.
  intros [Hc [Hs [Hi Hf]]] Hd Hh H. unfold assign in H.
  apply bind_r_ok_inv in H as [g [Hset H]]. injection H as <-.
  split; [|reflexivity]. split; [exact Hc|]. split; [exact (shaped_set cfg _ _ _ _ _ Hs Hset)|].
  split; [|exact Hf].
  intros d' h' S Hin Hget. cbn in Hget |- *.
  pose proof Hin as Hin'. apply in_cells in Hin'.
  rewrite (get_set_subject _ _ d h _ d' h') in Hget by (lia || exact Hset).
  rewrite !occ_of_add_slot.
  destruct (decide ((d', h') = (d, h))) as [E|Hne].
  - injection Hget as <-. auto.
  - destruct (Hi d' h' S Hin Hget). auto.
Qed.

Lemma assign_ok cfg ch d h s :
  shaped cfg (slots ch) -> In (d, h) (cells cfg) -> exists ch', assign ch d h s = Ok ch'.
Proof.
  intros Hs Hin. destruct (shaped_set_ok cfg _ d h (Some s) Hs Hin) as [g Hg].
  unfold assign. rewrite Hg. eexists. reflexivity.
Qed.

Lemma assign_raise ch d h s e : assign ch d h s = Raise e -> e = IndexError.
Proof.
  unfold assign. destruct (set_subject _ _ _ _) eqn:E; [discriminate|].
  intros [= <-]. exact (set_subject_raise _ _ _ _ _ E).
Qed.

Lemma assign_block_wf cfg ch d hour s ch' :
  well_formed cfg ch -> 0 <= d -> 0 <= hour -> assign_block ch d hour s = Ok ch' ->
  well_formed cfg ch' /\ config ch' = config ch.
Proof.
  intros Hw Hd Hh H. unfold assign_block in H.
  refine (for_r_inv (fun _ c => well_formed cfg c /\ config c = config ch)
            (range 3) _ ch ch' (conj Hw eq_refl) _ H).
  intros pre k post c c' Hxs [Hc Hcc] Hassign.
  assert (Hk : In k (range 3)) by (rewrite Hxs; apply in_or_app; right; left; reflexivity).
  apply in_range in Hk.
  destruct (assign_wf cfg c d (hour + k) s c' Hc Hd ltac:(lia) Hassign). split; congruence.
Qed.

Lemma assign_block_ok cfg ch d hour s :
  shaped cfg (slots ch) -> 0 <= d < days_per_week cfg -> 0 <= hour ->
  hour + 2 < hours_per_day cfg -> exists ch', assign_block ch d hour s = Ok ch'.
Proof.
  intros Hs Hd Hh Hh2. unfold assign_block.
  destruct (for_r_total (fun c => shaped cfg (slots c)) (range 3)
              (fun h c => assign c d (hour + h) s) ch Hs) as [c [Hrun _]];
    [|eauto].
  intros k c Hk Hc. apply in_range in Hk.
  destruct (assign_ok cfg c d (hour + k) s Hc) as [c' Hc']; [apply in_cells; lia|].
  exists c'. split; [exact Hc'|].
  unfold assign in Hc'. apply bind_r_ok_inv in Hc' as [g [Hset Hc']]. injection Hc' as <-.
  exact (shaped_set cfg _ _ _ _ _ Hc Hset).
Qed.

Lemma assign_block_raise ch d hour s e : assign_block ch d hour s = Raise e -> e = IndexError.
Proof. unfold assign_block. apply for_r_raise_only. intros x c e'. apply assign_raise. Qed.

Section Placement.

Variable cfg : TimetableConfig.
Variable avail : list (Z * Z).
Hypothesis avail_cells : forall x, In x avail -> In x (cells cfg).

Lemma avail_nonneg d h : In (d, h) avail -> 0 <= d /\ 0 <= h.
Proof. intros H. apply avail_cells, in_cells in H. lia. Qed.

Lemma place_subject_wf fuel s :
  forall hl ch r ch' r', well_formed cfg ch ->
  place_subject fuel avail s hl ch r = Ok (ch', r') ->
  well_formed cfg ch' /\ config ch' = config ch.
Proof.
  induction fuel as [|fuel IH]; intros hl ch r ch' r' Hw H; cbn [place_subject] in H.
  - injection H as <- _. auto.
  - destruct (hl >? 0); [|injection H as <- _; auto].
    destruct (is_lab s && (hl >=? 3)).
    + apply bind_ok_inv in H as [[d h] [r1 [Hc H]]].
      destruct (avail_nonneg d h (choice_elem _ _ _ _ Hc)) as [Hd Hh]. cbv beta iota in H.
      destruct (_ && _ && _ && _).
      * apply bind_ok_inv in H as [c1 [r2 [Hb H]]]. apply lift_ok_inv in Hb as [Hb _].
        destruct (assign_block_wf cfg ch d h s c1 Hw Hd Hh Hb) as [Hw1 Hc1].
        destruct (IH _ c1 r2 ch' r' Hw1 H). split; congruence.
      * exact (IH _ ch r1 ch' r' Hw H).
    + apply bind_ok_inv in H as [[d h] [r1 [Hc H]]].
      destruct (avail_nonneg d h (choice_elem _ _ _ _ Hc)) as [Hd Hh]. cbv beta iota in H.
      destruct (is_slot_available ch d h s).
      * apply bind_ok_inv in H as [c1 [r2 [Hb H]]]. apply lift_ok_inv in Hb as [Hb _].
        destruct (assign_wf cfg ch d h s c1 Hw Hd Hh Hb) as [Hw1 Hc1].
        destruct (IH _ c1 r2 ch' r' Hw1 H). split; congruence.
      * exact (IH _ ch r1 ch' r' Hw H).
Qed.

Lemma place_subject_ok fuel s :
  avail <> [] ->
  forall hl ch r, well_formed cfg ch -> config ch = cfg ->
  exists ch' r', place_subject fuel avail s hl ch r = Ok (ch', r').
Proof.
  intros Hav. induction fuel as [|fuel IH]; intros hl ch r Hw Hcfg; cbn [place_subject].
  - eexists _, _. reflexivity.
  - destruct (hl >? 0); [|eexists _, _; reflexivity].
    destruct (choice_in avail r Hav) as [[d h] [Hin Hc]].
    pose proof (avail_cells _ Hin) as Hcell. apply in_cells in Hcell.
    destruct (is_lab s && (hl >=? 3)).
    + unfold bind at 1. rewrite Hc. cbv beta iota.
      destruct (_ && _ && _ && _) eqn:E.
      * apply andb_true_iff in E as [E _]. apply andb_true_iff in E as [E _].
        apply andb_true_iff in E as [E _]. apply Z.ltb_lt in E. rewrite Hcfg in E.
        destruct (assign_block_ok cfg ch d h s (proj1 (proj2 Hw)) ltac:(lia) ltac:(lia) E) as [c1 Hb].
        destruct (assign_block_wf cfg ch d h s c1 Hw ltac:(lia) ltac:(lia) Hb) as [Hw1 Hc1].
        destruct (IH (hl - 3) c1 (next r) Hw1 ltac:(congruence)) as [ch' [r' H']].
        exists ch', r'. unfold bind at 1, lift. rewrite Hb. exact H'.
      * apply IH; assumption.
    + unfold bind at 1. rewrite Hc. cbv beta iota.
      destruct (is_slot_available ch d h s).
      * destruct (assign_ok cfg ch d h s (proj1 (proj2 Hw))) as [c1 Hb]; [apply in_cells; lia|].
        destruct (assign_wf cfg ch d h s c1 Hw ltac:(lia) ltac:(lia) Hb) as [Hw1 Hc1].
        destruct (IH (hl - 1) c1 (next r) Hw1 ltac:(congruence)) as [ch' [r' H']].
        exists ch', r'. unfold bind at 1, lift. rewrite Hb. exact H'.
      * apply IH; assumption.
Qed.

Lemma place_all_wf subs :
  forall ch r ch' r', well_formed cfg ch ->
  place_all avail subs ch r = Ok (ch', r') ->
  well_formed cfg ch' /\ config ch' = config ch.
Proof.
  induction subs as [|s subs IH]; intros ch r ch' r' Hw H.
  - injection H as <- _. auto.
  - rewrite place_all_cons in H. apply bind_ok_inv in H as [c1 [r1 [H1 H]]].
    destruct (place_subject_wf max_attempts s _ ch r c1 r1 Hw H1) as [Hw1 Hc1].
    destruct (IH c1 r1 ch' r' Hw1 H). split; congruence.
Qed.

Lemma place_all_ok subs :
  avail <> [] ->
  forall ch r, well_formed cfg ch -> config ch = cfg ->
  exists ch' r', place_all avail subs ch r = Ok (ch', r').
Proof.
  intros Hav. induction subs as [|s subs IH]; intros ch r Hw Hcfg.
  - eexists _, _. reflexivity.
  - rewrite place_all_cons.
    destruct (place_subject_ok max_attempts s Hav (hours_per_week s) ch r Hw Hcfg)
      as [c1 [r1 H1]].
    destruct (place_subject_wf max_attempts s _ ch r c1 r1 Hw H1) as [Hw1 Hc1].
    rewrite (bind_ok _ _ _ _ _ H1). apply IH; [exact Hw1 | congruence].
Qed.

End Placement.

Lemma place_subject_raise fuel avail s :
  forall hl ch r e, place_subject fuel avail s hl ch r = Raise e -> e = IndexError.
Proof.
  induction fuel as [|fuel IH]; intros hl ch r e H; cbn [place_subject] in H;
    [discriminate H|].
  destruct (hl >? 0); [|discriminate H].
  destruct (is_lab s && (hl >=? 3)); unfold bind at 1 in H; cbv beta in H;
    (destruct (choice avail r) as [[[d h] r1]|e'] eqn:Hc;
     [|cbv iota in H; injection H as <-; exact (choice_raise _ _ _ Hc)]); cbv beta iota in H.
  - destruct (_ && _ && _ && _); [|exact (IH _ _ _ _ H)].
    unfold bind, lift in H. destruct (assign_block ch d h s) eqn:Hb.
    + exact (IH _ _ _ _ H).
    + injection H as <-. exact (assign_block_raise _ _ _ _ _ Hb).
  - destruct (is_slot_available ch d h s); [|exact (IH _ _ _ _ H)].
    unfold bind, lift in H. destruct (assign ch d h s) eqn:Hb.
    + exact (IH _ _ _ _ H).
    + injection H as <-. exact (assign_raise _ _ _ _ _ Hb).
Qed.

Lemma place_all_raise avail subs :
  forall ch r e, place_all avail subs ch r = Raise e -> e = IndexError.
Proof.
  induction subs as [|s subs IH]; intros ch r e H; [discriminate H|].
  rewrite place_all_cons in H. apply bind_raise_inv in H as [H|[c1 [r1 [_ H]]]].
  - exact (place_subject_raise _ _ _ _ _ _ _ H).
  - exact (IH _ _ _ H).
Qed.

(** ** [TimetableChromosome(config, subjects)] *)

Lemma new_chromosome_wf cfg subs r c r' :
  new_chromosome cfg subs r = Ok (c, r') ->
  well_formed cfg c /\ config c = cfg /\ fitness c = 0.
Proof.
  unfold new_chromosome, generate_random_schedule. cbn [config subjects]. intros H.
  destruct (place_all_wf cfg (all_slots cfg) (all_slots_cells cfg) subs
              (initial_chromosome cfg subs) r c r' (initial_well_formed cfg subs) H) as [Hw Hc].
  split; [exact Hw|]. split; [exact Hc|].
  (* the fitness is never touched by the placement *)
  clear Hw Hc. revert H.
  assert (Hfit : forall fuel avail s hl (ch : TimetableChromosome) r ch' r',
            place_subject fuel avail s hl ch r = Ok (ch', r') -> fitness ch' = fitness ch).
  { induction fuel as [|fuel IH]; intros avail s hl ch r0 ch' r1 H; cbn [place_subject] in H.
    - injection H as <- _. reflexivity.
    - destruct (hl >? 0); [|injection H as <- _; reflexivity].
      destruct (is_lab s && (hl >=? 3)).
      + apply bind_ok_inv in H as [[d h] [r2 [_ H]]]. cbv beta iota in H.
        destruct (_ && _ && _ && _); [|exact (IH _ _ _ _ _ _ _ H)].
        apply bind_ok_inv in H as [c1 [r3 [Hb H]]]. apply lift_ok_inv in Hb as [Hb _].
        rewrite (IH _ _ _ _ _ _ _ H). unfold assign_block in Hb.
        refine (for_r_inv (fun _ c0 => fitness c0 = fitness ch) _ _ ch c1 eq_refl _ Hb).
        intros pre k post c0 c0' _ Hcf Ha. unfold assign in Ha.
        apply bind_r_ok_inv in Ha as [g [_ Ha]]. injection Ha as <-. exact Hcf.
      + apply bind_ok_inv in H as [[d h] [r2 [_ H]]]. cbv beta iota in H.
        destruct (is_slot_available ch d h s); [|exact (IH _ _ _ _ _ _ _ H)].
        apply bind_ok_inv in H as [c1 [r3 [Hb H]]]. apply lift_ok_inv in Hb as [Hb _].
        rewrite (IH _ _ _ _ _ _ _ H). unfold assign in Hb.
        apply bind_r_ok_inv in Hb as [g [_ Hb]]. injection Hb as <-. reflexivity. }
  assert (Hall : forall subs' (ch : TimetableChromosome) r0 ch' r1,
            place_all (all_slots cfg) subs' ch r0 = Ok (ch', r1) -> fitness ch' = fitness ch).
  { induction subs' as [|s subs' IH]; intros ch r0 ch' r1 H.
    - injection H as <- _. reflexivity.
    - rewrite place_all_cons in H. apply bind_ok_inv in H as [c1 [r2 [H1 H]]].
      rewrite (IH _ _ _ _ H). exact (Hfit _ _ _ _ _ _ _ _ H1). }
  intros H. exact (Hall _ _ _ _ _ H).
Qed.

Lemma new_chromosome_ok cfg subs r :
  all_slots cfg <> [] -> exists c r', new_chromosome cfg subs r = Ok (c, r').
Proof.
  intros Hav. unfold new_chromosome, generate_random_schedule. cbn [config subjects].
  exact (place_all_ok cfg (all_slots cfg) (all_slots_cells cfg) subs Hav
           (initial_chromosome cfg subs) r (initial_well_formed cfg subs) eq_refl).
Qed.

Lemma new_chromosome_raise cfg subs r e :
  new_chromosome cfg subs r = Raise e -> e = IndexError.
Proof. apply place_all_raise. Qed.

Lemma new_population_wf (n : nat) cfg subs r pop r' :
  new_population n cfg subs r = Ok (pop, r') ->
  Forall (well_formed cfg) pop /\ length pop = n.
Proof.
  revert r pop r'. induction n as [|n IH]; intros r pop r' H.
  - injection H as <- _. split; [constructor | reflexivity].
  - rewrite new_population_S in H.
    apply bind_ok_inv in H as [c [r1 [Hc H]]].
    apply bind_ok_inv in H as [cs [r2 [Hcs H]]]. unfold ret in H. injection H as <- _.
    destruct (IH _ _ _ Hcs) as [Hf Hl].
    split; [constructor; [exact (proj1 (new_chromosome_wf _ _ _ _ _ Hc)) | exact Hf]|].
    simpl. rewrite Hl. reflexivity.
Qed.

Lemma new_population_ok (n : nat) cfg subs r :
  all_slots cfg <> [] -> exists pop r', new_population n cfg subs r = Ok (pop, r').
Proof.
  intros Hav. revert r. induction n as [|n IH]; intros r.
  - eexists _, _. reflexivity.
  - rewrite new_population_S.
    destruct (new_chromosome_ok cfg subs r Hav) as [c [r1 H1]].
    rewrite (bind_ok _ _ _ _ _ H1).
    destruct (IH r1) as [cs [r2 H2]]. rewrite (bind_ok _ _ _ _ _ H2).
    eexists _, _. reflexivity.
Qed.

Lemma new_population_raise (n : nat) cfg subs r e :
  new_population n cfg subs r = Raise e -> e = IndexError.
Proof.
  revert r. induction n as [|n IH]; intros r H; [discriminate H|].
  rewrite new_population_S in H. unfold bind at 1 in H.
  destruct (new_chromosome cfg subs r) as [[c r1]|e'] eqn:E.
  - unfold bind in H. destruct (new_population n cfg subs r1) as [[cs r2]|e''] eqn:E2.
    + discriminate H.
    + injection H as <-. exact (IH _ E2).
  - injection H as <-. exact (new_chromosome_raise _ _ _ _ E).
Qed.

Lemma for_r_raises {A S} (xs : list A) (body : A -> S -> result S) (st : S) e x0 :
  (forall x s e', body x s = Raise e' -> e' = e) ->
  In x0 xs -> (forall s, exists e', body x0 s = Raise e') ->
  for_r xs body st = Raise e.
Proof.
  intros Hb Hx0 Hraise. revert st. induction xs as [|x xs IH]; intros st; [destruct Hx0|].
  simpl. destruct (body x st) as [s'|e'] eqn:E; cbn [bind_r].
  - destruct Hx0 as [<-|Hx0]; [|exact (IH Hx0 s')].
    destruct (Hraise st) as [e' He']. congruence.
  - rewrite (Hb _ _ _ E). reflexivity.
Qed.

(** ** The checks of [calculate_fitness] *)

Section Scans.

Variable cfg : TimetableConfig.
Variable g : grid.

Lemma conflict_scan_ok key fit :
  shaped cfg g -> exists v, conflict_scan key cfg g fit = Ok v.
Proof.
  intros Hs. unfold conflict_scan.
  lazymatch goal with |- context [for_r ?xs ?body ?st0] =>
    destruct (for_r_total (fun _ => True) xs body st0) as [[f seen] [Hrun _]]; [exact I| |] end.
  - intros [d h] [f0 seen0] Hin _.
    destruct (shaped_get cfg g d h Hs Hin) as [v Hv]. cbn. rewrite Hv. cbn.
    destruct v; eauto.
  - rewrite Hrun. eexists. reflexivity.
Qed.

Lemma conflict_scan_raise key fit e : conflict_scan key cfg g fit = Raise e -> e = IndexError.
Proof.
  unfold conflict_scan. intros H.
  lazymatch type of H with context [for_r ?xs ?body ?st0] =>
    destruct (for_r xs body st0) as [[f seen]|e'] eqn:E; cbn [bind_r] in H;
      [discriminate H | injection H as <-] end.
  refine (for_r_raise_only _ _ _ _ _ _ E).
  intros [d h] [f0 seen0] e'' Hb. cbv beta iota in Hb.
  destruct (get_subject g d h) as [[s|]|e3] eqn:Eg; cbn [bind_r] in Hb; try discriminate Hb.
  injection Hb as <-. exact (get_subject_raise _ _ _ _ Eg).
Qed.

Lemma lunch_scan_le fit fit' : lunch_scan cfg g fit = Ok fit' -> fit' <= fit.
Proof.
  unfold lunch_scan. intros H.
  refine (for_r_inv (fun _ x => x <= fit) _ _ fit fit' (Z.le_refl _) _ H).
  intros pre [d h] post f0 f1 _ Hf0 Hb. cbv beta iota in Hb.
  apply bind_r_ok_inv in Hb as [[s|] [_ Hb]]; injection Hb as <-; lia.
Qed.

Lemma lunch_scan_ok fit :
  shaped cfg g -> 0 <= lunch_break_start cfg ->
  lunch_break_start cfg + lunch_break_duration cfg <= hours_per_day cfg ->
  exists fit', lunch_scan cfg g fit = Ok fit'.
Proof.
  intros Hs H1 H2. unfold lunch_scan.
  lazymatch goal with |- context [for_r ?xs ?body ?st0] =>
    destruct (for_r_total (fun _ => True) xs body st0) as [f [Hrun _]]; [exact I| |] end.
  - intros [d h] f0 Hin _. apply in_prod_iff in Hin as [Hd Hh].
    apply in_range in Hd. apply in_range2 in Hh.
    destruct (shaped_get cfg g d h Hs) as [v Hv]; [apply in_cells; lia|].
    cbn. rewrite Hv. cbn. destruct v; eauto.
  - eauto.
Qed.

Lemma lunch_scan_raise fit e : lunch_scan cfg g fit = Raise e -> e = IndexError.
Proof.
  unfold lunch_scan. apply for_r_raise_only.
  intros [d h] f0 e' Hb. cbv beta iota in Hb.
  destruct (get_subject g d h) as [[s|]|e3] eqn:Eg; cbn [bind_r] in Hb; try discriminate Hb.
  injection Hb as <-. exact (get_subject_raise _ _ _ _ Eg).
Qed.

Lemma lab_scan_le fit fit' : lab_scan cfg g fit = Ok fit' -> fit' <= fit.
Proof.
  unfold lab_scan. intros H.
  refine (for_r_inv (fun _ x => x <= fit) _ _ fit fit' (Z.le_refl _) _ H).
  intros pre [d h] post f0 f1 _ Hf0 Hb. cbv beta iota in Hb.
  apply bind_r_ok_inv in Hb as [[s|] [_ Hb]]; [|injection Hb as <-; lia].
  destruct (is_lab s); [|injection Hb as <-; lia].
  apply bind_r_ok_inv in Hb as [[t1|] [_ Hb]]; [|injection Hb as <-; lia].
  apply bind_r_ok_inv in Hb as [[t2|] [_ Hb]]; [|injection Hb as <-; lia].
  destruct (_ || _); injection Hb as <-; lia.
Qed.

Lemma lab_scan_ok fit : shaped cfg g -> exists fit', lab_scan cfg g fit = Ok fit'.
Proof.
  intros Hs. unfold lab_scan.
  lazymatch goal with |- context [for_r ?xs ?body ?st0] =>
    destruct (for_r_total (fun _ => True) xs body st0) as [f [Hrun _]]; [exact I| |] end.
  - intros [d h] f0 Hin _. apply in_prod_iff in Hin as [Hd Hh].
    apply in_range in Hd. apply in_range in Hh.
    destruct (shaped_get cfg g d h Hs) as [v Hv]; [apply in_cells; lia|].
    destruct (shaped_get cfg g d (h + 1) Hs) as [v1 Hv1]; [apply in_cells; lia|].
    destruct (shaped_get cfg g d (h + 2) Hs) as [v2 Hv2]; [apply in_cells; lia|].
    cbn. rewrite Hv. cbn. destruct v as [s|]; [|eauto].
    destruct (is_lab s); [|eauto]. rewrite Hv1. cbn. destruct v1; [|eauto].
    rewrite Hv2. cbn. destruct v2; [|eauto]. destruct (_ || _); eauto.
  - eauto.
Qed.

Lemma lab_scan_raise fit e : lab_scan cfg g fit = Raise e -> e = IndexError.
Proof.
  unfold lab_scan. apply for_r_raise_only.
  intros [d h] f0 e' Hb. cbv beta iota in Hb.
  destruct (get_subject g d h) as [[s|]|e3] eqn:Eg; cbn [bind_r] in Hb;
    [|discriminate Hb|injection Hb as <-; exact (get_subject_raise _ _ _ _ Eg)].
  destruct (is_lab s); [|discriminate Hb].
  destruct (get_subject g d (h + 1)) as [[t1|]|e3] eqn:Eg1; cbn [bind_r] in Hb;
    [|discriminate Hb|injection Hb as <-; exact (get_subject_raise _ _ _ _ Eg1)].
  destruct (get_subject g d (h + 2)) as [[t2|]|e3] eqn:Eg2; cbn [bind_r] in Hb;
    [|discriminate Hb|injection Hb as <-; exact (get_subject_raise _ _ _ _ Eg2)].
  destruct (_ || _); discriminate Hb.
Qed.

(** With no lab in the grid, the lab check subtracts nothing. *)
Lemma lab_scan_no_lab fit fit' :
  (forall d h S, get_subject g d h = Ok (Some S) -> is_lab S = false) ->
  lab_scan cfg g fit = Ok fit' -> fit' = fit.
Proof.
  intros Hnl H. unfold lab_scan in H.
  refine (for_r_inv (fun _ x => x = fit) _ _ fit fit' eq_refl _ H).
  intros pre [d h] post f0 f1 _ -> Hb. cbv beta iota in Hb.
  apply bind_r_ok_inv in Hb as [[s|] [Hs Hb]]; [|injection Hb as <-; reflexivity].
  rewrite (Hnl _ _ _ Hs) in Hb. injection Hb as <-. reflexivity.
Qed.

End Scans.

Lemma calculate_fitness_range (ch : TimetableChromosome) v ch' :
  calculate_fitness ch = Ok (v, ch') -> 0 <= v <= 100 /\ ch' = with_fitness ch v.
Proof.
  unfold calculate_fitness. intros H.
  apply bind_r_ok_inv in H as [f1 [E1 H]]. apply conflict_scan_unchanged in E1 as ->.
  apply bind_r_ok_inv in H as [f2 [E2 H]]. apply conflict_scan_unchanged in E2 as ->.
  apply bind_r_ok_inv in H as [f3 [E3 H]]. apply lunch_scan_le in E3.
  apply bind_r_ok_inv in H as [f4 [E4 H]]. apply lab_scan_le in E4.
  injection H as <- <-. split; [lia | reflexivity].
Qed.

Lemma calculate_fitness_raise (ch : TimetableChromosome) e :
  calculate_fitness ch = Raise e -> e = IndexError.
Proof.
  unfold calculate_fitness. cbv zeta.
  destruct (conflict_scan faculty _ _ _) eqn:E1; cbn [bind_r];
    [|intros [= <-]; exact (conflict_scan_raise _ _ _ _ _ E1)].
  destruct (conflict_scan room _ _ _) eqn:E2; cbn [bind_r];
    [|intros [= <-]; exact (conflict_scan_raise _ _ _ _ _ E2)].
  destruct (lunch_scan _ _ _) eqn:E3; cbn [bind_r];
    [|intros [= <-]; exact (lunch_scan_raise _ _ _ _ E3)].
  destruct (lab_scan _ _ _) eqn:E4; cbn [bind_r];
    [discriminate | intros [= <-]; exact (lab_scan_raise _ _ _ _ E4)].
Qed.

Lemma calculate_fitness_ok (ch : TimetableChromosome) :
  shaped (config ch) (slots ch) -> 0 <= lunch_break_start (config ch) ->
  lunch_break_start (config ch) + lunch_break_duration (config ch) <= hours_per_day (config ch) ->
  exists v, calculate_fitness ch = Ok (v, with_fitness ch v) /\ 0 <= v <= 100.
Proof.
  intros Hs H1 H2. unfold calculate_fitness. cbv zeta.
  destruct (conflict_scan_ok _ _ faculty 100 Hs) as [f1 E1]. rewrite E1. cbn [bind_r].
  destruct (conflict_scan_ok _ _ room f1 Hs) as [f2 E2]. rewrite E2. cbn [bind_r].
  destruct (lunch_scan_ok _ _ f2 Hs H1 H2) as [f3 E3]. rewrite E3. cbn [bind_r].
  destruct (lab_scan_ok _ _ f3 Hs) as [f4 E4]. rewrite E4. cbn [bind_r].
  apply conflict_scan_unchanged in E1, E2. apply lunch_scan_le in E3. apply lab_scan_le in E4.
  eexists. split; [reflexivity | lia].
Qed.

Lemma calculate_fitness_lunch_overflow (ch : TimetableChromosome) :
  shaped (config ch) (slots ch) -> 0 < days_per_week (config ch) ->
  0 < lunch_break_duration (config ch) ->
  hours_per_day (config ch) < lunch_break_start (config ch) + lunch_break_duration (config ch) ->
  calculate_fitness ch = Raise IndexError.
Proof.
  intros Hs Hd Hl Hover. unfold calculate_fitness. cbv zeta.
  destruct (conflict_scan_ok _ _ faculty 100 Hs) as [f1 E1]. rewrite E1. cbn [bind_r].
  destruct (conflict_scan_ok _ _ room f1 Hs) as [f2 E2]. rewrite E2. cbn [bind_r].
  set (cfg := config ch) in *.
  set (m := Z.max (lunch_break_start cfg) (hours_per_day cfg)).
  assert (Hraise : lunch_scan cfg (slots ch) f2 = Raise IndexError).
  { unfold lunch_scan. apply (for_r_raises _ _ _ _ (0, m)).
    - intros [d h] f0 e' Hb. cbv beta iota in Hb.
      destruct (get_subject (slots ch) d h) as [[s|]|e3] eqn:Eg; cbn [bind_r] in Hb;
        try discriminate Hb.
      injection Hb as <-. exact (get_subject_raise _ _ _ _ Eg).
    - apply in_prod_iff. split; [apply in_range; lia | apply in_range2; lia].
    - intros f0. cbn. rewrite (shaped_get_out cfg _ 0 m Hs) by lia. eexists. reflexivity. }
  rewrite Hraise. reflexivity.
Qed.

(** ** [m[k].remove(x)] and [m[k].add(x)] *)

Lemma occ_remove_spec (m m' : occupancy) k x :
  occ_remove m k x = Ok m' ->
  (forall k' y, y ∈ occ_of m' k' <-> y ∈ occ_of m k' /\ ~ (k' = k /\ y = x)) /\
  (forall k', is_Some (m !! k') -> is_Some (m' !! k')).
Proof.
  unfold occ_remove. destruct (m !! k) as [st|] eqn:Ek; [|discriminate].
  case_bool_decide; [|discriminate]. intros [= <-].
  split.
  - intros k' y. unfold occ_of. rewrite lookup_insert. case_decide as Hk; simpl.
    + subst k'. rewrite Ek. simpl. set_solver.
    + split; [intros Hy; split; [exact Hy | intros [? _]; congruence] | tauto].
  - intros k' Hk'. rewrite lookup_insert. case_decide; [eauto | exact Hk'].
Qed.

Lemma occ_remove_ok (m : occupancy) k x :
  x ∈ occ_of m k -> exists m', occ_remove m k x = Ok m'.
Proof.
  unfold occ_of, occ_remove. destruct (m !! k) as [st|]; simpl; [|set_solver].
  intros Hx. rewrite bool_decide_true by exact Hx. eauto.
Qed.

Lemma occ_add_spec (m m' : occupancy) k x :
  occ_add m k x = Ok m' ->
  (forall k' y, y ∈ occ_of m' k' <-> (k' = k /\ y = x) \/ y ∈ occ_of m k') /\
  (forall k', is_Some (m !! k') -> is_Some (m' !! k')).
Proof.
  unfold occ_add. destruct (m !! k) as [st|] eqn:Ek; [|discriminate]. intros [= <-].
  split.
  - intros k' y. unfold occ_of. rewrite lookup_insert. case_decide as Hk; simpl.
    + subst k'. rewrite Ek. simpl. set_solver.
    + split; [tauto | intros [[? _]|Hy]; [congruence | exact Hy]].
  - intros k' Hk'. rewrite lookup_insert. case_decide; [eauto | exact Hk'].
Qed.

Lemma occ_add_ok (m : occupancy) k x : is_Some (m !! k) -> exists m', occ_add m k x = Ok m'.
Proof. unfold occ_add. intros [st ->]. eauto. Qed.

Lemma occ_of_is_Some (m : occupancy) k x : x ∈ occ_of m k -> is_Some (m !! k).
Proof. unfold occ_of. destruct (m !! k); simpl; [eauto | set_solver]. Qed.

Lemma get_subject_cells (cfg : TimetableConfig) (g : grid) d h x :
  shaped cfg g -> 0 <= d -> 0 <= h -> get_subject g d h = Ok x -> In (d, h) (cells cfg).
Proof.
  intros [Hlen Hrows] Hd Hh Hget.
  destruct (get_subject_lookup g d h x Hd Hh Hget) as [row [Hrow Hx]].
  rewrite List.Forall_forall in Hrows.
  assert (Hr : length row = Z.to_nat (hours_per_day cfg)).
  { apply Hrows. apply list_elem_of_In, list_elem_of_lookup. eauto. }
  pose proof (lookup_lt_Some _ _ _ Hrow). pose proof (lookup_lt_Some _ _ _ Hx).
  apply in_cells. lia.
Qed.

(** ** The mutation swap *)

Section Swap.

Variable cfg : TimetableConfig.
Variable child : TimetableChromosome.
Hypothesis child_wf : well_formed cfg child.
Variables d1 h1 d2 h2 : Z.
Hypothesis nonneg : 0 <= d1 /\ 0 <= h1 /\ 0 <= d2 /\ 0 <= h2.

(** The facts a swap relies on: both cells are occupied, recorded, and the
    conflict test passed. *)
Lemma swap_facts s1 s2 :
  get_subject (slots child) d1 h1 = Ok (Some s1) ->
  get_subject (slots child) d2 h2 = Ok (Some s2) ->
  negb (in_schedule (faculty_schedule child) (faculty s1) (d2, h2)) && negb (in_schedule (room_schedule child) (room s1) (d2, h2)) &&
  negb (in_schedule (faculty_schedule child) (faculty s2) (d1, h1)) && negb (in_schedule (room_schedule child) (room s2) (d1, h1)) = true ->
  (d1, h1) ∈ occ_of (faculty_schedule child) (faculty s1) /\ (d1, h1) ∈ occ_of (room_schedule child) (room s1) /\
  (d2, h2) ∈ occ_of (faculty_schedule child) (faculty s2) /\ (d2, h2) ∈ occ_of (room_schedule child) (room s2) /\
  ((d2, h2) ∉ occ_of (faculty_schedule child) (faculty s1)) /\ ((d2, h2) ∉ occ_of (room_schedule child) (room s1)) /\
  ((d1, h1) ∉ occ_of (faculty_schedule child) (faculty s2)) /\ ((d1, h1) ∉ occ_of (room_schedule child) (room s2)) /\
  faculty s1 <> faculty s2 /\ room s1 <> room s2 /\ (d1, h1) <> (d2, h2).
Proof.
  destruct child_wf as [_ [Hs [Hi _]]]. intros H1 H2 Hc.
  rewrite !in_schedule_occ in Hc.
  repeat match type of Hc with
  | _ && _ = true => apply andb_true_iff in Hc as [Hc ?]
  end.
  repeat match goal with
  | H : negb (bool_decide _) = true |- _ => apply negb_true_iff, bool_decide_eq_false in H
  end.
  destruct nonneg as (Hd1 & Hh1 & Hd2 & Hh2).
  destruct (Hi d1 h1 s1 (get_subject_cells cfg _ _ _ _ Hs Hd1 Hh1 H1) H1) as [F1 R1].
  destruct (Hi d2 h2 s2 (get_subject_cells cfg _ _ _ _ Hs Hd2 Hh2 H2) H2) as [F2 R2].

  repeat split; try assumption.
  - intros E. congruence.
  - intros E. congruence.
  - intros E. rewrite E in *. congruence.
Qed.

Lemma swap_slots_wf c' :
  swap_slots child d1 h1 d2 h2 = Ok c' -> well_formed cfg c'.
Proof.
  destruct nonneg as (Hd1 & Hh1 & Hd2 & Hh2).
  intros H. unfold swap_slots in H.
  apply bind_r_ok_inv in H as [v1 [Hv1 H]].
  apply bind_r_ok_inv in H as [v2 [Hv2 H]].
  destruct v1 as [s1|]; [|injection H as <-; exact child_wf].
  destruct v2 as [s2|]; [|injection H as <-; exact child_wf].
  cbv zeta in H.
  destruct (_ && _ && _ && _) eqn:Hc; [|injection H as <-; exact child_wf].
  destruct (swap_facts s1 s2 Hv1 Hv2 Hc)
    as (F1 & R1 & F2 & R2 & NF1 & NR1 & NF2 & NR2 & Hf & Hr & Hx).
  apply bind_r_ok_inv in H as [g1 [Hg1 H]].
  apply bind_r_ok_inv in H as [g2 [Hg2 H]].
  apply bind_r_ok_inv in H as [fsA [EfA H]]. apply occ_remove_spec in EfA as [SfA _].
  apply bind_r_ok_inv in H as [rsA [ErA H]]. apply occ_remove_spec in ErA as [SrA _].
  apply bind_r_ok_inv in H as [fsB [EfB H]]. apply occ_add_spec in EfB as [SfB _].
  apply bind_r_ok_inv in H as [rsB [ErB H]]. apply occ_add_spec in ErB as [SrB _].
  apply bind_r_ok_inv in H as [fsC [EfC H]]. apply occ_remove_spec in EfC as [SfC _].
  apply bind_r_ok_inv in H as [rsC [ErC H]]. apply occ_remove_spec in ErC as [SrC _].
  apply bind_r_ok_inv in H as [fsD [EfD H]]. apply occ_add_spec in EfD as [SfD _].
  apply bind_r_ok_inv in H as [rsD [ErD H]]. apply occ_add_spec in ErD as [SrD _].
  injection H as <-.
  destruct child_wf as [Hcfg [Hs [Hi Hfit]]].
  split; [exact Hcfg|]. split; [exact (shaped_set cfg _ _ _ _ _ (shaped_set cfg _ _ _ _ _ Hs Hg1) Hg2)|].
  split; [|exact Hfit].
  intros d h S Hin Hget. cbn [slots faculty_schedule room_schedule] in Hget |- *.
  pose proof Hin as Hin'. apply in_cells in Hin'.
  rewrite (get_set_subject g1 g2 d2 h2 _ d h) in Hget by (lia || exact Hg2).
  rewrite SfD, SfC, SfB, SfA, SrD, SrC, SrB, SrA.
  destruct (decide ((d, h) = (d2, h2))) as [E2|Ne2].
  - injection Hget as <-. rewrite E2. split.
    + right. split; [left; auto | intros [E _]; congruence].
    + right. split; [left; auto | intros [E _]; congruence].
  - rewrite (get_set_subject (slots child) g1 d1 h1 _ d h) in Hget by (lia || exact Hg1).
    destruct (decide ((d, h) = (d1, h1))) as [E1|Ne1].
    + injection Hget as <-. rewrite E1. split; left; auto.
    + destruct (Hi d h S Hin Hget) as [FS RS].
      split; right; split; try (intros [_ E]; contradiction);
        right; split; try (intros [_ E]; contradiction); assumption.
Qed.

Lemma swap_slots_ok :
  In (d1, h1) (cells cfg) -> In (d2, h2) (cells cfg) ->
  exists c', swap_slots child d1 h1 d2 h2 = Ok c'.
Proof.
  intros Hin1 Hin2. destruct child_wf as [Hcfg [Hs [Hi Hfit]]].
  unfold swap_slots.
  destruct (shaped_get cfg _ d1 h1 Hs Hin1) as [v1 Hv1]. rewrite Hv1. cbn [bind_r].
  destruct (shaped_get cfg _ d2 h2 Hs Hin2) as [v2 Hv2]. rewrite Hv2. cbn [bind_r].
  destruct v1 as [s1|]; [|eauto]. destruct v2 as [s2|]; [|eauto].
  cbv zeta.
  destruct (_ && _ && _ && _) eqn:Hc; [|eauto].
  destruct (swap_facts s1 s2 Hv1 Hv2 Hc)
    as (F1 & R1 & F2 & R2 & NF1 & NR1 & NF2 & NR2 & Hf & Hr & Hx).
  destruct (shaped_set_ok cfg _ d1 h1 (Some s2) Hs Hin1) as [g1 Hg1]. rewrite Hg1. cbn [bind_r].
  destruct (shaped_set_ok cfg _ d2 h2 (Some s1) (shaped_set cfg _ _ _ _ _ Hs Hg1) Hin2)
    as [g2 Hg2]. rewrite Hg2. cbn [bind_r].
  destruct (occ_remove_ok (faculty_schedule child) (faculty s1) (d1, h1) F1) as [fsA EfA]. rewrite EfA. cbn [bind_r].
  destruct (occ_remove_ok (room_schedule child) (room s1) (d1, h1) R1) as [rsA ErA]. rewrite ErA. cbn [bind_r].
  pose proof (occ_remove_spec _ _ _ _ EfA) as [SfA KfA].
  pose proof (occ_remove_spec _ _ _ _ ErA) as [SrA KrA].
  destruct (occ_add_ok fsA (faculty s1) (d2, h2)) as [fsB EfB];
    [apply KfA; exact (occ_of_is_Some _ _ _ F1)|]. rewrite EfB. cbn [bind_r].
  destruct (occ_add_ok rsA (room s1) (d2, h2)) as [rsB ErB];
    [apply KrA; exact (occ_of_is_Some _ _ _ R1)|]. rewrite ErB. cbn [bind_r].
  pose proof (occ_add_spec _ _ _ _ EfB) as [SfB KfB].
  pose proof (occ_add_spec _ _ _ _ ErB) as [SrB KrB].
  destruct (occ_remove_ok fsB (faculty s2) (d2, h2)) as [fsC EfC].
  { rewrite SfB, SfA. right. split; [exact F2 | intros [E _]; congruence]. }
  rewrite EfC. cbn [bind_r].
  destruct (occ_remove_ok rsB (room s2) (d2, h2)) as [rsC ErC].
  { rewrite SrB, SrA. right. split; [exact R2 | intros [E _]; congruence]. }
  rewrite ErC. cbn [bind_r].
  pose proof (occ_remove_spec _ _ _ _ EfC) as [SfC KfC].
  pose proof (occ_remove_spec _ _ _ _ ErC) as [SrC KrC].
  destruct (occ_add_ok fsC (faculty s2) (d1, h1)) as [fsD EfD].
  { apply KfC, KfB, KfA. exact (occ_of_is_Some _ _ _ F2). }
  rewrite EfD. cbn [bind_r].
  destruct (occ_add_ok rsC (room s2) (d1, h1)) as [rsD ErD].
  { apply KrC, KrB, KrA. exact (occ_of_is_Some _ _ _ R2). }
  rewrite ErD. cbn [bind_r]. eauto.
Qed.

End Swap.

Lemma randint_range (a b : Z) (r : rng) x r' : randint a b r = Ok (x, r') -> a <= x <= b.
Proof.
  unfold randint. destruct (b + 1 - a <=? 0) eqn:E; [intros H; discriminate H|].
  intros H. apply bind_ok_inv in H as [i [r1 [Hi H]]]. unfold ret in H. injection H as <- _.
  unfold randbelow in Hi. apply bind_ok_inv in Hi as [x0 [r2 [_ Hi]]].
  unfold ret in Hi. injection Hi as <- _.
  apply Z.leb_gt in E. pose proof (Z.mod_pos_bound x0 (b + 1 - a) ltac:(lia)). lia.
Qed.

Lemma randint_ok (a b : Z) (r : rng) : a <= b -> exists x r', randint a b r = Ok (x, r').
Proof.
  intros Hab. unfold randint. replace (b + 1 - a <=? 0) with false by (symmetry; apply Z.leb_gt; lia).
  eexists _, _. reflexivity.
Qed.

Lemma mutate_wf cfg child r c' r' :
  well_formed cfg child -> mutate cfg child r = Ok (c', r') -> well_formed cfg c'.
Proof.
  intros Hw H. unfold mutate in H.
  apply bind_ok_inv in H as [d1 [r1 [Hd1 H]]]. apply randint_range in Hd1.
  apply bind_ok_inv in H as [h1 [r2 [Hh1 H]]]. apply randint_range in Hh1.
  apply bind_ok_inv in H as [d2 [r3 [Hd2 H]]]. apply randint_range in Hd2.
  apply bind_ok_inv in H as [h2 [r4 [Hh2 H]]]. apply randint_range in Hh2.
  apply lift_ok_inv in H as [H _].
  exact (swap_slots_wf cfg child Hw d1 h1 d2 h2 ltac:(lia) c' H).
Qed.

Lemma mutate_ok cfg child r :
  well_formed cfg child -> 0 < days_per_week cfg -> 0 < hours_per_day cfg ->
  exists c' r', mutate cfg child r = Ok (c', r').
Proof.
  intros Hw Hd Hh. unfold mutate.
  destruct (randint_ok 0 (days_per_week cfg - 1) r ltac:(lia)) as [d1 [r1 E1]].
  pose proof (randint_range _ _ _ _ _ E1). rewrite (bind_ok _ _ _ _ _ E1).
  destruct (randint_ok 0 (hours_per_day cfg - 1) r1 ltac:(lia)) as [h1 [r2 E2]].
  pose proof (randint_range _ _ _ _ _ E2). rewrite (bind_ok _ _ _ _ _ E2).
  destruct (randint_ok 0 (days_per_week cfg - 1) r2 ltac:(lia)) as [d2 [r3 E3]].
  pose proof (randint_range _ _ _ _ _ E3). rewrite (bind_ok _ _ _ _ _ E3).
  destruct (randint_ok 0 (hours_per_day cfg - 1) r3 ltac:(lia)) as [h2 [r4 E4]].
  pose proof (randint_range _ _ _ _ _ E4). rewrite (bind_ok _ _ _ _ _ E4).
  destruct (swap_slots_ok cfg child Hw d1 h1 d2 h2 ltac:(lia)) as [c' Hc];
    [apply in_cells; lia | apply in_cells; lia|].
  unfold lift. rewrite Hc. eauto.
Qed.

(** ** Crossover and the rebuild *)

Lemma crossover_shaped cfg cp p1 p2 child c' :
  shaped cfg (slots child) -> crossover cfg cp p1 p2 child = Ok c' ->
  shaped cfg (slots c') /\ config c' = config child /\ fitness c' = fitness child.
Proof.
  intros Hs H. unfold crossover in H.
  apply bind_r_ok_inv in H as [g [Hrun H]]. injection H as <-.
  split; [|split; reflexivity]. cbn [slots with_slots].
  refine (for_r_inv (fun _ g => shaped cfg g) (cells cfg) _ _ _ Hs _ Hrun).
  intros pre [d h] post g0 g1 _ Hg0 Hstep. cbv beta iota in Hstep.
  apply bind_r_ok_inv in Hstep as [v [_ Hset]]. exact (shaped_set cfg _ _ _ _ _ Hg0 Hset).
Qed.

Lemma crossover_ok cfg cp p1 p2 child :
  shaped cfg (slots p1) -> shaped cfg (slots p2) -> shaped cfg (slots child) ->
  exists c', crossover cfg cp p1 p2 child = Ok c'.
Proof.
  intros H1 H2 Hs. unfold crossover.
  lazymatch goal with |- context [for_r ?xs ?body ?st0] =>
    destruct (for_r_total (fun g => shaped cfg g) xs body st0) as [g [Hrun _]]; [exact Hs| |] end.
  - intros [d h] g0 Hin Hg0. cbv beta iota.
    destruct (shaped_get cfg (slots (if d <? cp then p1 else p2)) d h) as [v Hv];
      [destruct (d <? cp); assumption | exact Hin|].
    rewrite Hv. cbn [bind_r].
    destruct (shaped_set_ok cfg g0 d h v Hg0 Hin) as [g1 Hg1]. rewrite Hg1.
    exists g1. split; [reflexivity | exact (shaped_set cfg _ _ _ _ _ Hg0 Hg1)].
  - rewrite Hrun. eexists. reflexivity.
Qed.

(** Every cell of the crossover's result comes from the parent its day selects. *)
Lemma crossover_cells cfg cp p1 p2 child c' :
  shaped cfg (slots child) -> crossover cfg cp p1 p2 child = Ok c' ->
  forall d h, In (d, h) (cells cfg) ->
  get_subject (slots c') d h = get_subject (slots (if d <? cp then p1 else p2)) d h.
Proof.
  intros Hs H. unfold crossover in H.
  apply bind_r_ok_inv in H as [g [Hrun H]]. injection H as <-. cbn [slots with_slots].
  pose proof (cells_NoDup cfg) as Hnd.
  pose (P := fun pre g => shaped cfg g /\ forall d h, In (d, h) pre ->
    get_subject g d h = get_subject (slots (if d <? cp then p1 else p2)) d h).
  assert (HP : P (cells cfg) g).
  { refine (for_r_inv P (cells cfg) _ _ _ _ _ Hrun); unfold P.
    - split; [exact Hs | intros d h []].
    - intros pre [d h] post g0 g1 Hxs [Hg0 Hcp] Hstep. cbv beta iota in Hstep.
      apply bind_r_ok_inv in Hstep as [v [Hv Hset]].
      assert (Hin : In (d, h) (cells cfg))
        by (rewrite Hxs; apply in_or_app; right; left; reflexivity).
      apply in_cells in Hin.
      split; [exact (shaped_set cfg _ _ _ _ _ Hg0 Hset)|].
      intros d' h' Hin'. apply in_app_iff in Hin' as [Hin'|[E|[]]].
      + assert (Hc' : In (d', h') (cells cfg))
          by (rewrite Hxs; apply in_or_app; left; exact Hin').
        apply in_cells in Hc'.
        rewrite (get_set_subject g0 g1 d h v d' h') by (lia || exact Hset).
        destruct (decide ((d', h') = (d, h))) as [E|Ne]; [|exact (Hcp d' h' Hin')].
        exfalso. rewrite E in Hin'. rewrite Hxs in Hnd.
        apply List.NoDup_remove_2 in Hnd. apply Hnd. apply in_or_app. left. exact Hin'.
      + injection E as <- <-.
        rewrite (get_set_subject g0 g1 d h v d h) by (lia || exact Hset).
        rewrite decide_True by reflexivity. symmetry. exact Hv. }
  exact (proj2 HP).
Qed.

Lemma rebuild_occupancy_ok cfg child :
  shaped cfg (slots child) -> exists c', rebuild_occupancy cfg child = Ok c'.
Proof.
  intros Hs. unfold rebuild_occupancy, rebuild_schedules.
  lazymatch goal with |- context [for_r ?xs ?body ?st0] =>
    destruct (for_r_total (fun _ => True) xs body st0) as [[fs rs] [Hrun _]]; [exact I| |] end.
  - intros [d h] [fs0 rs0] Hin _. cbv beta iota.
    destruct (shaped_get cfg _ d h Hs Hin) as [v Hv]. rewrite Hv. cbn [bind_r].
    destruct v; eauto.
  - rewrite Hrun. eexists. reflexivity.
Qed.

Lemma rebuild_occupancy_wf cfg child c' :
  config child = cfg -> shaped cfg (slots child) -> 0 <= fitness child <= 100 ->
  rebuild_occupancy cfg child = Ok c' -> well_formed cfg c'.
Proof.
  intros Hc Hs Hf H. unfold rebuild_occupancy in H.
  apply bind_r_ok_inv in H as [[fs rs] [Hrun H]]. injection H as <-.
  pose proof (rebuild_schedules_spec cfg _ fs rs Hrun) as Hspec.
  split; [exact Hc|]. split; [exact Hs|]. split; [|exact Hf].
  intros d h S Hin Hget. cbn in Hget |- *.
  destruct (Hspec (faculty S) (d, h)) as [[_ HF] _].
  destruct (Hspec (room S) (d, h)) as [_ [_ HR]].
  split; [apply HF | apply HR]; split; [exact Hin | exists S; auto | exact Hin | exists S; auto].
Qed.

Lemma py_index_ok {A} (l : list A) (i : Z) :
  0 <= i < Z.of_nat (length l) -> exists x, py_index l i = Ok x /\ In x l.
Proof.
  intros Hi. rewrite py_index_nonneg by lia.
  destruct (lookup_lt_is_Some_2 l (Z.to_nat i)) as [x Hx]; [lia|].
  rewrite Hx. exists x. split; [reflexivity|].
  apply list_elem_of_In, list_elem_of_lookup. eauto.
Qed.

Lemma sample2_ok {A} (l : list A) (r : rng) :
  (2 <= length l)%nat -> exists a b r', sample2 l r = Ok ((a, b), r').
Proof.
  intros Hl. unfold sample2. cbv zeta.
  replace (Z.of_nat (length l) <? 2) with false by (symmetry; apply Z.ltb_ge; lia).
  unfold bind, draw, lift. cbv beta iota.
  set (n := Z.of_nat (length l)). set (x := draws r (pos r)).
  pose proof (Z.mod_pos_bound x n ltac:(lia)).
  pose proof (Z.mod_pos_bound (x / n) (n - 1) ltac:(lia)).
  destruct (py_index_ok l (x mod n)) as [a [Ha _]]; [lia|]. rewrite Ha. cbn [bind_r].
  destruct (py_index_ok l (if x mod n <=? (x / n) mod (n - 1)
                           then (x / n) mod (n - 1) + 1 else (x / n) mod (n - 1)))
    as [b [Hb _]]; [destruct (_ <=? _); lia|].
  rewrite Hb. cbn [bind_r]. eauto.
Qed.

Lemma random_float_ok (r : rng) : exists k r', random_float r = Ok (k, r').
Proof. eexists _, _. reflexivity. Qed.

(** ** Evaluation and sorting *)

Lemma calculate_fitness_wf cfg ch v ch' :
  well_formed cfg ch -> calculate_fitness ch = Ok (v, ch') -> well_formed cfg ch' /\ fitness ch' = v.
Proof.
  intros [Hc [Hs [Hi _]]] H. apply calculate_fitness_range in H as [Hv ->].
  split; [|reflexivity]. split; [exact Hc|]. split; [exact Hs|]. split; [exact Hi | exact Hv].
Qed.

Lemma evaluate_all_wf cfg pop pop' :
  Forall (well_formed cfg) pop -> evaluate_all pop = Ok pop' ->
  Forall (well_formed cfg) pop' /\ length pop' = length pop.
Proof.
  revert pop'. induction pop as [|c pop IH]; intros pop' Hp H; cbn [evaluate_all] in H.
  - injection H as <-. split; [constructor | reflexivity].
  - inversion Hp as [|? ? Hc Hrest]; subst.
    apply bind_r_ok_inv in H as [[v c'] [Hc' H]].
    apply bind_r_ok_inv in H as [cs' [Hcs H]]. injection H as <-.
    destruct (IH _ Hrest Hcs) as [Hf Hl].
    split; [constructor; [exact (proj1 (calculate_fitness_wf _ _ _ _ Hc Hc')) | exact Hf]|].
    simpl. rewrite Hl. reflexivity.
Qed.

Lemma evaluate_all_ok cfg pop :
  0 <= lunch_break_start cfg -> lunch_break_start cfg + lunch_break_duration cfg <= hours_per_day cfg ->
  Forall (well_formed cfg) pop -> exists pop', evaluate_all pop = Ok pop'.
Proof.
  intros H1 H2 Hp. induction Hp as [|c pop [Hc [Hs _]] Hrest IH]; cbn [evaluate_all]; [eauto|].
  subst cfg. destruct (calculate_fitness_ok c Hs H1 H2) as [v [Ev _]]. rewrite Ev. cbn [bind_r].
  destruct IH as [pop' Ep]. rewrite Ep. eauto.
Qed.

Lemma evaluate_all_head_raise c cs :
  calculate_fitness c = Raise IndexError -> evaluate_all (c :: cs) = Raise IndexError.
Proof. intros E. cbn [evaluate_all]. rewrite E. reflexivity. Qed.

Lemma insert_desc_perm c l : insert_desc c l ≡ₚ c :: l.
Proof.
  induction l as [|x l IH]; cbn [insert_desc]; [reflexivity|].
  destruct (fitness x <? fitness c); [reflexivity|].
  rewrite IH. apply perm_swap.
Qed.

Lemma sort_desc_perm l : sort_desc l ≡ₚ l.
Proof.
  unfold sort_desc.
  assert (H : forall acc, fold_left (fun acc c => insert_desc c acc) l acc ≡ₚ reverse l ++ acc).
  { induction l as [|x l IH]; intros acc; cbn [fold_left]; [reflexivity|].
    rewrite IH, insert_desc_perm, reverse_cons, <- (assoc_L (++)). simpl.
    reflexivity. }
  rewrite H, app_nil_r. apply reverse_Permutation.
Qed.

(** ** The breeding loop *)

Lemma make_child_wf cfg subs parents r c r' :
  Forall (well_formed cfg) parents ->
  make_child cfg subs parents r = Ok (c, r') -> well_formed cfg c.
Proof.
  intros Hp H. rewrite List.Forall_forall in Hp. unfold make_child in H.
  apply bind_ok_inv in H as [[p1 p2] [r1 [Hs H]]].
  apply sample2_elem in Hs as [Hp1 Hp2]. cbv beta iota in H.
  apply bind_ok_inv in H as [ch [r2 [Hnew H]]].
  apply new_chromosome_wf in Hnew as [[_ [Hsh _]] [Hcfg Hfit]].
  apply bind_ok_inv in H as [cp [r3 [_ H]]].
  apply bind_ok_inv in H as [c1 [r4 [Hx H]]]. apply lift_ok_inv in Hx as [Hx _].
  apply (crossover_shaped cfg cp p1 p2 ch c1 Hsh) in Hx as [Hsh1 [Hc1 Hf1]].
  apply bind_ok_inv in H as [c2 [r5 [Hr H]]]. apply lift_ok_inv in Hr as [Hr _].
  apply (rebuild_occupancy_wf cfg c1 c2) in Hr;
    [| rewrite Hc1; exact Hcfg | exact Hsh1 | rewrite Hf1, Hfit; lia].
  apply bind_ok_inv in H as [k [r6 [_ H]]].
  destruct (below_mutation_rate k).
  - exact (mutate_wf cfg c2 r6 c r' Hr H).
  - unfold ret in H. injection H as <- _. exact Hr.
Qed.

Lemma make_child_ok cfg subs parents r :
  valid_config cfg -> 2 <= days_per_week cfg -> all_slots cfg <> [] ->
  (2 <= length parents)%nat -> Forall (well_formed cfg) parents ->
  exists c r', make_child cfg subs parents r = Ok (c, r').
Proof.
  intros [Hd [Hh _]] H2 Hav Hl Hp. rewrite List.Forall_forall in Hp. unfold make_child.
  destruct (sample2_ok parents r Hl) as [p1 [p2 [r1 Es]]].
  pose proof (sample2_elem _ _ _ _ _ Es) as [Hp1 Hp2].
  rewrite (bind_ok _ _ _ _ _ Es). cbv beta iota.
  destruct (new_chromosome_ok cfg subs r1 Hav) as [ch [r2 En]].
  pose proof (new_chromosome_wf _ _ _ _ _ En) as [[_ [Hsh _]] [Hcfg Hfit]].
  rewrite (bind_ok _ _ _ _ _ En).
  destruct (randint_ok 1 (days_per_week cfg - 1) r2 ltac:(lia)) as [cp [r3 Er]].
  rewrite (bind_ok _ _ _ _ _ Er).
  destruct (crossover_ok cfg cp p1 p2 ch) as [c1 Ex];
    [exact (proj1 (proj2 (Hp _ Hp1))) | exact (proj1 (proj2 (Hp _ Hp2))) | exact Hsh|].
  pose proof (crossover_shaped cfg cp p1 p2 ch c1 Hsh Ex) as [Hsh1 [Hc1 Hf1]].
  rewrite (bind_ok (lift _) _ r3 c1 r3) by (unfold lift; rewrite Ex; reflexivity).
  destruct (rebuild_occupancy_ok cfg c1 Hsh1) as [c2 Eb].
  pose proof (rebuild_occupancy_wf cfg c1 c2 ltac:(rewrite Hc1; exact Hcfg) Hsh1
                ltac:(rewrite Hf1, Hfit; lia) Eb) as Hw2.
  rewrite (bind_ok (lift _) _ r3 c2 r3) by (unfold lift; rewrite Eb; reflexivity).
  destruct (random_float_ok r3) as [k [r4 Ek]]. rewrite (bind_ok _ _ _ _ _ Ek).
  destruct (below_mutation_rate k); [exact (mutate_ok cfg c2 r4 Hw2 Hd Hh) | eauto].
Qed.

Lemma make_offspring_wf cfg subs parents :
  Forall (well_formed cfg) parents ->
  forall n offspring r res r',
  Forall (well_formed cfg) offspring ->
  make_offspring n cfg subs parents offspring r = Ok (res, r') ->
  Forall (well_formed cfg) res /\ length res = (length offspring + n)%nat.
Proof.
  intros Hp n. induction n as [|n IH]; intros off r res r' Hoff H.
  - injection H as <- _. split; [exact Hoff | lia].
  - rewrite make_offspring_S in H.
    apply bind_ok_inv in H as [child [r1 [Hc H]]].
    destruct (IH _ r1 res r' ltac:(apply Forall_app; split;
        [exact Hoff | constructor; [exact (make_child_wf cfg subs parents r child r1 Hp Hc)
                                   | constructor]]) H) as [Hf Hl].
    split; [exact Hf|]. rewrite Hl, length_app. simpl. lia.
Qed.

Lemma make_offspring_ok cfg subs parents :
  valid_config cfg -> 2 <= days_per_week cfg -> all_slots cfg <> [] ->
  (2 <= length parents)%nat -> Forall (well_formed cfg) parents ->
  forall n offspring r, exists res r', make_offspring n cfg subs parents offspring r = Ok (res, r').
Proof.
  intros Hv H2 Hav Hl Hp n. induction n as [|n IH]; intros off r; [eexists _, _; reflexivity|].
  rewrite make_offspring_S.
  destruct (make_child_ok cfg subs parents r Hv H2 Hav Hl Hp) as [c [r1 Ec]].
  rewrite (bind_ok _ _ _ _ _ Ec). apply IH.
Qed.

(** ** One generation *)

Lemma generation_step_wf cfg subs pop r o r' :
  Forall (well_formed cfg) pop -> length pop = 50%nat ->
  generation_step cfg subs pop r = Ok (o, r') ->
  Forall (well_formed cfg) (outcome_population o) /\ length (outcome_population o) = 50%nat.
Proof.
  intros Hp Hl H. unfold generation_step in H.
  apply bind_ok_inv in H as [ev [r1 [He H]]]. apply lift_ok_inv in He as [He _].
  destruct (evaluate_all_wf cfg pop ev Hp He) as [Hev Hlev].
  pose proof (sort_desc_Forall _ ev Hev) as Hs.
  pose proof (Permutation_length (sort_desc_perm ev)) as Hls.
  cbv beta zeta in H.
  apply bind_ok_inv in H as [top [r2 [_ H]]].
  destruct (fitness top =? 100).
  - unfold ret in H. injection H as <- _. split; [exact Hs | cbn; lia].
  - apply bind_ok_inv in H as [off [r3 [Hoff H]]]. unfold ret in H. injection H as <- _.
    cbn [outcome_population].
    destruct (make_offspring_wf cfg subs _ (Forall_take _ _ _ Hs) _ [] _ _ _
               (List.Forall_nil _) Hoff) as [Hf Hlo].
    split; [apply Forall_app; split; [apply Forall_take; exact Hs | exact Hf]|].
    rewrite length_app, Hlo, !length_take, Hls, Hlev, Hl. reflexivity.
Qed.

Lemma generation_step_ok cfg subs pop r :
  valid_config cfg -> 2 <= days_per_week cfg -> all_slots cfg <> [] ->
  Forall (well_formed cfg) pop -> length pop = 50%nat ->
  exists o r', generation_step cfg subs pop r = Ok (o, r').
Proof.
  intros Hv H2 Hav Hp Hl. pose proof Hv as [_ [_ [Hl1 Hl2]]]. unfold generation_step.
  destruct (evaluate_all_ok cfg pop Hl1 Hl2 Hp) as [ev He].
  destruct (evaluate_all_wf cfg pop ev Hp He) as [Hev Hlev].
  rewrite (bind_ok (lift _) _ r ev r) by (unfold lift; rewrite He; reflexivity).
  pose proof (sort_desc_Forall _ ev Hev) as Hs.
  pose proof (Permutation_length (sort_desc_perm ev)) as Hls.
  cbv beta zeta.
  destruct (py_index_ok (sort_desc ev) 0) as [top [Et _]]; [lia|].
  rewrite (bind_ok (lift _) _ r top r) by (unfold lift; rewrite Et; reflexivity).
  destruct (fitness top =? 100); [eexists _, _; reflexivity|].
  destruct (make_offspring_ok cfg subs (take (Z.to_nat (population_size / 2)) (sort_desc ev))
              Hv H2 Hav ltac:(rewrite length_take, Hls, Hlev, Hl; apply Nat.leb_le; reflexivity) (Forall_take _ _ _ Hs)
              (Z.to_nat (population_size -
                 Z.of_nat (length (take (Z.to_nat (population_size / 2)) (sort_desc ev)))))
              [] r) as [off [r1 Eo]].
  rewrite (bind_ok _ _ _ _ _ Eo). eexists _, _. reflexivity.
Qed.

Lemma run_generations_S (n : nat) cfg subs pop :
  run_generations (S n) cfg subs pop =
  bind (generation_step cfg subs pop)
       (fun o => match o with Stop p => ret p | Continue p => run_generations n cfg subs p end).
Proof. reflexivity. Qed.

Lemma run_generations_wf cfg subs (n : nat) pop r pop' r' :
  Forall (well_formed cfg) pop -> length pop = 50%nat ->
  run_generations n cfg subs pop r = Ok (pop', r') ->
  Forall (well_formed cfg) pop' /\ length pop' = 50%nat.
Proof.
  revert pop r. induction n as [|n IH]; intros pop r Hp Hl H.
  - injection H as <- _. auto.
  - rewrite run_generations_S in H. apply bind_ok_inv in H as [o [r1 [Ho H]]].
    destruct (generation_step_wf cfg subs pop r o r1 Hp Hl Ho) as [Hf Hlo].
    destruct o as [p|p]; cbn [outcome_population] in Hf, Hlo.
    + injection H as <- _. auto.
    + exact (IH _ _ Hf Hlo H).
Qed.

Lemma run_generations_ok cfg subs (n : nat) pop r :
  valid_config cfg -> 2 <= days_per_week cfg -> all_slots cfg <> [] ->
  Forall (well_formed cfg) pop -> length pop = 50%nat ->
  exists pop' r', run_generations n cfg subs pop r = Ok (pop', r').
Proof.
  intros Hv H2 Hav. revert pop r. induction n as [|n IH]; intros pop r Hp Hl.
  - eexists _, _. reflexivity.
  - rewrite run_generations_S.
    destruct (generation_step_ok cfg subs pop r Hv H2 Hav Hp Hl) as [o [r1 Eo]].
    pose proof (generation_step_wf cfg subs pop r o r1 Hp Hl Eo) as [Hf Hlo].
    rewrite (bind_ok _ _ _ _ _ Eo).
    destruct o as [p|p]; [eexists _, _; reflexivity | exact (IH _ _ Hf Hlo)].
Qed.

(** ** [max(population, key=...)] *)

Lemma max_fold_ge cs c : fitness c <= fitness (fold_left keep_max cs c).
Proof.
  revert c. induction cs as [|x cs IH]; intros c; cbn [fold_left]; [lia|].
  specialize (IH (keep_max c x)). unfold keep_max in *.
  destruct (fitness c <? fitness x) eqn:E; [apply Z.ltb_lt in E|]; lia.
Qed.

Lemma max_fold_split cs c :
  exists pre post, c :: cs = pre ++ fold_left keep_max cs c :: post /\
    Forall (fun x => fitness x < fitness (fold_left keep_max cs c)) pre /\
    Forall (fun x => fitness x <= fitness (fold_left keep_max cs c)) post.
Proof.
  revert c. induction cs as [|x cs IH]; intros c; cbn [fold_left].
  - exists [], []. split; [reflexivity|]. split; constructor.
  - pose proof (max_fold_ge cs (keep_max c x)) as Hge.
    destruct (IH (keep_max c x)) as [pre [post [Eq [H1 H2]]]].
    set (b := fold_left keep_max cs (keep_max c x)) in *. clearbody b.
    unfold keep_max in Eq, Hge. destruct (fitness c <? fitness x) eqn:E.
    + apply Z.ltb_lt in E. exists (c :: pre), post.
      split; [rewrite Eq; reflexivity|]. split; [constructor; [lia | exact H1] | exact H2].
    + apply Z.ltb_ge in E. destruct pre as [|c' pre].
      * injection Eq as <- ->. exists [], (x :: post).
        split; [reflexivity|]. split; [constructor | constructor; [lia | exact H2]].
      * injection Eq as <- ->. inversion H1 as [|? ? Hc Hpre]; subst.
        exists (c :: x :: pre), post. split; [reflexivity|].
        split; [constructor; [exact Hc | constructor; [lia | exact Hpre]] | exact H2].
Qed.

Lemma max_by_fitness_first pop best :
  max_by_fitness pop = Ok best ->
  exists pre post, pop = pre ++ best :: post /\
    Forall (fun x => fitness x < fitness best) pre /\
    Forall (fun x => fitness x <= fitness best) post.
Proof.
  destruct pop as [|c cs]; [discriminate|]. intros [= <-]. exact (max_fold_split cs c).
Qed.

Lemma max_by_fitness_in pop best : max_by_fitness pop = Ok best -> In best pop.
Proof.
  intros H. destruct (max_by_fitness_first pop best H) as [pre [post [-> _]]].
  apply in_or_app. right. left. reflexivity.
Qed.

(** ** [generate_timetable] *)

Lemma all_slots_nonempty cfg :
  valid_config cfg -> lunch_break_duration cfg < hours_per_day cfg -> all_slots cfg <> [].
Proof.
  intros [Hd [Hh [Hl1 Hl2]]] Hlt.
  set (h := if 0 <? lunch_break_start cfg then 0
            else Z.max 0 (lunch_break_start cfg + lunch_break_duration cfg)).
  assert (Hin : In (0, h) (all_slots cfg)).
  { unfold all_slots. apply filter_In. split.
    - apply in_cells. subst h. destruct (0 <? _) eqn:E2; [lia|]. apply Z.ltb_ge in E2. lia.
    - apply negb_true_iff, andb_false_iff. subst h.
      destruct (0 <? _) eqn:E2; [apply Z.ltb_lt in E2; left; rewrite Z.geb_leb; apply Z.leb_gt; lia|].
      right. apply Z.ltb_ge. lia. }
  intros E. rewrite E in Hin. destruct Hin.
Qed.

Lemma final_population_ok cfg subs r :
  valid_config cfg -> 2 <= days_per_week cfg -> all_slots cfg <> [] ->
  exists pop r', final_population cfg subs r = Ok (pop, r') /\
    Forall (well_formed cfg) pop /\ length pop = 50%nat.
Proof.
  intros Hv H2 Hav. unfold final_population.
  destruct (new_population_ok (Z.to_nat population_size) cfg subs r Hav) as [pop [r1 Ep]].
  destruct (new_population_wf _ _ _ _ _ _ Ep) as [Hf Hl].
  rewrite (bind_ok _ _ _ _ _ Ep).
  destruct (run_generations_ok cfg subs generations pop r1 Hv H2 Hav Hf Hl) as [pop' [r2 Er]].
  destruct (run_generations_wf cfg subs generations pop r1 pop' r2 Hf Hl Er) as [Hf' Hl'].
  rewrite Er. eauto.
Qed.

Lemma final_population_wf cfg subs r pop r' :
  final_population cfg subs r = Ok (pop, r') ->
  Forall (well_formed cfg) pop /\ length pop = 50%nat.
Proof.
  unfold final_population. intros H.
  apply bind_ok_inv in H as [pop0 [r1 [Ep H]]].
  destruct (new_population_wf _ _ _ _ _ _ Ep) as [Hf Hl].
  exact (run_generations_wf cfg subs generations pop0 r1 pop r' Hf Hl H).
Qed.

(** ** Reads outside the grid *)

Lemma shaped_get_nonneg_out (cfg : TimetableConfig) (g : grid) d h :
  shaped cfg g -> 0 <= d -> 0 <= h ->
  ~ (d < days_per_week cfg /\ h < hours_per_day cfg) -> get_subject g d h = Raise IndexError.
Proof.
  intros Hs Hd Hh Hout.
  destruct (Z_lt_le_dec d (days_per_week cfg)) as [Hdl|Hdg].
  - apply (shaped_get_out cfg); [exact Hs | lia | lia].
  - destruct Hs as [Hlen _]. rewrite get_subject_nonneg by assumption.
    rewrite lookup_ge_None_2 by lia. reflexivity.
Qed.

(** ** [random.choice] on the empty slot list *)

Lemma place_subject_no_slots (fuel : nat) s hl ch r :
  place_subject (S fuel) [] s hl ch r =
  if hl >? 0 then Raise IndexError else Ok (ch, r).
Proof.
  cbn [place_subject]. destruct (hl >? 0); [|reflexivity].
  destruct (is_lab s && (hl >=? 3)); reflexivity.
Qed.

Lemma place_all_no_slots subs ch r :
  (exists c r', place_all [] subs ch r = Ok (c, r')) <->
  Forall (fun s => hours_per_week s <= 0) subs.
Proof.
  revert ch r. induction subs as [|s subs IH]; intros ch r.
  - split; [constructor | intros _; eexists _, _; reflexivity].
  - rewrite place_all_cons. change max_attempts with (S (pred max_attempts)).
    unfold bind at 1. rewrite place_subject_no_slots.
    destruct (hours_per_week s >? 0) eqn:E.
    + rewrite Z.gtb_ltb in E. apply Z.ltb_lt in E. split; [intros [? [? H]]; discriminate H|].
      intros Hf. inversion Hf as [|? ? Hs _]; subst. lia.
    + rewrite Z.gtb_ltb in E. apply Z.ltb_ge in E. rewrite IH. split; [intros Hf; constructor; assumption|].
      intros Hf. inversion Hf; assumption.
Qed.

Lemma place_all_no_slots_raise subs ch r e :
  place_all [] subs ch r = Raise e -> e = IndexError.
Proof. apply place_all_raise. Qed.

Lemma all_slots_empty_iff cfg :
  all_slots cfg = [] <->
  forall d h, In (d, h) (cells cfg) -> in_lunch cfg h.
Proof.
  unfold all_slots, in_lunch. split.
  - intros E d h Hin. destruct (Z_le_gt_dec (lunch_break_start cfg) h);
      [destruct (Z_lt_le_dec h (lunch_break_start cfg + lunch_break_duration cfg)); [lia|]|];
      exfalso; assert (Hf : In (d, h) (List.filter (fun '(day, hour) =>
          negb ((hour >=? lunch_break_start cfg) &&
                (hour <? lunch_break_start cfg + lunch_break_duration cfg))) (cells cfg)))
        by (apply filter_In; split; [exact Hin|];
            apply negb_true_iff, andb_false_iff;
            first [right; apply Z.ltb_ge; lia | left; rewrite Z.geb_leb; apply Z.leb_gt; lia]);
      rewrite E in Hf; destruct Hf.
  - intros H. destruct (List.filter _ (cells cfg)) as [|[d h] l] eqn:E; [reflexivity|].
    exfalso. assert (Hin : In (d, h) (List.filter (fun '(day, hour) =>
          negb ((hour >=? lunch_break_start cfg) &&
                (hour <? lunch_break_start cfg + lunch_break_duration cfg))) (cells cfg)))
      by (rewrite E; left; reflexivity).
    apply filter_In in Hin as [Hin Hb]. specialize (H d h Hin).
    apply negb_true_iff, andb_false_iff in Hb as [Hb|Hb].
    + rewrite Z.geb_leb in Hb. apply Z.leb_gt in Hb. lia.
    + apply Z.ltb_ge in Hb. lia.
Qed.

(** ** Sorting *)

Lemma insert_desc_sorted c l :
  StronglySorted fitness_ge l -> StronglySorted fitness_ge (insert_desc c l).
Proof.
  induction l as [|x l IH]; intros Hs; cbn [insert_desc].
  - repeat constructor.
  - apply StronglySorted_inv in Hs as [Hl Hx].
    destruct (fitness x <? fitness c) eqn:E.
    + apply Z.ltb_lt in E. constructor; [constructor; assumption|].
      constructor; [unfold fitness_ge; lia|].
      refine (List.Forall_impl _ _ Hx). unfold fitness_ge. intros y Hy. lia.
    + apply Z.ltb_ge in E. constructor; [exact (IH Hl)|].
      apply insert_desc_Forall; [unfold fitness_ge; lia | exact Hx].
Qed.

Lemma sort_desc_sorted l : StronglySorted fitness_ge (sort_desc l).
Proof.
  unfold sort_desc.
  assert (H : forall acc, StronglySorted fitness_ge acc ->
            StronglySorted fitness_ge (fold_left (fun acc c => insert_desc c acc) l acc)).
  { induction l as [|x l IH]; intros acc Hacc; cbn [fold_left]; [exact Hacc|].
    apply IH, insert_desc_sorted, Hacc. }
  apply H. constructor.
Qed.

(** ** The evaluation pass *)

Lemma evaluate_all_scores pop ev :
  evaluate_all pop = Ok ev ->
  Forall2 (fun c c' => calculate_fitness c = Ok (fitness c', c')) pop ev.
Proof.
  revert ev. induction pop as [|c pop IH]; intros ev H; cbn [evaluate_all] in H.
  - injection H as <-. constructor.
  - apply bind_r_ok_inv in H as [[v c'] [Hc H]].
    apply bind_r_ok_inv in H as [cs [Hcs H]]. injection H as <-.
    pose proof (calculate_fitness_range _ _ _ Hc) as [_ Hc'].
    constructor; [|exact (IH _ Hcs)].
    rewrite Hc. rewrite Hc'. reflexivity.
Qed.

Lemma score_of_fitness c v c' : calculate_fitness c = Ok (v, c') -> score c = Ok v.
Proof. unfold score. intros ->. reflexivity. Qed.

(** ** Errors of the run *)

Lemma randint_raise a b r e : randint a b r = Raise e -> e = ValueError.
Proof.
  unfold randint. destruct (b + 1 - a <=? 0); [intros [= <-]; reflexivity|].
  intros H. discriminate H.
Qed.

Lemma sample2_raise {A} (l : list A) r e : sample2 l r = Raise e -> py_error e.
Proof.
  unfold sample2. cbv zeta. destruct (_ <? 2); [intros [= <-]; right; reflexivity|].
  unfold bind, draw, lift. cbv beta iota.
  destruct (py_index l (draws r (pos r) mod Z.of_nat (length l))) as [a|e1] eqn:E1;
    cbn [bind_r]; [|intros [= <-]; left; exact (py_index_raise _ _ _ E1)].
  match goal with |- context [py_index l ?i] => destruct (py_index l i) as [b|e2] eqn:E2 end;
    cbn [bind_r]; [intros H; discriminate H | intros [= <-]; left; exact (py_index_raise _ _ _ E2)].
Qed.

Lemma crossover_raise cfg cp p1 p2 child e :
  crossover cfg cp p1 p2 child = Raise e -> e = IndexError.
Proof.
  unfold crossover. destruct (for_r _ _ _) eqn:E; cbn [bind_r]; [discriminate|].
  intros [= <-]. refine (for_r_raise_only _ _ _ _ _ _ E).
  intros [d h] g e'. cbv beta iota.
  destruct (get_subject _ d h) eqn:Eg; cbn [bind_r];
    [apply set_subject_raise | intros [= <-]; exact (get_subject_raise _ _ _ _ Eg)].
Qed.

Lemma rebuild_occupancy_raise cfg child e : rebuild_occupancy cfg child = Raise e -> e = IndexError.
Proof.
  unfold rebuild_occupancy, rebuild_schedules.
  destruct (for_r _ _ _) as [[fs rs]|e'] eqn:E; cbn [bind_r]; [discriminate|].
  intros [= <-]. refine (for_r_raise_only _ _ _ _ _ _ E).
  intros [d h] [fs0 rs0] e''. cbv beta iota.
  destruct (get_subject _ d h) as [[s|]|e3] eqn:Eg; cbn [bind_r]; try discriminate.
  intros [= <-]. exact (get_subject_raise _ _ _ _ Eg).
Qed.

Lemma mutate_raise cfg child r e :
  well_formed cfg child -> mutate cfg child r = Raise e -> e = ValueError.
Proof.
  intros Hw H. unfold mutate in H.
  apply bind_raise_inv in H as [H|[d1 [r1 [Hd1 H]]]]; [exact (randint_raise _ _ _ _ H)|].
  apply bind_raise_inv in H as [H|[h1 [r2 [Hh1 H]]]]; [exact (randint_raise _ _ _ _ H)|].
  apply bind_raise_inv in H as [H|[d2 [r3 [Hd2 H]]]]; [exact (randint_raise _ _ _ _ H)|].
  apply bind_raise_inv in H as [H|[h2 [r4 [Hh2 H]]]]; [exact (randint_raise _ _ _ _ H)|].
  apply randint_range in Hd1, Hh1, Hd2, Hh2.
  destruct (swap_slots_ok cfg child Hw d1 h1 d2 h2 ltac:(lia)) as [c' Hc];
    [apply in_cells; lia | apply in_cells; lia |].
  unfold lift in H. rewrite Hc in H. discriminate H.
Qed.

Lemma make_child_raise cfg subs parents r e :
  Forall (well_formed cfg) parents -> make_child cfg subs parents r = Raise e -> py_error e.
Proof.
  intros Hp H. unfold make_child in H.
  apply bind_raise_inv in H as [H|[[p1 p2] [r1 [Hs H]]]]; [exact (sample2_raise _ _ _ H)|].
  cbv beta iota in H.
  apply bind_raise_inv in H as [H|[ch [r2 [Hnew H]]]];
    [left; exact (new_chromosome_raise _ _ _ _ H)|].
  apply new_chromosome_wf in Hnew as [[_ [Hsh _]] [Hcfg Hfit]].
  apply bind_raise_inv in H as [H|[cp [r3 [_ H]]]]; [right; exact (randint_raise _ _ _ _ H)|].
  apply bind_raise_inv in H as [H|[c1 [r4 [Hx H]]]].
  { left. unfold lift in H. destruct (crossover _ _ _ _ _) eqn:E; [discriminate|].
    injection H as <-. exact (crossover_raise _ _ _ _ _ _ E). }
  apply lift_ok_inv in Hx as [Hx _].
  apply (crossover_shaped cfg cp p1 p2 ch c1 Hsh) in Hx as [Hsh1 [Hc1 Hf1]].
  apply bind_raise_inv in H as [H|[c2 [r5 [Hr H]]]].
  { left. unfold lift in H. destruct (rebuild_occupancy _ _) eqn:E; [discriminate|].
    injection H as <-. exact (rebuild_occupancy_raise _ _ _ E). }
  apply lift_ok_inv in Hr as [Hr _].
  apply (rebuild_occupancy_wf cfg c1 c2) in Hr;
    [| rewrite Hc1; exact Hcfg | exact Hsh1 | rewrite Hf1, Hfit; lia].
  apply bind_raise_inv in H as [H|[k [r6 [_ H]]]]; [discriminate H|].
  destruct (below_mutation_rate k); [|discriminate H].
  right. exact (mutate_raise cfg c2 r6 e Hr H).
Qed.

Lemma make_offspring_raise cfg subs parents :
  Forall (well_formed cfg) parents ->
  forall n offspring r e,
  make_offspring n cfg subs parents offspring r = Raise e -> py_error e.
Proof.
  intros Hp n. induction n as [|n IH]; intros off r e H; [discriminate H|].
  rewrite make_offspring_S in H.
  apply bind_raise_inv in H as [H|[c [r1 [_ H]]]];
    [exact (make_child_raise _ _ _ _ _ Hp H) | exact (IH _ _ _ H)].
Qed.

Lemma evaluate_all_raise pop e : evaluate_all pop = Raise e -> e = IndexError.
Proof.
  induction pop as [|c pop IH]; cbn [evaluate_all]; [discriminate|].
  destruct (calculate_fitness c) as [[v c']|e1] eqn:E1; cbn [bind_r];
    [|intros [= <-]; exact (calculate_fitness_raise _ _ E1)].
  destruct (evaluate_all pop) eqn:E2; cbn [bind_r]; [discriminate|].
  intros [= <-]. exact (IH eq_refl).
Qed.

Lemma generation_step_raise cfg subs pop r e :
  Forall (well_formed cfg) pop -> generation_step cfg subs pop r = Raise e -> py_error e.
Proof.
  intros Hp H. unfold generation_step in H.
  apply bind_raise_inv in H as [H|[ev [r1 [He H]]]].
  { left. unfold lift in H. destruct (evaluate_all pop) eqn:E; [discriminate|].
    injection H as <-. exact (evaluate_all_raise _ _ E). }
  apply lift_ok_inv in He as [He _].
  destruct (evaluate_all_wf cfg pop ev Hp He) as [Hev _].
  pose proof (sort_desc_Forall _ ev Hev) as Hs.
  cbv beta zeta in H.
  apply bind_raise_inv in H as [H|[top [r2 [_ H]]]].
  { left. unfold lift in H. destruct (py_index _ _) eqn:E; [discriminate|].
    injection H as <-. exact (py_index_raise _ _ _ E). }
  destruct (fitness top =? 100); [discriminate H|].
  apply bind_raise_inv in H as [H|[off [r3 [_ H]]]]; [|discriminate H].
  exact (make_offspring_raise cfg subs _ (Forall_take _ _ _ Hs) _ _ _ _ H).
Qed.

Lemma run_generations_raise cfg subs (n : nat) pop r e :
  Forall (well_formed cfg) pop -> length pop = 50%nat ->
  run_generations n cfg subs pop r = Raise e -> py_error e.
Proof.
  revert pop r. induction n as [|n IH]; intros pop r Hp Hl H; [discriminate H|].
  rewrite run_generations_S in H.
  apply bind_raise_inv in H as [H|[o [r1 [Ho H]]]];
    [exact (generation_step_raise cfg subs pop r e Hp H)|].
  destruct (generation_step_wf cfg subs pop r o r1 Hp Hl Ho) as [Hf Hlo].
  destruct o as [p|p]; [discriminate H | exact (IH _ _ Hf Hlo H)].
Qed.

Lemma generation_step_first_raise cfg subs c cs r :
  calculate_fitness c = Raise IndexError ->
  generation_step cfg subs (c :: cs) r = Raise IndexError.
Proof.
  intros E. unfold generation_step. unfold bind at 1.
  unfold lift at 1. rewrite (evaluate_all_head_raise c cs E). reflexivity.
Qed.

Lemma new_chromosome_ok_iff cfg subs r :
  (exists c r', new_chromosome cfg subs r = Ok (c, r')) <->
  all_slots cfg <> [] \/ Forall (fun s => hours_per_week s <= 0) subs.
Proof.
  split.
  - intros Hok. destruct (decide (all_slots cfg = [])) as [E|E]; [right | left; exact E].
    unfold new_chromosome, generate_random_schedule in Hok. cbn [config subjects] in Hok.
    rewrite E in Hok. exact (proj1 (place_all_no_slots _ _ _) Hok).
  - intros [Hne|Hf]; [exact (new_chromosome_ok cfg subs r Hne)|].
    destruct (decide (all_slots cfg = [])) as [E|E]; [|exact (new_chromosome_ok cfg subs r E)].
    unfold new_chromosome, generate_random_schedule. cbn [config subjects].
    rewrite E. exact (proj2 (place_all_no_slots _ _ _) Hf).
Qed.

Lemma new_chromosome_outcome cfg subs r :
  (exists c r', new_chromosome cfg subs r = Ok (c, r')) \/
  new_chromosome cfg subs r = Raise IndexError.
Proof.
  destruct (new_chromosome cfg subs r) as [[c r']|e] eqn:E; [left; eauto|].
  right. rewrite (new_chromosome_raise _ _ _ _ E). reflexivity.
Qed.

Lemma reachable_wf cfg subs pop :
  reachable cfg subs pop -> Forall (well_formed cfg) pop /\ length pop = 50%nat.
Proof.
  intros Hr. induction Hr as [r pop r' Hnew | pop r o r' Hr IH Hstep].
  - exact (new_population_wf _ _ _ _ _ _ Hnew).
  - exact (generation_step_wf cfg subs pop r o r' (proj1 IH) (proj2 IH) Hstep).
Qed.

Lemma Forall2_in_l {A B} (R : A -> B -> Prop) l1 l2 x :
  Forall2 R l1 l2 -> In x l1 -> exists y, In y l2 /\ R x y.
Proof.
  induction 1 as [|a b l1 l2 Hab _ IH]; [intros []|].
  intros [<-|Hx]; [exists b; split; [left|]; auto|].
  destruct (IH Hx) as [y [Hy Hr]]. exists y. split; [right|]; auto.
Qed.

Lemma Forall2_in_r {A B} (R : A -> B -> Prop) l1 l2 y :
  Forall2 R l1 l2 -> In y l2 -> exists x, In x l1 /\ R x y.
Proof.
  induction 1 as [|a b l1 l2 Hab _ IH]; [intros []|].
  intros [<-|Hy]; [exists a; split; [left|]; auto|].
  destruct (IH Hy) as [x [Hx Hr]]. exists x. split; [right|]; auto.
Qed.

Lemma generation_step_stop_iff cfg subs pop r o r' :
  generation_step cfg subs pop r = Ok (o, r') ->
  ((exists p, o = Stop p) <-> Exists (fun c => score c = Ok 100) pop).
Proof.
  intros H. unfold generation_step in H.
  apply bind_ok_inv in H as [ev [r1 [He H]]]. apply lift_ok_inv in He as [He _].
  pose proof (evaluate_all_scores pop ev He) as Hsc.
  assert (Hle : forall c, In c ev -> fitness c <= 100).
  { intros c Hc. destruct (Forall2_in_r _ _ _ _ Hsc Hc) as [c0 [_ Hc0]].
    apply calculate_fitness_range in Hc0. lia. }
  cbv beta zeta in H.
  apply bind_ok_inv in H as [top [r2 [Ht H]]]. apply lift_ok_inv in Ht as [Ht _].
  pose proof (sort_desc_sorted ev) as Hsort.
  destruct (sort_desc ev) as [|t rest] eqn:Es; [discriminate Ht|].
  unfold py_index in Ht. cbn in Ht. injection Ht as <-.
  assert (Hin_ev : forall c, In c (t :: rest) -> In c ev).
  { intros c Hc. apply list_elem_of_In. rewrite <- (sort_desc_perm ev), Es.
    apply list_elem_of_In. exact Hc. }
  assert (Hev_in : forall c, In c ev -> In c (t :: rest)).
  { intros c Hc. apply list_elem_of_In. rewrite <- Es, (sort_desc_perm ev).
    apply list_elem_of_In. exact Hc. }
  apply StronglySorted_inv in Hsort as [_ Htop].
  rewrite List.Forall_forall in Htop.
  rewrite List.Exists_exists.
  assert (Hiff : fitness t = 100 <-> exists c, In c pop /\ score c = Ok 100).
  { split.
    - intros Ef. destruct (Forall2_in_r _ _ _ _ Hsc (Hin_ev t (or_introl eq_refl))) as [c [Hc Ec]].
      exists c. split; [exact Hc|]. rewrite (score_of_fitness _ _ _ Ec), Ef. reflexivity.
    - intros [c [Hc Sc]]. destruct (Forall2_in_l _ _ _ _ Hsc Hc) as [c' [Hc' Ec']].
      unfold score in Sc. rewrite Ec' in Sc. cbn in Sc. injection Sc as Sc.
      pose proof (Hle t (Hin_ev t (or_introl eq_refl))).
      destruct (Hev_in c' Hc') as [<-|Hr]; [lia|].
      specialize (Htop c' Hr). unfold fitness_ge in Htop. lia. }
  destruct (fitness t =? 100) eqn:E.
  - apply Z.eqb_eq in E. unfold ret in H. injection H as <- _.
    split; [intros _; apply Hiff, E | eauto].
  - apply Z.eqb_neq in E.
    apply bind_ok_inv in H as [off [r3 [_ H]]]. unfold ret in H. injection H as <- _.
    split; [intros [p Hp]; discriminate Hp | intros Hx; apply Hiff in Hx; contradiction].
Qed.

Lemma generate_timetable_total cfg subs r :
  valid_config cfg -> 2 <= days_per_week cfg ->
  lunch_break_duration cfg < hours_per_day cfg ->
  exists pop best r', final_population cfg subs r = Ok (pop, r') /\
    generate_timetable cfg subs r = Ok (best, r') /\
    In best pop /\ Forall (fun c => fitness c <= fitness best) pop /\ well_formed cfg best.
Proof.
  intros Hv H2 Hlt.
  destruct (final_population_ok cfg subs r Hv H2 (all_slots_nonempty cfg Hv Hlt))
    as [pop [r' [Ef [Hf Hl]]]].
  destruct pop as [|c cs]; [discriminate Hl|].
  set (best := fold_left keep_max cs c).
  assert (Em : max_by_fitness (c :: cs) = Ok best) by reflexivity.
  destruct (max_by_fitness_first _ _ Em) as [pre [post [Eq [Hpre Hpost]]]].
  assert (Hin : In best (c :: cs)) by exact (max_by_fitness_in _ _ Em).
  exists (c :: cs), best, r'. split; [exact Ef|]. split.
  { unfold generate_timetable. rewrite (bind_ok _ _ _ _ _ Ef). unfold lift. rewrite Em. reflexivity. }
  split; [exact Hin|]. split.
  - rewrite Eq. apply Forall_app. split.
    + refine (List.Forall_impl _ _ Hpre). intros x Hx. lia.
    + constructor; [lia | exact Hpost].
  - rewrite List.Forall_forall in Hf. exact (Hf _ Hin).
Qed.

Lemma generate_timetable_overflow cfg subs r :
  0 < days_per_week cfg -> 0 < lunch_break_duration cfg ->
  hours_per_day cfg < lunch_break_start cfg + lunch_break_duration cfg ->
  generate_timetable cfg subs r = Raise IndexError.
Proof.
  intros Hd Hl Hover. unfold generate_timetable, final_population.
  destruct (new_population (Z.to_nat population_size) cfg subs r) as [[pop r1]|e] eqn:Ep.
  - destruct (new_population_wf _ _ _ _ _ _ Ep) as [Hf Hlen].
    destruct pop as [|c cs]; [discriminate Hlen|].
    apply Forall_cons in Hf as [[Hc [Hs _]] _].
    assert (Ec : calculate_fitness c = Raise IndexError).
    { apply calculate_fitness_lunch_overflow; rewrite Hc; assumption. }
    apply bind_raise. rewrite (bind_ok _ _ _ _ _ Ep).
    change generations with (S (pred generations)). rewrite run_generations_S.
    apply bind_raise. exact (generation_step_first_raise cfg subs c cs r1 Ec).
  - rewrite <- (new_population_raise _ _ _ _ _ Ep).
    apply bind_raise. apply bind_raise. exact Ep.
Qed.

Lemma generate_timetable_raise cfg subs r e :
  generate_timetable cfg subs r = Raise e -> py_error e.
Proof.
  unfold generate_timetable. intros H.
  apply bind_raise_inv in H as [H|[pop [r1 [Ef H]]]].
  - unfold final_population in H.
    apply bind_raise_inv in H as [H|[pop0 [r2 [Ep H]]]];
      [left; exact (new_population_raise _ _ _ _ _ H)|].
    destruct (new_population_wf _ _ _ _ _ _ Ep) as [Hf Hl].
    exact (run_generations_raise cfg subs generations pop0 r2 e Hf Hl H).
  - right. unfold lift in H. destruct (max_by_fitness pop) eqn:Em; [discriminate H|].
    injection H as <-. destruct pop; [injection Em as <-; reflexivity | discriminate Em].
Qed.

Lemma new_population_first_raise (n : nat) cfg subs r :
  new_chromosome cfg subs r = Raise IndexError ->
  new_population (S n) cfg subs r = Raise IndexError.
Proof. intros E. rewrite new_population_S. apply bind_raise. exact E. Qed.

Lemma generate_timetable_no_slots cfg subs r :
  all_slots cfg = [] -> ~ Forall (fun s => hours_per_week s <= 0) subs ->
  generate_timetable cfg subs r = Raise IndexError.
Proof.
  intros E Hh. unfold generate_timetable, final_population.
  assert (En : new_chromosome cfg subs r = Raise IndexError).
  { destruct (new_chromosome_outcome cfg subs r) as [Hok|Hr]; [|exact Hr].
    apply new_chromosome_ok_iff in Hok as [Hne|Hf]; contradiction. }
  apply bind_raise. apply bind_raise.
  change (Z.to_nat population_size) with (S (pred (Z.to_nat population_size))).
  apply new_population_first_raise. exact En.
Qed.


(** ** A week without days *)

Lemma range_nonpos (n : Z) : n <= 0 -> range n = [].
Proof.
  intros H. unfold range, range2. replace (Z.to_nat (n - 0)) with 0%nat by lia.
  reflexivity.
Qed.

Lemma place_all_no_hours subs ch r :
  Forall (fun s => hours_per_week s <= 0) subs -> place_all [] subs ch r = Ok (ch, r).
Proof.
  revert r. induction subs as [|s subs IH]; intros r Hf; [reflexivity|].
  apply Forall_cons in Hf as [Hs Hf].
  rewrite place_all_cons. change max_attempts with (S (pred max_attempts)).
  unfold bind at 1. rewrite place_subject_no_slots.
  destruct (hours_per_week s >? 0) eqn:E.
  - rewrite Z.gtb_ltb in E. apply Z.ltb_lt in E. lia.
  - exact (IH r Hf).
Qed.

Section NoDays.

Variable cfg : TimetableConfig.
Hypothesis no_days : days_per_week cfg <= 0.

Lemma no_days_initialize : initialize_slots cfg = [].
Proof. unfold initialize_slots. rewrite (range_nonpos _ no_days). reflexivity. Qed.

Lemma no_days_all_slots : all_slots cfg = [].
Proof. unfold all_slots, cells. rewrite (range_nonpos _ no_days). reflexivity. Qed.

Lemma no_days_calculate_fitness subs g fit fs rs :
  calculate_fitness (mkChromosome cfg subs g fit fs rs) =
    Ok (100, mkChromosome cfg subs g 100 fs rs).
Proof.
  unfold calculate_fitness, conflict_scan, lunch_scan, lab_scan, cells. cbn [config slots].
  rewrite (range_nonpos _ no_days). reflexivity.
Qed.

Lemma no_days_new_chromosome subs r :
  Forall (fun s => hours_per_week s <= 0) subs ->
  new_chromosome cfg subs r = Ok (mkChromosome cfg subs [] 0 ∅ ∅, r).
Proof.
  intros Hf. unfold new_chromosome, generate_random_schedule. cbn [config subjects].
  rewrite no_days_all_slots, no_days_initialize. apply place_all_no_hours, Hf.
Qed.

Lemma no_days_new_population (n : nat) subs r :
  Forall (fun s => hours_per_week s <= 0) subs ->
  new_population n cfg subs r = Ok (replicate n (mkChromosome cfg subs [] 0 ∅ ∅), r).
Proof.
  intros Hf. induction n as [|n IH]; [reflexivity|].
  rewrite new_population_S.
  rewrite (bind_ok _ _ _ _ _ (no_days_new_chromosome subs r Hf)).
  rewrite (bind_ok _ _ _ _ _ IH). reflexivity.
Qed.

Lemma no_days_final_population subs r :
  Forall (fun s => hours_per_week s <= 0) subs ->
  final_population cfg subs r = Ok (replicate 50 (mkChromosome cfg subs [] 100 ∅ ∅), r).
Proof.
  intros Hf. unfold final_population.
  rewrite (bind_ok _ _ _ _ _ (no_days_new_population (Z.to_nat population_size) subs r Hf)).
  change (Z.to_nat population_size) with 50%nat.
  change generations with (S (pred generations)).
  generalize (pred generations) as n. intros n. cbn [run_generations].
  rewrite (bind_ok _ _ r (Stop (replicate 50 (mkChromosome cfg subs [] 100 ∅ ∅))) r);
    [reflexivity|].
  unfold generation_step.
  rewrite (bind_ok _ _ r (replicate 50 (mkChromosome cfg subs [] 100 ∅ ∅)) r).
  2:{ unfold lift.
      rewrite (evaluate_all_replicate 50 _ _ 100 (no_days_calculate_fitness subs [] 0 ∅ ∅)).
      reflexivity. }
  cbv beta zeta. rewrite sort_desc_replicate.
  rewrite (bind_ok _ _ r (mkChromosome cfg subs [] 100 ∅ ∅) r).
  2:{ unfold lift. rewrite py_index_replicate by lia. reflexivity. }
  reflexivity.
Qed.

End NoDays.

(** ** The cached fitness along the run *)

Lemma score_with_fitness c v : score (with_fitness c v) = score c.
Proof.
  unfold score, calculate_fitness, with_fitness. cbn [config slots].
  destruct (conflict_scan faculty (config c) (slots c) 100) as [f1|]; [|reflexivity].
  cbn [bind_r].
  destruct (conflict_scan room (config c) (slots c) f1) as [f2|]; [|reflexivity].
  cbn [bind_r].
  destruct (lunch_scan (config c) (slots c) f2) as [f3|]; [|reflexivity].
  cbn [bind_r]. destruct (lab_scan (config c) (slots c) f3); reflexivity.
Qed.

Lemma calculate_fitness_cached c v c' :
  calculate_fitness c = Ok (v, c') -> score c' = Ok (fitness c').
Proof.
  intros H. pose proof (calculate_fitness_range _ _ _ H) as [_ ->].
  rewrite score_with_fitness. exact (score_of_fitness _ _ _ H).
Qed.

Lemma evaluate_all_cached pop ev :
  evaluate_all pop = Ok ev -> Forall (fun c => score c = Ok (fitness c)) ev.
Proof.
  intros H. pose proof (evaluate_all_scores _ _ H) as Hsc. clear H.
  induction Hsc as [|c c' pop ev Hc _ IH]; constructor; [|exact IH].
  exact (calculate_fitness_cached _ _ _ Hc).
Qed.

Lemma crossover_fitness cfg cp p1 p2 child c' :
  crossover cfg cp p1 p2 child = Ok c' -> fitness c' = fitness child.
Proof.
  unfold crossover. intros H. apply bind_r_ok_inv in H as [g [_ H]].
  injection H as <-. reflexivity.
Qed.

Lemma rebuild_occupancy_fitness cfg child c' :
  rebuild_occupancy cfg child = Ok c' -> fitness c' = fitness child.
Proof.
  unfold rebuild_occupancy. intros H. apply bind_r_ok_inv in H as [[fs rs] [_ H]].
  injection H as <-. reflexivity.
Qed.

Lemma swap_slots_fitness child d1 h1 d2 h2 c' :
  swap_slots child d1 h1 d2 h2 = Ok c' -> fitness c' = fitness child.
Proof.
  unfold swap_slots. intros H.
  apply bind_r_ok_inv in H as [s1 [_ H]]. apply bind_r_ok_inv in H as [s2 [_ H]].
  destruct s1 as [s1|], s2 as [s2|]; try (injection H as <-; reflexivity).
  cbv zeta in H.
  match type of H with context [if ?b then _ else _] => destruct b end;
    [|injection H as <-; reflexivity].
  repeat (apply bind_r_ok_inv in H as [? [_ H]]). injection H as <-. reflexivity.
Qed.

Lemma mutate_fitness cfg child r c' r' :
  mutate cfg child r = Ok (c', r') -> fitness c' = fitness child.
Proof.
  unfold mutate. intros H.
  do 4 (apply bind_ok_inv in H as [? [? [_ H]]]).
  apply lift_ok_inv in H as [H _]. exact (swap_slots_fitness _ _ _ _ _ _ H).
Qed.

Lemma make_child_fitness cfg subs parents r c r' :
  make_child cfg subs parents r = Ok (c, r') -> fitness c = 0.
Proof.
  intros H. unfold make_child in H.
  apply bind_ok_inv in H as [[p1 p2] [r1 [_ H]]]. cbv beta iota in H.
  apply bind_ok_inv in H as [ch [r2 [Hnew H]]].
  apply new_chromosome_wf in Hnew as [_ [_ Hfit]].
  apply bind_ok_inv in H as [cp [r3 [_ H]]].
  apply bind_ok_inv in H as [c1 [r4 [Hx H]]]. apply lift_ok_inv in Hx as [Hx _].
  apply crossover_fitness in Hx.
  apply bind_ok_inv in H as [c2 [r5 [Hr H]]]. apply lift_ok_inv in Hr as [Hr _].
  apply rebuild_occupancy_fitness in Hr.
  apply bind_ok_inv in H as [k [r6 [_ H]]].
  destruct (below_mutation_rate k).
  - apply mutate_fitness in H. lia.
  - unfold ret in H. injection H as <- _. lia.
Qed.

Lemma make_offspring_fitness cfg subs parents :
  forall n offspring r res r',
  Forall (fun c => fitness c = 0) offspring ->
  make_offspring n cfg subs parents offspring r = Ok (res, r') ->
  Forall (fun c => fitness c = 0) res /\ length res = (length offspring + n)%nat.
Proof.
  intros n. induction n as [|n IH]; intros off r res r' Hoff H.
  - injection H as <- _. split; [exact Hoff | lia].
  - rewrite make_offspring_S in H.
    apply bind_ok_inv in H as [child [r1 [Hc H]]].
    destruct (IH _ r1 res r' ltac:(apply Forall_app; split;
        [exact Hoff | constructor; [exact (make_child_fitness _ _ _ _ _ _ Hc)
                                   | constructor]]) H) as [Hf Hl].
    split; [exact Hf|]. rewrite Hl, length_app. simpl. lia.
Qed.

Lemma StronglySorted_app_Forall {A} (R : A -> A -> Prop) (l1 l2 : list A) :
  StronglySorted R (l1 ++ l2) -> Forall (fun a => Forall (R a) l2) l1.
Proof.
  induction l1 as [|a l1 IH]; intros Hs; [constructor|].
  cbn [app] in Hs. apply StronglySorted_inv in Hs as [Hs Ha].
  constructor; [|exact (IH Hs)].
  apply Forall_app in Ha as [_ Ha]. exact Ha.
Qed.

(** What one generation does: the population is evaluated and sorted; the
    generation stops with the sorted population, or continues with its first
    25 chromosomes followed by fresh offspring. *)
Lemma generation_step_cases cfg subs pop r o r' :
  generation_step cfg subs pop r = Ok (o, r') ->
  exists ev, evaluate_all pop = Ok ev /\
    (o = Stop (sort_desc ev) \/
     exists offspring, o = Continue (take 25 (sort_desc ev) ++ offspring) /\
       Forall (fun c => fitness c < 100) ev /\
       Forall (fun c => fitness c = 0) offspring /\
       length offspring = (50 - length (take 25 (sort_desc ev)))%nat).
Proof.
  intros H. unfold generation_step in H.
  apply bind_ok_inv in H as [ev [r1 [He H]]]. apply lift_ok_inv in He as [He _].
  exists ev. split; [exact He|].
  pose proof (evaluate_all_scores pop ev He) as Hsc.
  assert (Hle : forall c, In c ev -> fitness c <= 100).
  { intros c Hc. destruct (Forall2_in_r _ _ _ _ Hsc Hc) as [c0 [_ Hc0]].
    apply calculate_fitness_range in Hc0. lia. }
  cbv beta zeta in H.
  change (Z.to_nat (population_size / 2)) with 25%nat in H.
  apply bind_ok_inv in H as [top [r2 [Ht H]]]. apply lift_ok_inv in Ht as [Ht _].
  pose proof (sort_desc_sorted ev) as Hsort.
  assert (Hev_in : forall c, In c ev -> In c (sort_desc ev)).
  { intros c Hc. apply list_elem_of_In. rewrite (sort_desc_perm ev).
    apply list_elem_of_In. exact Hc. }
  destruct (fitness top =? 100) eqn:E.
  - unfold ret in H. injection H as <- _. left. reflexivity.
  - apply Z.eqb_neq in E.
    apply bind_ok_inv in H as [off [r3 [Ho H]]]. unfold ret in H. injection H as <- _.
    right. exists off. split; [reflexivity|].
    destruct (make_offspring_fitness _ _ _ _ [] _ _ _ (List.Forall_nil _) Ho) as [Hf Hl].
    split; [|split; [exact Hf | rewrite Hl; cbn [length]; unfold population_size; lia]].
    destruct (sort_desc ev) as [|t rest] eqn:Es; [discriminate Ht|].
    unfold py_index in Ht. cbn in Ht. injection Ht as <-.
    assert (Ht : In t ev).
    { apply list_elem_of_In. rewrite <- (sort_desc_perm ev), Es. left. }
    pose proof (Hle t Ht) as Hle'.
    apply StronglySorted_inv in Hsort as [_ Htop]. rewrite List.Forall_forall in Htop.
    apply List.Forall_forall. intros c Hc. destruct (Hev_in c Hc) as [<-|Hr]; [lia|].
    specialize (Htop c Hr). unfold fitness_ge in Htop. lia.
Qed.

Lemma generation_step_cached cfg subs pop r o r' :
  generation_step cfg subs pop r = Ok (o, r') ->
  Forall fitness_cached (outcome_population o).
Proof.
  intros H. destruct (generation_step_cases _ _ _ _ _ _ H) as [ev [He Ho]].
  pose proof (sort_desc_Forall _ _ (evaluate_all_cached _ _ He)) as Hs.
  assert (Hc : Forall fitness_cached (sort_desc ev)).
  { refine (List.Forall_impl _ _ Hs). intros c Hc. right. exact Hc. }
  destruct Ho as [->|[off [-> [_ [Hoff _]]]]]; [exact Hc|].
  cbn [outcome_population]. apply Forall_app. split.
  - apply Forall_take, Hc.
  - refine (List.Forall_impl _ _ Hoff). intros c H0. left. exact H0.
Qed.

Lemma run_generations_cached cfg subs (n : nat) pop r pop' r' :
  Forall fitness_cached pop ->
  run_generations n cfg subs pop r = Ok (pop', r') -> Forall fitness_cached pop'.
Proof.
  revert pop r. induction n as [|n IH]; intros pop r Hp H.
  - injection H as <- _. exact Hp.
  - rewrite run_generations_S in H. apply bind_ok_inv in H as [o [r1 [Ho H]]].
    pose proof (generation_step_cached _ _ _ _ _ _ Ho) as Hf.
    destruct o as [p|p]; cbn [outcome_population] in Hf.
    + injection H as <- _. exact Hf.
    + exact (IH _ _ Hf H).
Qed.

Lemma new_population_cached (n : nat) cfg subs r pop r' :
  new_population n cfg subs r = Ok (pop, r') -> Forall fitness_cached pop.
Proof.
  revert r pop r'. induction n as [|n IH]; intros r pop r' H.
  - injection H as <- _. constructor.
  - rewrite new_population_S in H.
    apply bind_ok_inv in H as [c [r1 [Hc H]]].
    apply bind_ok_inv in H as [cs [r2 [Hcs H]]]. unfold ret in H. injection H as <- _.
    constructor; [left; exact (proj2 (proj2 (new_chromosome_wf _ _ _ _ _ Hc)))|].
    exact (IH _ _ _ Hcs).
Qed.

(** ** C8: [_is_slot_available] *)

(** C8: [is_slot_available ch day hour subject] is false exactly when
    [(day, hour)] is in [faculty_schedule[subject.faculty]], or in
    [room_schedule[subject.room]], or [hour] is in the lunch window; the grid
    of the chromosome plays no part in it. *)
Theorem is_slot_available_false_iff (ch : TimetableChromosome) (day hour : Z)
    (subject : Subject) :
  (is_slot_available ch day hour subject = false <->
   (day, hour) ∈ occ_of (faculty_schedule ch) (faculty subject) \/
   (day, hour) ∈ occ_of (room_schedule ch) (room subject) \/
   in_lunch (config ch) hour) /\
  (forall g : grid,
     is_slot_available (with_slots ch g) day hour subject =
     is_slot_available ch day hour subject).
Proof.
  split; [|reflexivity].
  unfold is_slot_available, in_schedule, occ_of, in_lunch.
  destruct (faculty_schedule ch !! faculty subject) as [st1|];
  destruct (room_schedule ch !! room subject) as [st2|]; simpl;
  repeat case_bool_decide;
  destruct (lunch_break_start (config ch) <=? hour) eqn:E1;
  destruct (hour <? lunch_break_start (config ch) + lunch_break_duration (config ch))
    eqn:E2; simpl;
  rewrite ?Z.leb_le, ?Z.leb_gt, ?Z.ltb_lt, ?Z.ltb_ge in E1, E2;
  split; intros; try tauto; try discriminate;
  repeat match goal with H : _ \/ _ |- _ => destruct H end;
  try set_solver; try lia.
Qed.

(** ** C9: [calculate_fitness] is deterministic and idempotent *)

(** C9: two chromosomes with the same config and the same grid get the same
    score (or the same exception), whatever their cached fitness and occupancy
    dictionaries; and evaluating the chromosome [calculate_fitness] returns
    again gives the same score and leaves it unchanged. *)
Theorem calculate_fitness_deterministic (ch1 ch2 : TimetableChromosome) :
  config ch1 = config ch2 -> slots ch1 = slots ch2 ->
  score ch1 = score ch2 /\
  (forall v ch', calculate_fitness ch1 = Ok (v, ch') ->
     calculate_fitness ch' = Ok (v, ch')).
Proof.
  intros Hc Hs. split.
  - unfold score, calculate_fitness. rewrite Hc, Hs.
    destruct (conflict_scan faculty (config ch2) (slots ch2) 100) as [f1|];
      [|reflexivity]. simpl.
    destruct (conflict_scan room (config ch2) (slots ch2) f1) as [f2|];
      [|reflexivity]. simpl.
    destruct (lunch_scan (config ch2) (slots ch2) f2) as [f3|]; [|reflexivity].
    simpl. destruct (lab_scan (config ch2) (slots ch2) f3); reflexivity.
  - intros v ch' H. unfold calculate_fitness in H.
    apply bind_r_ok_inv in H as [f1 [E1 H]].
    apply bind_r_ok_inv in H as [f2 [E2 H]].
    apply bind_r_ok_inv in H as [f3 [E3 H]].
    apply bind_r_ok_inv in H as [f4 [E4 H]].
    injection H as <- <-.
    unfold calculate_fitness. cbn [config slots with_fitness].
    rewrite E1. cbn. rewrite E2. cbn. rewrite E3. cbn. rewrite E4. reflexivity.
Qed.

Lemma calculate_fitness_deterministic_witness :
  score lab_block_chromosome =
    score (with_schedules (with_fitness lab_block_chromosome 99)
             {[ "Rao" := {[ (0, 0) ]} ]} ∅) /\
  (forall v ch', calculate_fitness lab_block_chromosome = Ok (v, ch') ->
     calculate_fitness ch' = Ok (v, ch')).
Proof.
  apply (calculate_fitness_deterministic lab_block_chromosome
           (with_schedules (with_fitness lab_block_chromosome 99)
              {[ "Rao" := {[ (0, 0) ]} ]} ∅)); reflexivity.
Defined.


(** ** C1: a placement shortfall is not penalised *)

(** C1 (amended): a shortfall in placement is not reflected in the score. Take
    a config whose lunch window lies inside the day, with at least one slot
    outside lunch and no three consecutive non-lunch hours in a day, and
    subjects that are all labs of at least 3 hours a week. For every random
    source, [generate_timetable] returns a schedule whose grid is empty, with
    cached fitness 100 and score 100, although no hour was placed. *)
Theorem unplaceable_labs_score_100 (cfg : TimetableConfig) (subs : list Subject) (r : rng) :
  0 <= lunch_break_start cfg ->
  lunch_break_start cfg + lunch_break_duration cfg <= hours_per_day cfg ->
  all_slots cfg <> [] -> no_lab_block cfg ->
  Forall (fun s => is_lab s = true /\ 3 <= hours_per_week s) subs ->
  exists best r', generate_timetable cfg subs r = Ok (best, r') /\
    slots best = initialize_slots cfg /\ fitness best = 100 /\ score best = Ok 100.
Proof.
  intros H1 H2 Hav Hnb Hsubs.
  destruct (final_population_no_block cfg subs r H1 H2 Hav Hnb Hsubs) as [r1 Hfin].
  exists (mkChromosome cfg subs (initialize_slots cfg) 100 ∅ ∅), r1.
  split; [|split; [reflexivity | split; [reflexivity|]]].
  - unfold generate_timetable. rewrite (bind_ok _ _ _ _ _ Hfin).
    unfold lift. change 50%nat with (S 49). rewrite max_by_fitness_replicate. reflexivity.
  - unfold score. rewrite calculate_fitness_initial by assumption. reflexivity.
Qed.

Lemma unplaceable_labs_score_100_witness :
  exists best r', generate_timetable cfg_short_day [lab3] zero_source = Ok (best, r') /\
    slots best = initialize_slots cfg_short_day /\ fitness best = 100 /\ score best = Ok 100.
Proof.
  apply unplaceable_labs_score_100.
  - vm_compute. intros H. discriminate H.
  - vm_compute. intros H. discriminate H.
  - vm_compute. intros H. discriminate H.
  - unfold no_lab_block, in_lunch. simpl. intros h H0 H3. right. right. lia.
  - constructor; [split; [reflexivity | vm_compute; intros H; discriminate H] | constructor].
Defined.

(** ** C3: the conflict checks never fire *)

(** C3 (amended): the faculty and the room conflict checks never subtract
    anything. Each cell is visited once and holds at most one subject, so the
    score [calculate_fitness] returns is [max 0] of the lunch and lab checks
    applied to 100. *)
Theorem calculate_fitness_without_conflict_penalties (ch : TimetableChromosome) v ch' :
  calculate_fitness ch = Ok (v, ch') ->
  exists f, (let? f3 := lunch_scan (config ch) (slots ch) 100 in
             lab_scan (config ch) (slots ch) f3) = Ok f /\ v = Z.max 0 f.
Proof.
  unfold calculate_fitness. intros H.
  apply bind_r_ok_inv in H as [f1 [E1 H]]. apply conflict_scan_unchanged in E1 as ->.
  apply bind_r_ok_inv in H as [f2 [E2 H]]. apply conflict_scan_unchanged in E2 as ->.
  apply bind_r_ok_inv in H as [f3 [E3 H]].
  apply bind_r_ok_inv in H as [f4 [E4 H]]. injection H as <- _.
  exists f4. rewrite E3. simpl. rewrite E4. split; reflexivity.
Qed.

Lemma calculate_fitness_without_conflict_penalties_witness :
  calculate_fitness theory_chromosome = Ok (100, with_fitness theory_chromosome 100) /\
  exists f, (let? f3 := lunch_scan (config theory_chromosome) (slots theory_chromosome) 100 in
             lab_scan (config theory_chromosome) (slots theory_chromosome) f3) = Ok f /\
            100 = Z.max 0 f.
Proof.
  assert (H : calculate_fitness theory_chromosome = Ok (100, with_fitness theory_chromosome 100))
    by (vm_compute; reflexivity).
  split; [exact H|].
  exact (calculate_fitness_without_conflict_penalties theory_chromosome 100 _ H).
Defined.

(** ** C7: the rebuilt occupancy indices *)

(** C7 (amended): after the rebuild, both indices hold only cells of the grid.
    For every cell (d, h) and every subject S, (d, h) is in S's faculty set and
    in S's room set exactly when the cell holds some subject T with S's faculty
    and S's room; T need not be S. *)
Theorem rebuilt_occupancy_matches_cell (cfg : TimetableConfig) (g : grid) fs rs :
  rebuild_schedules cfg g = Ok (fs, rs) ->
  (forall d h, (exists k, (d, h) ∈ occ_of fs k \/ (d, h) ∈ occ_of rs k) ->
     In (d, h) (cells cfg)) /\
  (forall d h (S : Subject), In (d, h) (cells cfg) ->
     ((d, h) ∈ occ_of fs (faculty S) /\ (d, h) ∈ occ_of rs (room S) <->
      exists T, get_subject g d h = Ok (Some T) /\
                faculty T = faculty S /\ room T = room S)).
Proof.
  intros Hrun. pose proof (rebuild_schedules_spec cfg g fs rs Hrun) as Hspec.
  split.
  - intros d h [k [Hx|Hx]]; [apply (proj1 (Hspec k (d, h))) in Hx
                            | apply (proj2 (Hspec k (d, h))) in Hx]; apply Hx.
  - intros d h S Hc.
    rewrite (proj1 (Hspec (faculty S) (d, h))), (proj2 (Hspec (room S) (d, h))). simpl.
    split.
    + intros [[_ [T [HT HfT]]] [_ [T' [HT' HrT']]]].
      rewrite HT in HT'. injection HT' as <-. exists T. auto.
    + intros [T [HT [Hf Hr]]]. split; split; eauto.
Qed.

Lemma rebuilt_occupancy_matches_cell_witness :
  rebuild_schedules cfg_two_days (slots theory_chromosome) =
    Ok ({[ "Menon" := {[ (0, 0) ]} ]}, {[ "R101" := {[ (0, 0) ]} ]})%string /\
  ((forall d h, (exists k, (d, h) ∈ occ_of {[ "Menon" := {[ (0, 0) ]} ]}%string k \/
                    (d, h) ∈ occ_of {[ "R101" := {[ (0, 0) ]} ]}%string k) ->
     In (d, h) (cells cfg_two_days)) /\
  (forall d h (S : Subject), In (d, h) (cells cfg_two_days) ->
     ((d, h) ∈ occ_of {[ "Menon" := {[ (0, 0) ]} ]}%string (faculty S) /\
      (d, h) ∈ occ_of {[ "R101" := {[ (0, 0) ]} ]}%string (room S) <->
      exists T, get_subject (slots theory_chromosome) d h = Ok (Some T) /\
                faculty T = faculty S /\ room T = room S))).
Proof.
  assert (H : rebuild_schedules cfg_two_days (slots theory_chromosome) =
    Ok ({[ "Menon" := {[ (0, 0) ]} ]}, {[ "R101" := {[ (0, 0) ]} ]})%string)
    by (vm_compute; reflexivity).
  split; [exact H|].
  exact (rebuilt_occupancy_matches_cell cfg_two_days _ _ _ H).
Defined.

(** ** C10: the lunch window stays empty *)

(** C10: in every population the engine goes through (the initial one and the
    result of each generation step), every chromosome's grid has all its
    lunch-window cells empty. So the lunch check leaves the score unchanged,
    for a lunch window starting at hour 0 or later. *)
Theorem engine_populations_lunch_free (cfg : TimetableConfig) (subs : list Subject)
    (pop : list TimetableChromosome) :
  0 <= lunch_break_start cfg -> reachable cfg subs pop ->
  Forall (fun c => lunch_free cfg (slots c) /\
                   forall f f', lunch_scan cfg (slots c) f = Ok f' -> f' = f) pop.
Proof.
  intros Hl Hr.
  assert (H : Forall (fun c => lunch_free cfg (slots c)) pop).
  { induction Hr as [r pop r' Hnew | pop r o r' Hr IH Hstep].
    - exact (new_population_lunch_free _ _ _ _ _ _ Hnew).
    - exact (generation_step_lunch_free cfg subs pop r o r' IH Hstep). }
  apply (Forall_impl _ _ _ H). intros c Hc. split; [exact Hc|].
  intros f f'. apply lunch_scan_unchanged; assumption.
Qed.

Lemma engine_populations_lunch_free_witness :
  exists pop, 0 <= lunch_break_start cfg_two_days /\ reachable cfg_two_days [lab3] pop /\
    Forall (fun c => lunch_free cfg_two_days (slots c) /\
                     forall f f', lunch_scan cfg_two_days (slots c) f = Ok f' -> f' = f) pop.
Proof.
  assert (Hok : match new_population (Z.to_nat population_size) cfg_two_days [lab3]
                       zero_source with Ok _ => True | Raise _ => False end)
    by (vm_compute; exact I).
  destruct (new_population (Z.to_nat population_size) cfg_two_days [lab3] zero_source)
    as [[pop r']|e] eqn:E; [|destruct Hok].
  assert (Hl : 0 <= lunch_break_start cfg_two_days) by (vm_compute; intros H; discriminate H).
  assert (Hr : reachable cfg_two_days [lab3] pop) by exact (reachable_init _ _ _ _ _ E).
  exists pop. split; [exact Hl|]. split; [exact Hr|].
  exact (engine_populations_lunch_free cfg_two_days [lab3] pop Hl Hr).
Defined.

(** ** C4: valid configurations on which the run raises *)

(** C4 (code_bug): two valid configurations with a non-empty subject list make
    [generate_timetable] raise, whatever the random source. With the whole day
    at lunch, [random.choice] on the empty slot list raises IndexError. With
    one day a week, [random.randint(1, 0)] in the crossover raises
    ValueError. *)
Theorem generate_timetable_raises_on_valid_configs (r : rng) :
  valid_config cfg_all_lunch /\
  generate_timetable cfg_all_lunch [lab1] r = Raise IndexError /\
  valid_config cfg_one_day /\
  generate_timetable cfg_one_day [lab1] r = Raise ValueError.
Proof.
  split; [unfold valid_config; simpl; lia|].
  split; [vm_compute; reflexivity|].
  split; [unfold valid_config; simpl; lia|].
  exact (generate_timetable_one_day r).
Qed.

(** ** Concrete runs *)

(** C2 (code_bug): the random initializer places a 3-hour lab block at hours
    0-2 of a five-hour day with lunch at hour 4; the block is contiguous, no
    cell is in the lunch window and there is no overlap, yet the lab check
    charges the block's second and third cells and the score is 40. *)
Theorem contiguous_lab_block_scores_40 :
  (let? (c, _) := new_chromosome cfg_five_hours [lab3] zero_source in
   let? v := score c in Ok (slots c, v)) =
  Ok ([[Some lab3; Some lab3; Some lab3; None; None]], 40).
Proof. vm_compute. reflexivity. Qed.

(** C3 (counterexample): [theory_a] and [theory_b] are different subjects of
    the same faculty; writing [theory_b] into the cell of [theory_a], the only
    way the grid records a second subject at that hour, leaves the score at
    100, not 70. *)
Lemma faculty_double_booking_not_penalised :
  theory_a <> theory_b /\ faculty theory_a = faculty theory_b /\
  score theory_chromosome = Ok 100 /\
  exists g, set_subject (slots theory_chromosome) 0 0 (Some theory_b) = Ok g /\
    score (with_slots theory_chromosome g) = Ok 100.
Proof.
  split; [intros H; apply (f_equal name) in H; vm_compute in H; discriminate H|].
  split; [reflexivity|]. split; [vm_compute; reflexivity|].
  eexists; split; [reflexivity | vm_compute; reflexivity].
Qed.

(** C5 (counterexample): a config with no days, no hours and a lunch window
    starting at -1, and a subject with 0 hours a week, are constructed and the
    search runs to a schedule of fitness 100. *)
Lemma invalid_config_not_rejected :
  days_per_week cfg_empty_week = 0 /\ hours_per_day cfg_empty_week = 0 /\
  lunch_break_start cfg_empty_week = -1 /\ hours_per_week no_hours_subject = 0 /\
  (let? (best, _) := generate_timetable cfg_empty_week [no_hours_subject] zero_source in
   Ok (fitness best)) = Ok 100.
Proof. do 4 (split; [reflexivity|]). vm_compute. reflexivity. Qed.

(** C5 (amended): the constructors validate nothing. A config with no days,
    whatever its hours and lunch window, is built with its arguments as
    given and handed to the search: when no subject has positive weekly
    hours, [generate_timetable] returns, for every random source, a schedule
    with an empty grid, fitness 100 and score 100; otherwise it raises
    IndexError from [random.choice] inside the search. *)
Theorem unvalidated_inputs_reach_the_search (d h ls ld : Z) (b : string) (sem yr : Z)
    (subs : list Subject) (r : rng) :
  d <= 0 ->
  let cfg := TimetableConfig_init d h ls ld b sem yr in
  days_per_week cfg = d /\ hours_per_day cfg = h /\ lunch_break_start cfg = ls /\
  lunch_break_duration cfg = ld /\
  (Forall (fun s => hours_per_week s <= 0) subs ->
   exists best r', generate_timetable cfg subs r = Ok (best, r') /\
     slots best = [] /\ fitness best = 100 /\ score best = Ok 100) /\
  (~ Forall (fun s => hours_per_week s <= 0) subs ->
   generate_timetable cfg subs r = Raise IndexError).
Proof.
  intros Hd cfg. assert (Hd' : days_per_week cfg <= 0) by exact Hd.
  do 4 (split; [reflexivity|]). split.
  - intros Hf. exists (mkChromosome cfg subs [] 100 ∅ ∅), r. split.
    + unfold generate_timetable.
      rewrite (bind_ok _ _ _ _ _ (no_days_final_population cfg Hd' subs r Hf)).
      unfold lift. change 50%nat with (S 49). rewrite max_by_fitness_replicate.
      reflexivity.
    + split; [reflexivity|]. split; [reflexivity|].
      unfold score. rewrite (no_days_calculate_fitness cfg Hd'). reflexivity.
  - intros Hn. apply generate_timetable_no_slots; [exact (no_days_all_slots cfg Hd') | exact Hn].
Qed.

Lemma unvalidated_inputs_reach_the_search_witness :
  (exists best r', generate_timetable cfg_empty_week [no_hours_subject] zero_source =
     Ok (best, r') /\ slots best = [] /\ fitness best = 100 /\ score best = Ok 100) /\
  generate_timetable cfg_empty_week [theory_a] zero_source = Raise IndexError.
Proof.
  split.
  - destruct (unvalidated_inputs_reach_the_search 0 0 (-1) 0 "CSE" 3 2
                [no_hours_subject] zero_source ltac:(lia)) as (_ & _ & _ & _ & H & _).
    apply H. constructor; [cbn; lia | constructor].
  - destruct (unvalidated_inputs_reach_the_search 0 0 (-1) 0 "CSE" 3 2
                [theory_a] zero_source ltac:(lia)) as (_ & _ & _ & _ & _ & H).
    apply H. intros Hf. apply Forall_cons in Hf as [Hf _]. cbn in Hf. lia.
Defined.

(** C6 (code_bug): after the full 100 generations on [cfg_two_days], the
    final population holds, at position 25, a child of the last generation
    whose cached fitness is still the constructor's 0 while its grid scores
    100; [max] over the cached fitness returns a parent scoring 70. *)
Theorem final_offspring_keep_initial_fitness :
  (let? (pop, _) := final_population cfg_two_days [lab3] crossover_source in
   let? c := py_index pop 25 in
   let? v := score c in Ok (fitness c, v)) = Ok (0, 100) /\
  (let? (best, _) := generate_timetable cfg_two_days [lab3] crossover_source in
   let? v := score best in Ok (fitness best, v)) = Ok (70, 70).
Proof. split; vm_compute; reflexivity. Qed.

(** C7 (counterexample): [theory_a] and [theory_b] share faculty and room;
    after the rebuild, cell (0, 0) holds [theory_a], and (0, 0) is in both
    index entries of [theory_b] ([k in m and x in m[k]] holds for both). *)
Lemma occupancy_index_conflates_subjects :
  theory_a <> theory_b /\ faculty theory_a = faculty theory_b /\
  room theory_a = room theory_b /\
  get_subject (slots theory_chromosome) 0 0 = Ok (Some theory_a) /\
  (let? (fs, rs) := rebuild_schedules cfg_two_days (slots theory_chromosome) in
   Ok (in_schedule fs (faculty theory_b) (0, 0) &&
       in_schedule rs (room theory_b) (0, 0))) = Ok true.
Proof.
  split; [intros H; apply (f_equal name) in H; vm_compute in H; discriminate H|].
  do 3 (split; [reflexivity|]). vm_compute. reflexivity.
Qed.

(** C1 (counterexample): scenario C of the spec. A 3-hour lab on a day with
    only two hours outside lunch is never placed; every schedule stays empty
    and [generate_timetable] returns one of fitness 100. *)
Lemma unplaceable_lab_returned_with_score_100 :
  (let? (best, _) := generate_timetable cfg_short_day [lab3] zero_source in
   let? v := score best in Ok (slots best, fitness best, v)) =
  Ok (initialize_slots cfg_short_day, 100, 100).
Proof. vm_compute. reflexivity. Qed.

(** ** Further properties of the code *)

(** X1: writing a cell with [slots[day][hour].subject = v] and reading any
    cell at non-negative indices gives [v] at the written cell and the old
    content everywhere else. *)
Theorem set_subject_then_get (g g' : grid) d h v d' h' :
  0 <= d -> 0 <= h -> 0 <= d' -> 0 <= h' -> set_subject g d h v = Ok g' ->
  get_subject g' d' h' = if decide ((d', h') = (d, h)) then Ok v else get_subject g d' h'.
Proof. apply get_set_subject. Qed.

Lemma set_subject_then_get_witness :
  exists g', set_subject (initialize_slots cfg_two_days) 0 1 (Some theory_a) = Ok g' /\
    get_subject g' 0 1 = Ok (Some theory_a) /\ get_subject g' 1 1 = Ok None.
Proof.
  assert (Hok : match set_subject (initialize_slots cfg_two_days) 0 1 (Some theory_a) with
                | Ok _ => True | Raise _ => False end) by (vm_compute; exact I).
  destruct (set_subject (initialize_slots cfg_two_days) 0 1 (Some theory_a)) as [g'|e] eqn:E;
    [|destruct Hok].
  exists g'. split; [reflexivity|]. split.
  - rewrite (set_subject_then_get _ _ 0 1 _ 0 1 ltac:(lia) ltac:(lia) ltac:(lia) ltac:(lia) E).
    vm_compute. reflexivity.
  - rewrite (set_subject_then_get _ _ 0 1 _ 1 1 ltac:(lia) ltac:(lia) ltac:(lia) ltac:(lia) E).
    vm_compute. reflexivity.
Defined.

(** X2: the timetable [generate_timetable] returns has as cached fitness its
    score, or the constructor's 0 (a child of the last generation is never
    evaluated). So a timetable [main] reports with fitness 100 does score 100. *)
Theorem generate_timetable_fitness_cached cfg subs r best r' :
  generate_timetable cfg subs r = Ok (best, r') ->
  fitness best = 0 \/ score best = Ok (fitness best).
Proof.
  intros H. unfold generate_timetable, final_population in H.
  apply bind_ok_inv in H as [pop [r1 [Hp H]]].
  apply bind_ok_inv in Hp as [pop0 [r0 [H0 Hp]]].
  apply lift_ok_inv in H as [H _].
  pose proof (run_generations_cached _ _ _ _ _ _ _ (new_population_cached _ _ _ _ _ _ H0) Hp)
    as Hc.
  rewrite List.Forall_forall in Hc. exact (Hc best (max_by_fitness_in _ _ H)).
Qed.

Lemma generate_timetable_fitness_cached_witness :
  exists best r', generate_timetable cfg_two_days [lab3; theory_a] zero_source = Ok (best, r') /\
    (fitness best = 0 \/ score best = Ok (fitness best)).
Proof.
  assert (Hok : match generate_timetable cfg_two_days [lab3; theory_a] zero_source with
                | Ok _ => True | Raise _ => False end) by (vm_compute; exact I).
  destruct (generate_timetable cfg_two_days [lab3; theory_a] zero_source)
    as [[best r']|e] eqn:E; [|destruct Hok].
  exists best, r'. split; [reflexivity|].
  exact (generate_timetable_fitness_cached _ _ _ _ _ E).
Defined.

(** X3: [_initialize_slots] builds [days_per_week] rows of [hours_per_day]
    cells; at non-negative indices a cell inside the grid is empty and a cell
    outside raises IndexError. *)
Theorem initialize_slots_cells (cfg : TimetableConfig) d h :
  0 <= d -> 0 <= h ->
  shaped cfg (initialize_slots cfg) /\
  get_subject (initialize_slots cfg) d h =
    if (d <? days_per_week cfg) && (h <? hours_per_day cfg) then Ok None else Raise IndexError.
Proof.
  intros Hd Hh. split; [apply shaped_initial|].
  destruct (d <? days_per_week cfg) eqn:E1; destruct (h <? hours_per_day cfg) eqn:E2;
    cbn [andb]; rewrite ?Z.ltb_lt, ?Z.ltb_ge in E1, E2;
    [apply get_subject_initial; lia|..];
    apply (shaped_get_nonneg_out cfg); [apply shaped_initial | lia | lia | lia
                                        |apply shaped_initial | lia | lia | lia
                                        |apply shaped_initial | lia | lia | lia].
Qed.

Lemma initialize_slots_cells_witness :
  shaped cfg_two_days (initialize_slots cfg_two_days) /\
  get_subject (initialize_slots cfg_two_days) 1 5 =
    if (1 <? days_per_week cfg_two_days) && (5 <? hours_per_day cfg_two_days)
    then Ok None else Raise IndexError.
Proof. exact (initialize_slots_cells cfg_two_days 1 5 ltac:(lia) ltac:(lia)). Defined.

(** X4: after [_add_to_schedule(day, hour, s)], a cell is available for a
    subject exactly when it was available before, unless it is [(day, hour)]
    and the subject shares the faculty or the room of [s]. *)
Theorem add_to_schedule_availability ch day hour s d' h' t :
  is_slot_available (add_to_schedule ch day hour s) d' h' t =
  is_slot_available ch d' h' t &&
  negb (bool_decide ((d', h') = (day, hour)) &&
        (bool_decide (faculty t = faculty s) || bool_decide (room t = room s))).
Proof.
  rewrite !is_slot_available_bool. unfold add_to_schedule, with_schedules.
  cbn [config faculty_schedule room_schedule]. rewrite !in_schedule_add.
  destruct (in_schedule (faculty_schedule ch) (faculty t) (d', h'));
  destruct (in_schedule (room_schedule ch) (room t) (d', h'));
  destruct (bool_decide ((d', h') = (day, hour)));
  destruct (bool_decide (faculty t = faculty s));
  destruct (bool_decide (room t = room s));
  destruct (lunch_break_start (config ch) <=? h');
  destruct (h' <? lunch_break_start (config ch) + lunch_break_duration (config ch));
  reflexivity.
Qed.

(** X5: [TimetableChromosome(config, subjects)] either returns or raises
    IndexError; it returns exactly when some slot lies outside the lunch
    window or no subject has positive weekly hours. *)
Theorem new_chromosome_outcomes cfg subs r :
  ((exists c r', new_chromosome cfg subs r = Ok (c, r')) <->
   all_slots cfg <> [] \/ Forall (fun s => hours_per_week s <= 0) subs) /\
  ((exists c r', new_chromosome cfg subs r = Ok (c, r')) \/
   new_chromosome cfg subs r = Raise IndexError).
Proof. split; [apply new_chromosome_ok_iff | apply new_chromosome_outcome]. Qed.

(** X6: a chromosome built by the constructor has the configured grid shape,
    fitness 0, nothing in the lunch window, and every occupied cell recorded
    under its subject's faculty and room. *)
Theorem new_chromosome_well_formed cfg subs r c r' :
  new_chromosome cfg subs r = Ok (c, r') ->
  well_formed cfg c /\ fitness c = 0 /\ lunch_free cfg (slots c).
Proof.
  intros H. destruct (new_chromosome_wf _ _ _ _ _ H) as [Hw [_ Hf]].
  split; [exact Hw|]. split; [exact Hf|]. exact (new_chromosome_lunch_free _ _ _ _ _ H).
Qed.

Lemma new_chromosome_well_formed_witness :
  exists c r', new_chromosome cfg_two_days [theory_a; lab3] zero_source = Ok (c, r') /\
    well_formed cfg_two_days c /\ fitness c = 0 /\ lunch_free cfg_two_days (slots c).
Proof.
  assert (Hok : match new_chromosome cfg_two_days [theory_a; lab3] zero_source with
                | Ok _ => True | Raise _ => False end) by (vm_compute; exact I).
  destruct (new_chromosome cfg_two_days [theory_a; lab3] zero_source) as [[c r']|e] eqn:E;
    [|destruct Hok].
  exists c, r'. split; [reflexivity|].
  exact (new_chromosome_well_formed _ _ _ _ _ E).
Defined.

(** X7: on a grid of the configured shape whose lunch window lies inside the
    day, [calculate_fitness] returns a score between 0 and 100 and changes
    nothing but the chromosome's fitness. *)
Theorem calculate_fitness_in_range (ch : TimetableChromosome) :
  shaped (config ch) (slots ch) -> 0 <= lunch_break_start (config ch) ->
  lunch_break_start (config ch) + lunch_break_duration (config ch) <= hours_per_day (config ch) ->
  exists v, calculate_fitness ch = Ok (v, with_fitness ch v) /\ 0 <= v <= 100.
Proof. apply calculate_fitness_ok. Qed.

Lemma calculate_fitness_in_range_witness :
  exists v, calculate_fitness theory_chromosome = Ok (v, with_fitness theory_chromosome v) /\
    0 <= v <= 100.
Proof.
  apply calculate_fitness_in_range.
  - split; [reflexivity | repeat constructor].
  - vm_compute. discriminate.
  - vm_compute. discriminate.
Defined.

(** X8: when the lunch window runs past the end of the day (and the week and
    the window are non-empty), [calculate_fitness] raises IndexError. *)
Theorem calculate_fitness_lunch_overflow_raises (ch : TimetableChromosome) :
  shaped (config ch) (slots ch) -> 0 < days_per_week (config ch) ->
  0 < lunch_break_duration (config ch) ->
  hours_per_day (config ch) < lunch_break_start (config ch) + lunch_break_duration (config ch) ->
  calculate_fitness ch = Raise IndexError.
Proof. apply calculate_fitness_lunch_overflow. Qed.

Lemma calculate_fitness_lunch_overflow_raises_witness :
  calculate_fitness (initial_chromosome cfg_late_lunch []) = Raise IndexError.
Proof.
  apply calculate_fitness_lunch_overflow_raises.
  - apply shaped_initial.
  - vm_compute. reflexivity.
  - vm_compute. reflexivity.
  - vm_compute. reflexivity.
Defined.

(** X9: a grid of the configured shape, with the lunch window inside the day,
    no subject in the lunch window and no lab subject anywhere, scores 100. *)
Theorem no_lab_no_lunch_scores_100 (ch : TimetableChromosome) :
  shaped (config ch) (slots ch) -> 0 <= lunch_break_start (config ch) ->
  lunch_break_start (config ch) + lunch_break_duration (config ch) <= hours_per_day (config ch) ->
  lunch_free (config ch) (slots ch) ->
  (forall d h S, get_subject (slots ch) d h = Ok (Some S) -> is_lab S = false) ->
  calculate_fitness ch = Ok (100, with_fitness ch 100).
Proof.
  intros Hs H1 H2 Hl Hlab. unfold calculate_fitness. cbv zeta.
  destruct (conflict_scan_ok _ _ faculty 100 Hs) as [f1 E1]. rewrite E1. cbn [bind_r].
  apply conflict_scan_unchanged in E1 as ->.
  destruct (conflict_scan_ok _ _ room 100 Hs) as [f2 E2]. rewrite E2. cbn [bind_r].
  apply conflict_scan_unchanged in E2 as ->.
  destruct (lunch_scan_ok _ _ 100 Hs H1 H2) as [f3 E3]. rewrite E3. cbn [bind_r].
  apply (lunch_scan_unchanged _ _ _ _ H1 Hl) in E3 as ->.
  destruct (lab_scan_ok _ _ 100 Hs) as [f4 E4]. rewrite E4. cbn [bind_r].
  apply (lab_scan_no_lab _ _ _ _ Hlab) in E4 as ->. reflexivity.
Qed.

Lemma no_lab_no_lunch_scores_100_witness :
  calculate_fitness theory_chromosome = Ok (100, with_fitness theory_chromosome 100).
Proof.
  apply no_lab_no_lunch_scores_100.
  - split; [reflexivity | repeat constructor].
  - vm_compute. discriminate.
  - vm_compute. discriminate.
  - intros d h row x Hrow Hx Hin. unfold in_lunch in Hin. cbn in Hin.
    assert (h = 3%nat) by lia. subst h.
    destruct d as [|[|d]]; cbn in Hrow; [injection Hrow as <- | injection Hrow as <- | discriminate Hrow];
      cbn in Hx; injection Hx as <-; reflexivity.
  - intros d h S H. unfold get_subject in H.
    destruct (py_index (slots theory_chromosome) d) as [row|e] eqn:E; [|discriminate H].
    cbn [bind_r] in H. apply py_index_elem in E. apply py_index_elem in H.
    cbn in E. destruct E as [<-|[<-|[]]]; cbn in H;
      repeat destruct H as [H|H]; try discriminate H; try contradiction.
    injection H as <-. reflexivity.
Defined.

(** X10: a generation that does not stop evaluates every chromosome (its
    cached fitness becomes its score), keeps the 25 of highest fitness as
    parents, none of them below a dropped chromosome, and appends offspring
    with fitness 0 up to 50 chromosomes; no evaluated chromosome scored 100. *)
Theorem generation_step_keeps_top_half cfg subs pop r pop' r' :
  generation_step cfg subs pop r = Ok (Continue pop', r') ->
  exists evaluated parents dropped offspring,
    evaluate_all pop = Ok evaluated /\
    Forall2 (fun c c' => c' = with_fitness c (fitness c') /\ score c = Ok (fitness c'))
      pop evaluated /\
    parents ++ dropped ≡ₚ evaluated /\ length parents = Nat.min 25 (length pop) /\
    Forall (fun p => Forall (fun x => fitness x <= fitness p) dropped) parents /\
    Forall (fun c => fitness c < 100) evaluated /\
    pop' = parents ++ offspring /\ length offspring = (50 - length parents)%nat /\
    Forall (fun c => fitness c = 0) offspring.
Proof.
  intros H. destruct (generation_step_cases _ _ _ _ _ _ H) as [ev [He Ho]].
  destruct Ho as [Ho|[off [Ho [Hlt [Hoff Hl]]]]]; [discriminate Ho|].
  injection Ho as ->.
  pose proof (evaluate_all_scores _ _ He) as Hsc.
  exists ev, (take 25 (sort_desc ev)), (drop 25 (sort_desc ev)), off.
  split; [exact He|]. split.
  { clear -Hsc. induction Hsc as [|c c' pop ev Hc _ IH]; constructor; [|exact IH].
    split; [exact (proj2 (calculate_fitness_range _ _ _ Hc)) | exact (score_of_fitness _ _ _ Hc)]. }
  split; [rewrite take_drop; apply sort_desc_perm|].
  split.
  { rewrite length_take. f_equal.
    rewrite (Permutation_length (sort_desc_perm ev)). symmetry.
    exact (Forall2_length _ _ _ Hsc). }
  split.
  { pose proof (sort_desc_sorted ev) as Hs. rewrite <- (take_drop 25 (sort_desc ev)) in Hs.
    exact (StronglySorted_app_Forall _ _ _ Hs). }
  split; [exact Hlt|]. split; [reflexivity|]. split; [exact Hl | exact Hoff].
Qed.

Lemma generation_step_keeps_top_half_witness :
  exists pop r1 pop' r2,
    new_population (Z.to_nat population_size) cfg_two_days [lab3] zero_source = Ok (pop, r1) /\
    generation_step cfg_two_days [lab3] pop r1 = Ok (Continue pop', r2) /\
    exists evaluated parents dropped offspring,
    evaluate_all pop = Ok evaluated /\
    Forall2 (fun c c' => c' = with_fitness c (fitness c') /\ score c = Ok (fitness c'))
      pop evaluated /\
    parents ++ dropped ≡ₚ evaluated /\ length parents = Nat.min 25 (length pop) /\
    Forall (fun p => Forall (fun x => fitness x <= fitness p) dropped) parents /\
    Forall (fun c => fitness c < 100) evaluated /\
    pop' = parents ++ offspring /\ length offspring = (50 - length parents)%nat /\
    Forall (fun c => fitness c = 0) offspring.
Proof.
  assert (Hok : match new_population (Z.to_nat population_size) cfg_two_days [lab3]
                        zero_source with
                | Ok (pop, r1) =>
                  match generation_step cfg_two_days [lab3] pop r1 with
                  | Ok (Continue _, _) => True | _ => False end
                | Raise _ => False end) by (vm_compute; exact I).
  destruct (new_population (Z.to_nat population_size) cfg_two_days [lab3] zero_source)
    as [[pop r1]|e] eqn:E1; [|destruct Hok].
  destruct (generation_step cfg_two_days [lab3] pop r1) as [[[p|p] r2]|e] eqn:E2;
    [destruct Hok | | destruct Hok].
  exists pop, r1, p, r2. split; [reflexivity|]. split; [exact E2|].
  exact (generation_step_keeps_top_half _ _ _ _ _ _ E2).
Defined.

(** X11: [max(population, key=fitness)] returns the first chromosome of
    highest fitness: every chromosome before it has a lower fitness and none
    after it has a higher one. *)
Theorem max_by_fitness_first_max pop best :
  max_by_fitness pop = Ok best ->
  exists pre post, pop = pre ++ best :: post /\
    Forall (fun x => fitness x < fitness best) pre /\
    Forall (fun x => fitness x <= fitness best) post.
Proof. apply max_by_fitness_first. Qed.

Lemma max_by_fitness_first_max_witness :
  exists pre post,
    [with_fitness theory_chromosome 40; with_fitness theory_chromosome 70;
     with_fitness theory_chromosome 70] = pre ++ with_fitness theory_chromosome 70 :: post /\
    Forall (fun x => fitness x < fitness (with_fitness theory_chromosome 70)) pre /\
    Forall (fun x => fitness x <= fitness (with_fitness theory_chromosome 70)) post.
Proof. apply max_by_fitness_first_max. reflexivity. Defined.

(** X12: [max] on the population raises ValueError when the population is
    empty and otherwise returns one of its chromosomes, of maximal fitness. *)
Theorem max_by_fitness_outcome pop :
  (pop = [] /\ max_by_fitness pop = Raise ValueError) \/
  exists best, max_by_fitness pop = Ok best /\ In best pop /\
    Forall (fun x => fitness x <= fitness best) pop.
Proof.
  destruct pop as [|c cs]; [left; split; reflexivity|]. right.
  assert (Em : max_by_fitness (c :: cs) = Ok (fold_left keep_max cs c)) by reflexivity.
  exists (fold_left keep_max cs c). split; [exact Em|].
  split; [exact (max_by_fitness_in _ _ Em)|].
  destruct (max_by_fitness_first _ _ Em) as [pre [post [-> [Hpre Hpost]]]].
  apply Forall_app. split.
  - refine (List.Forall_impl _ _ Hpre). intros x Hx. lia.
  - constructor; [lia | exact Hpost].
Qed.

(** X13: the crossover loop on grids of the configured shape never raises;
    the child keeps its configuration, fitness and occupancy dictionaries, and
    each cell of a day before [crossover_point] comes from [parent1], each
    other cell from [parent2]. *)
Theorem crossover_copies_days cfg cp p1 p2 child :
  shaped cfg (slots p1) -> shaped cfg (slots p2) -> shaped cfg (slots child) ->
  exists c', crossover cfg cp p1 p2 child = Ok c' /\ c' = with_slots child (slots c') /\
    shaped cfg (slots c') /\
    forall d h, In (d, h) (cells cfg) ->
      get_subject (slots c') d h = get_subject (slots (if d <? cp then p1 else p2)) d h.
Proof.
  intros H1 H2 Hc. destruct (crossover_ok cfg cp p1 p2 child H1 H2 Hc) as [c' E].
  exists c'. split; [exact E|]. split.
  - pose proof E as E'. unfold crossover in E'.
    apply bind_r_ok_inv in E' as [g [_ E']]. injection E' as <-. reflexivity.
  - split; [exact (proj1 (crossover_shaped _ _ _ _ _ _ Hc E))|].
    exact (crossover_cells _ _ _ _ _ _ Hc E).
Qed.

Lemma crossover_copies_days_witness :
  exists c', crossover cfg_two_days 1 theory_chromosome (initial_chromosome cfg_two_days [])
               (initial_chromosome cfg_two_days [theory_a]) = Ok c' /\
    c' = with_slots (initial_chromosome cfg_two_days [theory_a]) (slots c') /\
    shaped cfg_two_days (slots c') /\
    forall d h, In (d, h) (cells cfg_two_days) ->
      get_subject (slots c') d h =
      get_subject (slots (if d <? 1 then theory_chromosome
                          else initial_chromosome cfg_two_days [])) d h.
Proof.
  apply crossover_copies_days.
  - split; [reflexivity | repeat constructor].
  - apply shaped_initial.
  - apply shaped_initial.
Defined.



(** X15: a generation stops early exactly when some chromosome of the
    population scores 100. *)
Theorem generation_step_stops_iff cfg subs pop r o r' :
  generation_step cfg subs pop r = Ok (o, r') ->
  ((exists p, o = Stop p) <-> Exists (fun c => score c = Ok 100) pop).
Proof. apply generation_step_stop_iff. Qed.

Lemma generation_step_stops_iff_witness :
  exists o r', generation_step cfg_two_days [lab3; theory_a]
                 [lab_day_chromosome; lab_day_chromosome; theory_chromosome] zero_source =
               Ok (o, r') /\
    score lab_day_chromosome = Ok 70 /\ exists p, o = Stop p.
Proof.
  assert (Hok : match generation_step cfg_two_days [lab3; theory_a]
                        [lab_day_chromosome; lab_day_chromosome; theory_chromosome]
                        zero_source with
                | Ok _ => True | Raise _ => False end) by (vm_compute; exact I).
  destruct (generation_step cfg_two_days [lab3; theory_a]
              [lab_day_chromosome; lab_day_chromosome; theory_chromosome] zero_source)
    as [[o r']|e] eqn:E; [|destruct Hok].
  exists o, r'. split; [reflexivity|]. split; [vm_compute; reflexivity|].
  apply (proj2 (generation_step_stops_iff _ _ _ _ _ _ E)).
  constructor 2. constructor 2. constructor 1. vm_compute. reflexivity.
Defined.

(** X16: every population [generate_timetable] goes through has 50
    chromosomes, each well formed: the configured grid shape, every occupied
    cell recorded under its faculty and room, and a fitness in [0, 100]. *)
Theorem reachable_populations_well_formed cfg subs pop :
  reachable cfg subs pop -> Forall (well_formed cfg) pop /\ length pop = 50%nat.
Proof. apply reachable_wf. Qed.

Lemma reachable_populations_well_formed_witness :
  exists pop, reachable cfg_two_days [lab3] pop /\
    Forall (well_formed cfg_two_days) pop /\ length pop = 50%nat.
Proof.
  assert (Hok : match new_population (Z.to_nat population_size) cfg_two_days [lab3]
                       zero_source with Ok _ => True | Raise _ => False end)
    by (vm_compute; exact I).
  destruct (new_population (Z.to_nat population_size) cfg_two_days [lab3] zero_source)
    as [[pop r']|e] eqn:E; [|destruct Hok].
  assert (Hr : reachable cfg_two_days [lab3] pop) by exact (reachable_init _ _ _ _ _ E).
  exists pop. split; [exact Hr|].
  exact (reachable_populations_well_formed cfg_two_days [lab3] pop Hr).
Defined.

(** X17: [generate_timetable] raises nothing but IndexError or ValueError;
    in particular the [set.remove] calls of the mutation never raise KeyError. *)
Theorem generate_timetable_errors cfg subs r e :
  generate_timetable cfg subs r = Raise e -> e = IndexError \/ e = ValueError.
Proof. apply generate_timetable_raise. Qed.

Lemma generate_timetable_errors_witness :
  exists e, generate_timetable cfg_all_lunch [lab1] zero_source = Raise e /\
    (e = IndexError \/ e = ValueError).
Proof.
  assert (E : generate_timetable cfg_all_lunch [lab1] zero_source = Raise IndexError)
    by (vm_compute; reflexivity).
  exists IndexError. split; [exact E|].
  exact (generate_timetable_errors cfg_all_lunch [lab1] zero_source IndexError E).
Defined.

(** X18: for a valid configuration with at least two days and a lunch break
    shorter than the day, [generate_timetable] returns, for every subject
    list and random source, a chromosome of the final population whose
    fitness is maximal there, and which is well formed. *)
Theorem generate_timetable_succeeds cfg subs r :
  valid_config cfg -> 2 <= days_per_week cfg ->
  lunch_break_duration cfg < hours_per_day cfg ->
  exists pop best r', final_population cfg subs r = Ok (pop, r') /\
    generate_timetable cfg subs r = Ok (best, r') /\
    In best pop /\ Forall (fun c => fitness c <= fitness best) pop /\ well_formed cfg best.
Proof. apply generate_timetable_total. Qed.

Lemma generate_timetable_succeeds_witness :
  exists pop best r', final_population cfg_two_days [lab3; theory_a] zero_source = Ok (pop, r') /\
    generate_timetable cfg_two_days [lab3; theory_a] zero_source = Ok (best, r') /\
    In best pop /\ Forall (fun c => fitness c <= fitness best) pop /\
    well_formed cfg_two_days best.
Proof.
  apply generate_timetable_succeeds.
  - unfold valid_config. vm_compute. repeat split; reflexivity || discriminate.
  - vm_compute. discriminate.
  - vm_compute. reflexivity.
Defined.

(** X19: when the lunch window runs past the end of the day (with a
    non-empty week and window), [generate_timetable] raises IndexError for
    every subject list and random source. *)
Theorem generate_timetable_lunch_overflow cfg subs r :
  0 < days_per_week cfg -> 0 < lunch_break_duration cfg ->
  hours_per_day cfg < lunch_break_start cfg + lunch_break_duration cfg ->
  generate_timetable cfg subs r = Raise IndexError.
Proof. apply generate_timetable_overflow. Qed.

Lemma generate_timetable_lunch_overflow_witness :
  generate_timetable cfg_late_lunch [lab3] zero_source = Raise IndexError.
Proof.
  apply generate_timetable_lunch_overflow; vm_compute; reflexivity.
Defined.

(** X20: for the values the widgets of [main] accept, with at least two days
    a week and at least one subject, pressing [Generate Timetable] returns a
    timetable exactly when the lunch break ends within the day and is shorter
    than it; otherwise it raises IndexError. *)
Theorem main_generate_outcome days hours ls ld branch semester year subs r :
  main_config_inputs days hours ls ld -> 2 <= days -> subs <> [] ->
  Forall main_subject_input subs ->
  ((exists t r', main_generate days hours ls ld branch semester year subs r = Ok (Some t, r')) <->
   ls + ld <= hours /\ ld < hours) /\
  ((exists t r', main_generate days hours ls ld branch semester year subs r = Ok (Some t, r')) \/
   main_generate days hours ls ld branch semester year subs r = Raise IndexError).
Proof.
  intros Hin H2 Hne Hs. destruct subs as [|s0 subs0]; [contradiction|].
  unfold main_generate. cbv zeta.
  set (cfg := TimetableConfig_init days hours ls ld branch semester year).
  destruct Hin as (Hd & Hh & Hls & Hld).
  assert (Hcase : (ls + ld <= hours /\ ld < hours /\
                   exists t r', bind (generate_timetable cfg (s0 :: subs0))
                                     (fun t => ret (Some t)) r = Ok (Some t, r')) \/
                  (~ (ls + ld <= hours /\ ld < hours) /\
                   bind (generate_timetable cfg (s0 :: subs0)) (fun t => ret (Some t)) r =
                   Raise IndexError)).
  { destruct (decide (ls + ld <= hours /\ ld < hours)) as [[Ha Hb]|Hn].
    - left. split; [exact Ha|]. split; [exact Hb|].
      destruct (generate_timetable_total cfg (s0 :: subs0) r)
        as [pop [best [r' [_ [Eg _]]]]];
        [unfold valid_config; cbn; lia | cbn; lia | cbn; lia|].
      exists best, r'. rewrite (bind_ok _ _ _ _ _ Eg). reflexivity.
    - right. split; [exact Hn|]. apply bind_raise.
      destruct (Z_lt_le_dec hours (ls + ld)) as [Hover|Hfit].
      + apply generate_timetable_overflow; cbn; lia.
      + apply generate_timetable_no_slots.
        * apply all_slots_empty_iff. intros d h Hc. apply in_cells in Hc.
          unfold in_lunch. cbn in Hc |- *. lia.
        * intros Hf. apply Forall_cons in Hf as [Hf _].
          apply Forall_cons in Hs as [Hs _]. unfold main_subject_input in Hs. lia. }
  destruct Hcase as [[Ha [Hb Hok]]|[Hn Hr]].
  - split; [split; [intros _; auto | intros _; exact Hok] | left; exact Hok].
  - split; [|right; exact Hr].
    split; [intros [t [r' Ht]]; rewrite Hr in Ht; discriminate Ht | intros Hx; contradiction].
Qed.

Lemma main_generate_outcome_witness :
  ((exists t r', main_generate 2 4 3 1 "CSE" 3 2 [lab3; theory_a] zero_source = Ok (Some t, r')) <->
   3 + 1 <= 4 /\ 1 < 4) /\
  ((exists t r', main_generate 2 4 3 1 "CSE" 3 2 [lab3; theory_a] zero_source = Ok (Some t, r')) \/
   main_generate 2 4 3 1 "CSE" 3 2 [lab3; theory_a] zero_source = Raise IndexError).
Proof.
  apply main_generate_outcome.
  - unfold main_config_inputs. lia.
  - lia.
  - discriminate.
  - repeat constructor; unfold main_subject_input; cbn; lia.
Defined.
